(** * YAOF settings engine: schema defaults, debounced persistence,
      overlay reconciliation and change broadcast.

    Shallow embedding of the TypeScript sources

    - [plugins/core-settings] [OverlaySettingsPanel]   (module [Panel])
    - [plugins/core-settings] [DynamicSettingsForm]    (module [Form])
    - [packages/sdk] [usePluginSettings]               (module [PluginSettings])
    - [packages/sdk] [useOverlaySettings]              (module [OverlayHook])

    JavaScript objects are insertion-ordered association lists with unique
    keys; asynchronous functions live in a small monad that reads the
    backend's answers, threads the component state, records every external
    call in order and propagates exceptions.  One asynchronous function runs
    to completion before the next event is handled; timers are deadlines
    kept in the component state and fire when the clock is advanced past
    them ([tick]). *)

From Stdlib Require Import List String ZArith QArith Bool Lia Lqa Permutation.
Import ListNotations.
Open Scope string_scope.
Open Scope Z_scope.
Open Scope list_scope.

Set Warnings "-register-all".

(* ================================================================== *)
(** ** JavaScript values and plain objects *)
(* ================================================================== *)

Module JS.

(** Numbers are rationals: the modelled code stores and forwards them and
    halves differences of pixel sizes, which is exact on them. *)
Inductive value : Type :=
| VUndefined
| VNull
| VBool (b : bool)
| VNum (n : Q)
| VStr (s : string)
| VArr (l : list value)
| VObj (o : list (string * value)).

(** A plain object: own enumerable string keys, in insertion order. *)
Definition obj : Type := list (string * value).

(** [o[k]]: [undefined] when the key is absent (properties inherited from
    the prototype are outside the model). *)
Fixpoint obj_get (o : obj) (k : string) : value :=
  match o with
  | [] => VUndefined
  | (k', v) :: r => if String.eqb k' k then v else obj_get r k
  end.

(** [k in o] for own keys. *)
Fixpoint obj_has (o : obj) (k : string) : bool :=
  match o with
  | [] => false
  | (k', _) :: r => if String.eqb k' k then true else obj_has r k
  end.

(** [o[k] = v]: an existing key keeps its position, a new key is appended. *)
Fixpoint obj_set (o : obj) (k : string) (v : value) : obj :=
  match o with
  | [] => [(k, v)]
  | (k', v') :: r =>
      if String.eqb k' k then (k', v) :: r else (k', v') :: obj_set r k v
  end.

(** [{ ...o, ...u }]. *)
Definition obj_assign (o u : obj) : obj :=
  fold_left (fun acc kv => obj_set acc (fst kv) (snd kv)) u o.

(** [Object.keys(o)] and [Object.entries(o)] (the latter is [o] itself). *)
Definition keys {A : Type} (o : list (string * A)) : list string := map fst o.

(** [v === null || v === undefined]. *)
Definition is_nullish (v : value) : bool :=
  match v with
  | VUndefined | VNull => true
  | _ => false
  end.

(** [a ?? b]. *)
Definition nullish_or (a b : value) : value :=
  if is_nullish a then b else a.

(** [v !== undefined]. *)
Definition is_defined (v : value) : bool :=
  match v with
  | VUndefined => false
  | _ => true
  end.

(** [v === true] and [v === false]. *)
Definition is_true (v : value) : bool :=
  match v with
  | VBool true => true
  | _ => false
  end.

Definition is_false (v : value) : bool :=
  match v with
  | VBool false => true
  | _ => false
  end.

(** Truthiness, as tested by [if (!v)]. *)
Definition truthy (v : value) : bool :=
  match v with
  | VUndefined | VNull => false
  | VBool b => b
  | VNum n => negb (Qeq_bool n 0)
  | VStr s => negb (String.eqb s "")
  | VArr _ | VObj _ => true
  end.

(** [v[k]]: a [TypeError] ([None]) on [null] and [undefined]; own keys
    only on objects (indexed and inherited properties are outside the
    model). *)
Definition prop_get (v : value) (k : string) : option value :=
  match v with
  | VUndefined | VNull => None
  | VObj o => Some (obj_get o k)
  | _ => Some VUndefined
  end.

Definition VInt (z : Z) : value := VNum (inject_Z z).

Definition of_option {A : Type} (inj : A -> value) (o : option A) : value :=
  match o with
  | Some a => inj a
  | None => VUndefined
  end.

End JS.
Import JS.

(* ================================================================== *)
(** ** Settings schema (types/settings.ts) *)
(* ================================================================== *)

(** [{ value, label }] entries of a select-like field. *)
Definition options : Type := list (string * string).

(** The tagged union [SettingField].  Only the members the modelled code
    reads are kept ([description], [placeholder], [shortcutId], [global]
    are rendering data).  A [default] that is not supplied is [None].
    [SliderField]'s [min] is optional here because the code guards it with
    [??]. *)
Inductive SettingField : Type :=
| StringField (label : string) (default : option string)
| NumberField (label : string) (default : option Q) (min max step : option Q)
| BooleanField (label : string) (default : option bool)
| SelectField (label : string) (opts : options) (default : option string)
| ColorField (label : string) (default : option string)
| SliderField (label : string) (min : option Q) (max : Q) (step : option Q)
              (default : option Q)
| KeybindField (label : string) (default : option string)
| MultiChoiceField (label : string) (opts : options)
                   (default : option (list string))
| OrderedListField (label : string) (opts : options)
                   (default : option (list string))
| CategoryField (label : string) (default : option value)
                (fields : list (string * SettingField)).

Definition SettingsSchema : Type := list (string * SettingField).

Definition VStrs (l : list string) : value := VArr (map VStr l).

(** [field.default], the declared default as the SDK hook reads it. *)
Definition field_default (f : SettingField) : value :=
  match f with
  | StringField _ d => of_option VStr d
  | NumberField _ d _ _ _ => of_option VNum d
  | BooleanField _ d => of_option VBool d
  | SelectField _ _ d => of_option VStr d
  | ColorField _ d => of_option VStr d
  | SliderField _ _ _ _ d => of_option VNum d
  | KeybindField _ d => of_option VStr d
  | MultiChoiceField _ _ d => of_option VStrs d
  | OrderedListField _ _ d => of_option VStrs d
  | CategoryField _ d _ => of_option (fun v => v) d
  end.

(** Builds [{ [k]: f(x) for (k, x) of entries }] by successive assignment. *)
Definition build_obj {A : Type} (f : A -> value) (entries : list (string * A))
  : obj :=
  fold_left (fun acc kx => obj_set acc (fst kx) (f (snd kx))) entries [].

(** The same with a body that also reads the key. *)
Definition build_obj_with {A : Type} (f : string -> A -> value)
  (entries : list (string * A)) : obj :=
  fold_left (fun acc kx => obj_set acc (fst kx) (f (fst kx) (snd kx)))
            entries [].

(** [getDefaultValue] of the settings form: the declared default, else a
    kind-specific fallback; a category always yields the object of its
    nested fields' defaults. *)
Fixpoint getDefaultValue (f : SettingField) : value :=
  match f with
  | StringField _ d => nullish_or (of_option VStr d) (VStr "")
  | NumberField _ d _ _ _ => nullish_or (of_option VNum d) (VInt 0)
  | BooleanField _ d => nullish_or (of_option VBool d) (VBool false)
  | SelectField _ opts d =>
      nullish_or
        (nullish_or (of_option VStr d)
                    (of_option VStr (option_map fst (hd_error opts))))
        (VStr "")
  | ColorField _ d => nullish_or (of_option VStr d) (VStr "#000000")
  | SliderField _ mn _ _ d =>
      nullish_or (nullish_or (of_option VNum d) (of_option VNum mn)) (VInt 0)
  | KeybindField _ d => nullish_or (of_option VStr d) (VStr "")
  | MultiChoiceField _ _ d => nullish_or (of_option VStrs d) (VArr [])
  | OrderedListField _ _ d => nullish_or (of_option VStrs d) (VArr [])
  | CategoryField _ _ fields => VObj (build_obj getDefaultValue fields)
  end.

(* ================================================================== *)
(** ** External calls and the monad of asynchronous code *)
(* ================================================================== *)

(** Everything the components ask of the outside world: Tauri commands,
    the event bus, the plugin store and the console. *)
Inductive Call : Type :=
| Invoke (cmd : string) (args : obj)
| Emit (topic : string) (payload : obj)
| Listen (topic : string)
| StoreLoad (name : string)
| StoreGet (store key : string)
| StoreSet (store key : string) (v : value)
| StoreSave (store : string)
| ConsoleError (msg : string).

(** A settled promise: fulfilled with a value or rejected. *)
Inductive result (A : Type) : Type :=
| Ok (a : A)
| Throw.
Arguments Ok {A} a.
Arguments Throw {A}.

(** The backend decides how each call settles. *)
Definition Backend : Type := Call -> result value.

Module Async.
Section Monad.
Context {S : Type}.

(** Reads the backend, threads the component state [S], appends to the
    log of issued calls, may throw.  State and log survive a throw. *)
Definition M (A : Type) : Type :=
  Backend -> S -> list Call -> result A * S * list Call.

Definition ret {A} (a : A) : M A := fun _ s tr => (Ok a, s, tr).

Definition bind {A B} (m : M A) (k : A -> M B) : M B :=
  fun be s tr =>
    match m be s tr with
    | (Ok a, s', tr') => k a be s' tr'
    | (Throw, s', tr') => (Throw, s', tr')
    end.

(** [await] of an external call: logged when issued, then settled by
    the backend. *)
Definition call (c : Call) : M value :=
  fun be s tr => (be c, s, tr ++ [c]).

Definition get : M S := fun _ s tr => (Ok s, s, tr).
Definition modify (f : S -> S) : M unit := fun _ s tr => (Ok tt, f s, tr).

(** [try { m } catch { h }]. *)
Definition try_catch {A} (m : M A) (h : M A) : M A :=
  fun be s tr =>
    match m be s tr with
    | (Throw, s', tr') => h be s' tr'
    | r => r
    end.

(** [try { m } finally { f }]. *)
Definition finally {A} (m : M A) (f : M unit) : M A :=
  fun be s tr =>
    match m be s tr with
    | (r, s', tr') =>
        match f be s' tr' with
        | (Ok _, s'', tr'') => (r, s'', tr'')
        | (Throw, s'', tr'') => (Throw, s'', tr'')
        end
    end.

(** A promise that is not awaited: its rejection is not observed. *)
Definition detach (m : M unit) : M unit :=
  fun be s tr =>
    match m be s tr with
    | (_, s', tr') => (Ok tt, s', tr')
    end.

(** [for (const x of l) { body(x) }]. *)
Fixpoint for_each {A} (l : list A) (body : A -> M unit) : M unit :=
  match l with
  | [] => ret tt
  | x :: r => bind (body x) (fun _ => for_each r body)
  end.

(** A loop that threads a local variable. *)
Fixpoint fold_m {A B} (l : list A) (acc : B) (body : B -> A -> M B) : M B :=
  match l with
  | [] => ret acc
  | x :: r => bind (body acc x) (fun acc' => fold_m r acc' body)
  end.

(** A synchronous step that may raise a [TypeError]. *)
Definition lift_option {A} (o : option A) : M A :=
  fun _ s tr =>
    match o with
    | Some a => (Ok a, s, tr)
    | None => (Throw, s, tr)
    end.

(** [if (c) { m }]. *)
Definition when (c : bool) (m : M unit) : M unit :=
  if c then m else ret tt.

Definition console_error (msg : string) : M unit :=
  fun _ s tr => (Ok tt, s, tr ++ [ConsoleError msg]).

(** Runs from an empty log. *)
Definition run {A} (m : M A) (be : Backend) (s : S)
  : result A * S * list Call := m be s [].
End Monad.
End Async.
Import Async.

Declare Scope async_scope.
Delimit Scope async_scope with async.
Notation "x <- m ;; k" := (bind m (fun x => k))
  (at level 61, m at next level, right associativity) : async_scope.
Notation "m ;; k" := (bind m (fun _ => k))
  (at level 61, right associativity) : async_scope.
Open Scope async_scope.

(** The state a call leaves behind, and the calls it issued. *)
Definition state_of {S A} (r : result A * S * list Call) : S := snd (fst r).
Definition calls_of {S A} (r : result A * S * list Call) : list Call := snd r.
Definition outcome_of {S A} (r : result A * S * list Call) : result A :=
  fst (fst r).

Definition is_invoke (c : Call) : bool :=
  match c with
  | Invoke _ _ => true
  | _ => false
  end.

Definition is_store_write (c : Call) : bool :=
  match c with
  | StoreSet _ _ _ | StoreSave _ => true
  | _ => false
  end.

(** The Tauri commands among the issued calls, in order. *)
Definition invocations (tr : list Call) : list Call := filter is_invoke tr.

(** The store writes among the issued calls, in order. *)
Definition store_writes (tr : list Call) : list Call :=
  filter is_store_write tr.

(** The event topic both the settings form and the SDK hooks use. *)
Definition settings_topic (pluginId : string) : string :=
  ("yaof:settings:changed:" ++ pluginId)%string.

(* ================================================================== *)
(** ** DynamicSettingsForm (core-settings) *)
(* ================================================================== *)

Module Form.

Definition DEBOUNCE_DELAY : Z := 500.

Record Props : Type := {
  pluginId : string;
  schema : SettingsSchema
}.

(** React state and refs of the component.  [debounceTimer] holds the
    deadline of the armed timeout; a timeout that has fired is recorded as
    [None] (clearing a fired timeout does nothing). *)
Record State : Type := {
  values : obj;
  isLoading : bool;
  isSaving : bool;
  hasChanges : bool;
  latestValues : obj;
  debounceTimer : option Z
}.

Definition initial : State :=
  {| values := []; isLoading := true; isSaving := false;
     hasChanges := false; latestValues := []; debounceTimer := None |}.

Definition setValues (v : obj) (s : State) : State :=
  {| values := v; isLoading := isLoading s; isSaving := isSaving s;
     hasChanges := hasChanges s; latestValues := latestValues s;
     debounceTimer := debounceTimer s |}.
Definition setIsLoading (b : bool) (s : State) : State :=
  {| values := values s; isLoading := b; isSaving := isSaving s;
     hasChanges := hasChanges s; latestValues := latestValues s;
     debounceTimer := debounceTimer s |}.
Definition setIsSaving (b : bool) (s : State) : State :=
  {| values := values s; isLoading := isLoading s; isSaving := b;
     hasChanges := hasChanges s; latestValues := latestValues s;
     debounceTimer := debounceTimer s |}.
Definition setHasChanges (b : bool) (s : State) : State :=
  {| values := values s; isLoading := isLoading s; isSaving := isSaving s;
     hasChanges := b; latestValues := latestValues s;
     debounceTimer := debounceTimer s |}.
Definition setLatestValues (v : obj) (s : State) : State :=
  {| values := values s; isLoading := isLoading s; isSaving := isSaving s;
     hasChanges := hasChanges s; latestValues := v;
     debounceTimer := debounceTimer s |}.
Definition setTimer (t : option Z) (s : State) : State :=
  {| values := values s; isLoading := isLoading s; isSaving := isSaving s;
     hasChanges := hasChanges s; latestValues := latestValues s;
     debounceTimer := t |}.

(** The merge loop of [loadSettings]:
    [merged[key] = stored[key] ?? getDefaultValue(field)]. *)
Definition mergeStored (sch : SettingsSchema) (stored : value)
  : M (S := State) obj :=
  fold_m sch [] (fun merged kf =>
    sv <- lift_option (prop_get stored (fst kf)) ;;
    ret (obj_set merged (fst kf) (nullish_or sv (getDefaultValue (snd kf))))).

Definition schemaDefaults (sch : SettingsSchema) : obj :=
  build_obj getDefaultValue sch.

Definition loadSettings (p : Props) : M unit :=
  modify (setIsLoading true) ;;
  finally
    (try_catch
       (stored <- call (Invoke "plugin:yaof|plugin_settings_get_all"
                               [("pluginId", VStr (pluginId p))]) ;;
        merged <- mergeStored (schema p) stored ;;
        modify (setLatestValues merged) ;;
        modify (setValues merged))
       (console_error "Failed to load settings:" ;;
        modify (setValues (schemaDefaults (schema p)))))
    (modify (setIsLoading false)).

(** The body shared by the debounced and the immediate save: persist the
    whole values object, then broadcast it.  (The optional [onSave]
    callback of the hosting page is not part of the model.) *)
Definition saveAndEmit (p : Props) (valuesToSave : obj) : M unit :=
  modify (setIsSaving true) ;;
  finally
    (try_catch
       (call (Invoke "plugin:yaof|plugin_settings_set_all"
                     [("pluginId", VStr (pluginId p));
                      ("values", VObj valuesToSave)]) ;;
        call (Emit (settings_topic (pluginId p))
                   [("pluginId", VStr (pluginId p));
                    ("values", VObj valuesToSave)]) ;;
        modify (setHasChanges false))
       (console_error "Failed to save settings:"))
    (modify (setIsSaving false)).

Definition debouncedSave (p : Props) (valuesToSave : obj) : M unit :=
  saveAndEmit p valuesToSave.

(** [handleChange(key, value)] at time [now]. *)
Definition handleChange (now : Z) (key : string) (v : value) : M unit :=
  s <- get ;;
  let newValues := obj_set (latestValues s) key v in
  modify (setLatestValues newValues) ;;
  modify (setValues newValues) ;;
  modify (setHasChanges true) ;;
  modify (setTimer (Some (now + DEBOUNCE_DELAY))).

(** The timeout callback: [debouncedSave(latestValuesRef.current)]. *)
Definition onTimeout (p : Props) : M unit :=
  s <- get ;;
  debouncedSave p (latestValues s).

(** Lets the clock reach [now]: an armed timeout whose deadline has come
    fires. *)
Definition tick (p : Props) (now : Z) : M unit :=
  s <- get ;;
  match debounceTimer s with
  | Some d => if d <=? now then modify (setTimer None) ;; onTimeout p
              else ret tt
  | None => ret tt
  end.

(** The Save button. *)
Definition handleSave (p : Props) : M unit :=
  modify (setTimer None) ;;
  s <- get ;;
  saveAndEmit p (values s).

(** The Reset-to-defaults button, pressed at time [now]. *)
Definition handleReset (p : Props) (now : Z) : M unit :=
  modify (setTimer None) ;;
  let defaults := schemaDefaults (schema p) in
  modify (setLatestValues defaults) ;;
  modify (setValues defaults) ;;
  modify (setHasChanges true) ;;
  modify (setTimer (Some (now + DEBOUNCE_DELAY))).

End Form.

(* ================================================================== *)
(** ** usePluginSettings (SDK hook) *)
(* ================================================================== *)

Module PluginSettings.

Record Props : Type := {
  pluginId : string;
  schema : SettingsSchema
}.

(** [store] is the handle obtained from [load], identified by the
    document name; [null] until [setStore] runs. *)
Record State : Type := {
  store : option string;
  isLoading : bool;
  values : obj
}.

Definition initial : State :=
  {| store := None; isLoading := true; values := [] |}.

Definition setStore (h : string) (s : State) : State :=
  {| store := Some h; isLoading := isLoading s; values := values s |}.
Definition setIsLoading (b : bool) (s : State) : State :=
  {| store := store s; isLoading := b; values := values s |}.
Definition setValues (v : obj) (s : State) : State :=
  {| store := store s; isLoading := isLoading s; values := v |}.

Definition storeName (p : Props) : string :=
  (pluginId p ++ "-settings.json")%string.

(** [defaults]: [result[key] = field.default] for every schema entry. *)
Definition defaults (p : Props) : obj := build_obj field_default (schema p).

(** The read loop of [loadSettings]. *)
Definition readAll (h : string) (sch : SettingsSchema) : M (S := State) obj :=
  fold_m sch [] (fun loaded kf =>
    stored <- call (StoreGet h (fst kf)) ;;
    ret (obj_set loaded (fst kf)
           (if negb (is_nullish stored) then stored
            else field_default (snd kf)))).

(** [loadSettings]; [mounted] is the effect's liveness flag when the
    store has been opened. *)
Definition loadSettings (p : Props) (mounted : bool) : M unit :=
  finally
    (try_catch
       (call (StoreLoad (storeName p)) ;;
        if negb mounted then ret tt
        else
          modify (setStore (storeName p)) ;;
          loaded <- readAll (storeName p) (schema p) ;;
          modify (setValues loaded))
       (console_error "[usePluginSettings] Failed to load:" ;;
        modify (setValues (defaults p))))
    (when mounted (modify (setIsLoading false))).

(** The handler registered by [setupListener], applied to the [values]
    member of a received payload. *)
Definition onSettingsChanged (p : Props) (newValues : obj) : M unit :=
  modify (setValues
    (build_obj_with (fun key field =>
        if obj_has newValues key then obj_get newValues key
        else field_default field) (schema p))).

Definition setupListener (p : Props) : M (S := State) unit :=
  try_catch
    (call (Listen (settings_topic (pluginId p))) ;; ret tt)
    (console_error "[usePluginSettings] Failed to setup settings listener:").

(** [setSetting(key, value)]. *)
Definition setSetting (key : string) (v : value) : M unit :=
  s <- get ;;
  match store s with
  | None => ret tt
  | Some h =>
      modify (fun s => setValues (obj_set (values s) key v) s) ;;
      call (StoreSet h key v) ;;
      call (StoreSave h) ;;
      ret tt
  end.

(** [setSettings(updates)]. *)
Definition setSettings (updates : obj) : M unit :=
  s <- get ;;
  match store s with
  | None => ret tt
  | Some h =>
      modify (fun s => setValues (obj_assign (values s) updates) s) ;;
      for_each updates (fun kv => call (StoreSet h (fst kv) (snd kv)) ;; ret tt) ;;
      call (StoreSave h) ;;
      ret tt
  end.

(** [schema[key]?.default]. *)
Definition schemaDefault (sch : SettingsSchema) (key : string) : value :=
  match find (fun kf => String.eqb (fst kf) key) sch with
  | Some kf => field_default (snd kf)
  | None => VUndefined
  end.

(** [resetSetting(key)]. *)
Definition resetSetting (p : Props) (key : string) : M unit :=
  setSetting key (schemaDefault (schema p) key).

(** [resetAll()]. *)
Definition resetAll (p : Props) : M unit :=
  s <- get ;;
  match store s with
  | None => ret tt
  | Some h =>
      modify (setValues (defaults p)) ;;
      for_each (defaults p)
               (fun kv => call (StoreSet h (fst kv) (snd kv)) ;; ret tt) ;;
      call (StoreSave h) ;;
      ret tt
  end.

End PluginSettings.

(* ================================================================== *)
(** ** Overlay manifest entries and the position presets *)
(* ================================================================== *)

Module Manifest.

(** [OverlayDefinition] / [PluginOverlay]: one window of a plugin
    manifest. *)
Record OverlayDefinition : Type := {
  width : Q;
  height : Q;
  x : option Q;
  y : option Q;
  defaultPosition : option string;
  clickThrough : option bool;
  frameless : option bool;
  route : option string
}.

Definition screenWidth : Q := 1920.
Definition screenHeight : Q := 1080.

Definition half (d : Q) : Q := Qred (d / 2).
Definition minus (a b : Q) : Q := Qred (a - b).

(** [calculateDefaultPosition(preset, width, height)], the same in the
    settings panel and in the SDK hook.  Numbers are exact rationals here
    where the code has binary64 doubles.  For a width and height that are
    integers up to the screen size every intermediate result is an integer
    or a half-integer below 2^53, which a double holds exactly, so the two
    computations agree; for other sizes the code rounds and this definition
    does not. *)
Definition calculateDefaultPosition (preset : option string) (w h : Q)
  : Q * Q :=
  match preset with
  | Some "top-left" => (0, 0)
  | Some "top-center" => (half (minus screenWidth w), 0)
  | Some "top-right" => (minus screenWidth w, 0)
  | Some "center-left" => (0, half (minus screenHeight h))
  | Some "center" => (half (minus screenWidth w), half (minus screenHeight h))
  | Some "center-right" => (minus screenWidth w, half (minus screenHeight h))
  | Some "bottom-left" => (0, minus screenHeight h)
  | Some "bottom-center" => (half (minus screenWidth w), minus screenHeight h)
  | Some "bottom-right" => (minus screenWidth w, minus screenHeight h)
  | _ => (100, 100)
  end%Q.

End Manifest.

(** The identifiers derived from the plugin and overlay ids. *)
Definition overlayStoreName (pluginId overlayId : string) : string :=
  (pluginId ++ "-" ++ overlayId ++ "-overlay.json")%string.
Definition overlayWindowId (pluginId overlayId : string) : string :=
  (pluginId ++ "-" ++ overlayId)%string.

(** [for (const key of ks) { const value = await s.get(key);
    if (value !== null && value !== undefined) loaded[key] = value; }] *)
Definition overrideStored {S : Type} (h : string) (ks : list string)
  (loaded : obj) : M (S := S) obj :=
  fold_m ks loaded (fun acc key =>
    v <- call (StoreGet h key) ;;
    ret (if negb (is_nullish v) then obj_set acc key v else acc)).

(** [for (const [key, value] of Object.entries(pending))
    await store.set(key, value); await store.save();] *)
Definition writeAll {S : Type} (h : string) (pending : obj)
  : M (S := S) unit :=
  for_each pending (fun kv => call (StoreSet h (fst kv) (snd kv)) ;; ret tt) ;;
  call (StoreSave h) ;;
  ret tt.

(* ================================================================== *)
(** ** OverlaySettingsPanel (core-settings): the reconciler *)
(* ================================================================== *)

Module Panel.
Import Manifest.

Definition DEBOUNCE_DELAY : Z := 300.

Record Props : Type := {
  pluginId : string;
  overlayId : string;
  overlayDefinition : OverlayDefinition
}.

(** An armed timeout: its deadline and the [store] its closure captured
    when [debouncedUpdate] was created. *)
Record Timer : Type := {
  deadline : Z;
  timer_store : option string
}.

Record State : Type := {
  store : option string;
  settings : obj;
  isLoading : bool;
  isOverlayRunning : bool;
  pendingUpdates : obj;
  debounceTimer : option Timer
}.

Definition setStore (h : string) (s : State) : State :=
  {| store := Some h; settings := settings s; isLoading := isLoading s;
     isOverlayRunning := isOverlayRunning s;
     pendingUpdates := pendingUpdates s; debounceTimer := debounceTimer s |}.
Definition setSettings (v : obj) (s : State) : State :=
  {| store := store s; settings := v; isLoading := isLoading s;
     isOverlayRunning := isOverlayRunning s;
     pendingUpdates := pendingUpdates s; debounceTimer := debounceTimer s |}.
Definition setIsLoading (b : bool) (s : State) : State :=
  {| store := store s; settings := settings s; isLoading := b;
     isOverlayRunning := isOverlayRunning s;
     pendingUpdates := pendingUpdates s; debounceTimer := debounceTimer s |}.
Definition setIsOverlayRunning (b : bool) (s : State) : State :=
  {| store := store s; settings := settings s; isLoading := isLoading s;
     isOverlayRunning := b;
     pendingUpdates := pendingUpdates s; debounceTimer := debounceTimer s |}.
Definition setPending (v : obj) (s : State) : State :=
  {| store := store s; settings := settings s; isLoading := isLoading s;
     isOverlayRunning := isOverlayRunning s;
     pendingUpdates := v; debounceTimer := debounceTimer s |}.
Definition setTimer (t : option Timer) (s : State) : State :=
  {| store := store s; settings := settings s; isLoading := isLoading s;
     isOverlayRunning := isOverlayRunning s;
     pendingUpdates := pendingUpdates s; debounceTimer := t |}.

Definition storeName (p : Props) : string :=
  overlayStoreName (pluginId p) (overlayId p).
Definition windowId (p : Props) : string :=
  overlayWindowId (pluginId p) (overlayId p).

(** [getDefaultSettings(def)]. *)
Definition getDefaultSettings (def : OverlayDefinition) : obj :=
  let defaultPos :=
    calculateDefaultPosition (defaultPosition def) (width def) (height def) in
  [ ("enabled", VBool true);
    ("width", VNum (width def));
    ("height", VNum (height def));
    ("x", nullish_or (of_option VNum (x def)) (VNum (fst defaultPos)));
    ("y", nullish_or (of_option VNum (y def)) (VNum (snd defaultPos)));
    ("alwaysOnTop", VBool true);
    ("clickThrough",
       nullish_or (of_option VBool (clickThrough def)) (VBool false)) ].

Definition initial (p : Props) : State :=
  {| store := None; settings := getDefaultSettings (overlayDefinition p);
     isLoading := true; isOverlayRunning := false;
     pendingUpdates := []; debounceTimer := None |}.

Definition existsCall (p : Props) : Call :=
  Invoke "plugin:yaof|overlay_exists" [("id", VStr (windowId p))].

Definition checkOverlayStatus (p : Props) : M unit :=
  try_catch
    (e <- call (existsCall p) ;;
     modify (setIsOverlayRunning (truthy e)))
    (console_error "Failed to check overlay status:" ;;
     modify (setIsOverlayRunning false)).

Definition loadSettings (p : Props) (mounted : bool) : M unit :=
  finally
    (try_catch
       (call (StoreLoad (storeName p)) ;;
        if negb mounted then ret tt
        else
          modify (setStore (storeName p)) ;;
          let defaults := getDefaultSettings (overlayDefinition p) in
          loaded <- overrideStored (storeName p) (keys defaults) defaults ;;
          modify (setSettings loaded) ;;
          checkOverlayStatus p)
       (console_error "Failed to load overlay settings:"))
    (when mounted (modify (setIsLoading false))).

(** The [config] argument of [spawn_overlay]. *)
Definition spawnConfig (p : Props) (currentSettings : obj) : obj :=
  let route :=
    match route (overlayDefinition p) with
    | Some r => r
    | None => "/"
    end in
  let entryPoint :=
    ("yaof-plugin://" ++ pluginId p ++ "/index.html#" ++ route)%string in
  [ ("id", VStr (windowId p));
    ("pluginId", VStr (pluginId p));
    ("entryPoint", VStr entryPoint);
    ("width", obj_get currentSettings "width");
    ("height", obj_get currentSettings "height");
    ("x", obj_get currentSettings "x");
    ("y", obj_get currentSettings "y");
    ("clickThrough", obj_get currentSettings "clickThrough");
    ("frameless", VBool true) ].

Definition geometryArgs (id : string) (s : obj) : obj :=
  [ ("id", VStr id);
    ("x", obj_get s "x");
    ("y", obj_get s "y");
    ("width", obj_get s "width");
    ("height", obj_get s "height") ].

(** [applyToOverlay(updates, currentSettings)]. *)
Definition applyToOverlay (p : Props) (updates currentSettings : obj)
  : M unit :=
  e <- call (existsCall p) ;;
  if negb (truthy e) then
    when (is_true (obj_get updates "enabled"))
      (try_catch
         (call (Invoke "plugin:yaof|spawn_overlay"
                       [("config", VObj (spawnConfig p currentSettings))]) ;;
          modify (setIsOverlayRunning true))
         (console_error "Failed to spawn overlay:"))
  else
    try_catch
      (if is_false (obj_get updates "enabled") then
         call (Invoke "plugin:yaof|overlay_set_visible"
                      [("id", VStr (windowId p)); ("visible", VBool false)]) ;;
         ret tt
       else
         when (is_true (obj_get updates "enabled"))
           (call (Invoke "plugin:yaof|overlay_set_visible"
                         [("id", VStr (windowId p)); ("visible", VBool true)]) ;;
            ret tt) ;;
         when (is_defined (obj_get updates "x")
               || is_defined (obj_get updates "y")
               || is_defined (obj_get updates "width")
               || is_defined (obj_get updates "height"))
           (call (Invoke "plugin:yaof|overlay_update_geometry"
                         (geometryArgs (windowId p) currentSettings)) ;;
            ret tt) ;;
         when (is_defined (obj_get updates "clickThrough"))
           (call (Invoke "plugin:yaof|overlay_set_click_through"
                         [("id", VStr (windowId p));
                          ("enabled", obj_get updates "clickThrough")]) ;;
            ret tt) ;;
         when (is_defined (obj_get updates "alwaysOnTop"))
           (call (Invoke "plugin:yaof|overlay_set_always_on_top"
                         [("id", VStr (windowId p));
                          ("enabled", obj_get updates "alwaysOnTop")]) ;;
            ret tt))
      (console_error "Failed to apply overlay settings:").

(** [debouncedUpdate(updates)] at time [now]: buffer, update the local
    settings, re-arm the timer. *)
Definition debouncedUpdate (now : Z) (updates : obj) : M unit :=
  modify (fun s => setPending (obj_assign (pendingUpdates s) updates) s) ;;
  modify (fun s => setSettings (obj_assign (settings s) updates) s) ;;
  modify (fun s =>
    setTimer (Some {| deadline := now + DEBOUNCE_DELAY;
                      timer_store := store s |}) s).

(** [updateSetting(key, value)]. *)
Definition updateSetting (now : Z) (key : string) (v : value) : M unit :=
  debouncedUpdate now [(key, v)].

(** The timeout callback. *)
Definition onTimeout (p : Props) (captured_store : option string) : M unit :=
  s <- get ;;
  let pending := pendingUpdates s in
  modify (setPending []) ;;
  match captured_store with
  | None => ret tt
  | Some h =>
      if (List.length pending =? 0)%nat then ret tt
      else
        try_catch (writeAll h pending)
                  (console_error "Failed to save settings:") ;;
        s' <- get ;;
        detach (applyToOverlay p pending (settings s'))
  end.

(** Lets the clock reach [now]. *)
Definition tick (p : Props) (now : Z) : M unit :=
  s <- get ;;
  match debounceTimer s with
  | Some t =>
      if deadline t <=? now then
        modify (setTimer None) ;; onTimeout p (timer_store t)
      else ret tt
  | None => ret tt
  end.

(** The cleanup of the loading effect, run when the panel is unmounted or
    its effect re-runs (the host page keeps the panel instance when the
    user selects another overlay): the pending timeout is cleared;
    [pendingUpdatesRef] is left as it is. *)
Definition cleanup : M unit := modify (setTimer None).

(** A burst of [updateSetting] calls, each at its own time. *)
Definition updates (p : Props) (evs : list (Z * (string * value))) : M unit :=
  for_each evs (fun ev =>
    tick p (fst ev) ;;
    updateSetting (fst ev) (fst (snd ev)) (snd (snd ev))).

End Panel.

(* ================================================================== *)
(** ** useOverlaySettings (SDK hook) *)
(* ================================================================== *)

Module OverlayHook.
Import Manifest.

Definition DEBOUNCE_DELAY : Z := 300.

(** [overlayDef] is [manifest?.overlays?.[overlayId]]. *)
Record Props : Type := {
  pluginId : string;
  overlayId : string;
  overlayDef : option OverlayDefinition
}.

Definition FALLBACK_DEFAULTS : obj :=
  [ ("enabled", VBool true);
    ("width", VInt 300);
    ("height", VInt 200);
    ("x", VInt 100);
    ("y", VInt 100);
    ("positionPreset", VStr "bottom-right");
    ("opacity", VInt 100);
    ("clickThrough", VBool false);
    ("alwaysOnTop", VBool true) ].

(** An armed timeout with what its closure captured: the [store] and the
    [currentSettings] argument of [debouncedApply]. *)
Record Timer : Type := {
  deadline : Z;
  timer_store : option string;
  timer_settings : obj
}.

Record State : Type := {
  store : option string;
  settings : obj;
  manifestDefaults : obj;
  isLoading : bool;
  pendingUpdates : obj;
  debounceTimer : option Timer
}.

Definition initial : State :=
  {| store := None; settings := FALLBACK_DEFAULTS;
     manifestDefaults := FALLBACK_DEFAULTS; isLoading := true;
     pendingUpdates := []; debounceTimer := None |}.

Definition setStore (h : string) (s : State) : State :=
  {| store := Some h; settings := settings s;
     manifestDefaults := manifestDefaults s; isLoading := isLoading s;
     pendingUpdates := pendingUpdates s; debounceTimer := debounceTimer s |}.
Definition setSettings (v : obj) (s : State) : State :=
  {| store := store s; settings := v;
     manifestDefaults := manifestDefaults s; isLoading := isLoading s;
     pendingUpdates := pendingUpdates s; debounceTimer := debounceTimer s |}.
Definition setManifestDefaults (v : obj) (s : State) : State :=
  {| store := store s; settings := settings s;
     manifestDefaults := v; isLoading := isLoading s;
     pendingUpdates := pendingUpdates s; debounceTimer := debounceTimer s |}.
Definition setIsLoading (b : bool) (s : State) : State :=
  {| store := store s; settings := settings s;
     manifestDefaults := manifestDefaults s; isLoading := b;
     pendingUpdates := pendingUpdates s; debounceTimer := debounceTimer s |}.
Definition setPending (v : obj) (s : State) : State :=
  {| store := store s; settings := settings s;
     manifestDefaults := manifestDefaults s; isLoading := isLoading s;
     pendingUpdates := v; debounceTimer := debounceTimer s |}.
Definition setTimer (t : option Timer) (s : State) : State :=
  {| store := store s; settings := settings s;
     manifestDefaults := manifestDefaults s; isLoading := isLoading s;
     pendingUpdates := pendingUpdates s; debounceTimer := t |}.

Definition storeName (p : Props) : string :=
  overlayStoreName (pluginId p) (overlayId p).
Definition windowId (p : Props) : string :=
  overlayWindowId (pluginId p) (overlayId p).

(** The [defaults] object [loadSettings] builds from the manifest entry. *)
Definition buildDefaults (def : option OverlayDefinition) : obj :=
  let w := nullish_or (of_option VNum (option_map width def))
                      (obj_get FALLBACK_DEFAULTS "width") in
  let h := nullish_or (of_option VNum (option_map height def))
                      (obj_get FALLBACK_DEFAULTS "height") in
  let defaultPos :=
    calculateDefaultPosition
      (match def with Some d => defaultPosition d | None => None end)
      (match def with Some d => width d | None => 300 end)
      (match def with Some d => height d | None => 200 end) in
  [ ("enabled", VBool true);
    ("width", w);
    ("height", h);
    ("x", nullish_or
            (of_option VNum (match def with Some d => x d | None => None end))
            (VNum (fst defaultPos)));
    ("y", nullish_or
            (of_option VNum (match def with Some d => y d | None => None end))
            (VNum (snd defaultPos)));
    ("positionPreset",
       nullish_or
         (of_option VStr
            (match def with Some d => defaultPosition d | None => None end))
         (obj_get FALLBACK_DEFAULTS "positionPreset"));
    ("opacity", obj_get FALLBACK_DEFAULTS "opacity");
    ("clickThrough",
       nullish_or
         (of_option VBool
            (match def with Some d => clickThrough d | None => None end))
         (obj_get FALLBACK_DEFAULTS "clickThrough"));
    ("alwaysOnTop", obj_get FALLBACK_DEFAULTS "alwaysOnTop") ].

Definition geometryCall (p : Props) (s : obj) : Call :=
  Invoke "plugin:yaof|overlay_update_geometry"
         [ ("id", VStr (windowId p));
           ("x", obj_get s "x");
           ("y", obj_get s "y");
           ("width", obj_get s "width");
           ("height", obj_get s "height") ].

Definition clickThroughCall (p : Props) (s : obj) : Call :=
  Invoke "plugin:yaof|overlay_set_click_through"
         [ ("id", VStr (windowId p));
           ("enabled", obj_get s "clickThrough") ].

Definition alwaysOnTopCall (p : Props) (s : obj) : Call :=
  Invoke "plugin:yaof|overlay_set_always_on_top"
         [ ("id", VStr (windowId p));
           ("enabled", obj_get s "alwaysOnTop") ].

Definition visibleCall (p : Props) (s : obj) : Call :=
  Invoke "plugin:yaof|overlay_set_visible"
         [ ("id", VStr (windowId p));
           ("visible", obj_get s "enabled") ].

(** [applySettings(s, skipClickThrough = false)]. *)
Definition applySettings (p : Props) (s : obj) (skipClickThrough : bool)
  : M (S := State) unit :=
  try_catch
    (call (geometryCall p s) ;;
     when (negb skipClickThrough) (call (clickThroughCall p s) ;; ret tt) ;;
     call (alwaysOnTopCall p s) ;;
     call (visibleCall p s) ;;
     ret tt)
    (console_error "[useOverlaySettings] Failed to apply:").

Definition loadSettings (p : Props) (mounted : bool) : M unit :=
  finally
    (try_catch
       (call (StoreLoad (storeName p)) ;;
        if negb mounted then ret tt
        else
          modify (setStore (storeName p)) ;;
          let defaults := buildDefaults (overlayDef p) in
          modify (setManifestDefaults defaults) ;;
          loaded <- overrideStored (storeName p) (keys defaults) defaults ;;
          modify (setSettings loaded) ;;
          applySettings p loaded true)
       (console_error "[useOverlaySettings] Failed to load:"))
    (when mounted (modify (setIsLoading false))).

(** [debouncedApply(updates, currentSettings)] at time [now]. *)
Definition debouncedApply (now : Z) (updates currentSettings : obj)
  : M unit :=
  modify (fun s => setPending (obj_assign (pendingUpdates s) updates) s) ;;
  modify (fun s =>
    setTimer (Some {| deadline := now + DEBOUNCE_DELAY;
                      timer_store := store s;
                      timer_settings := currentSettings |}) s).

(** [updateSettings(updates)] at time [now], as created by a render that
    saw [rendered] as [settings]: the callback spreads the settings its
    closure captured, not the state at the time of the call. *)
Definition updateSettingsOf (rendered : obj) (now : Z) (updates : obj)
  : M unit :=
  let newSettings := obj_assign rendered updates in
  modify (setSettings newSettings) ;;
  debouncedApply now updates newSettings.

(** [updateSettings] as handed out by the latest render, which saw the
    current state (the callback is re-created whenever [settings]
    changes). *)
Definition updateSettings (now : Z) (updates : obj) : M unit :=
  s <- get ;;
  updateSettingsOf (settings s) now updates.

(** [resetToDefaults()] at time [now]. *)
Definition resetToDefaults (now : Z) : M unit :=
  s <- get ;;
  updateSettings now (manifestDefaults s).

(** The timeout callback. *)
Definition onTimeout (p : Props) (t : Timer) : M unit :=
  s <- get ;;
  let pending := pendingUpdates s in
  modify (setPending []) ;;
  match timer_store t with
  | None => ret tt
  | Some h =>
      if (List.length pending =? 0)%nat then ret tt
      else
        try_catch (writeAll h pending)
                  (console_error "[useOverlaySettings] Failed to save:") ;;
        applySettings p (timer_settings t) false
  end.

(** Lets the clock reach [now]. *)
Definition tick (p : Props) (now : Z) : M unit :=
  s <- get ;;
  match debounceTimer s with
  | Some t =>
      if deadline t <=? now then modify (setTimer None) ;; onTimeout p t
      else ret tt
  | None => ret tt
  end.

End OverlayHook.

(* ================================================================== *)
(** ** OrderedListField (core-settings) *)
(* ================================================================== *)

Module OrderedList.

(** An array element: a string, or [undefined] ([None]) where an index
    outside the array is read or skipped over (holes count as
    [undefined]). *)
Definition elem : Type := option string.

(** [a[i]]. *)
Definition at_index (a : list elem) (i : nat) : elem := nth i a None.

(** [a[i] = v]: past the end the array grows. *)
Fixpoint assign (a : list elem) (i : nat) (v : elem) : list elem :=
  match a, i with
  | [], O => [v]
  | [], S i' => None :: assign [] i' v
  | _ :: r, O => v :: r
  | x :: r, S i' => x :: assign r i' v
  end.

(** [a.includes(x)]. *)
Definition includes (a : list elem) (x : string) : bool :=
  existsb (fun e => match e with
                    | Some y => String.eqb y x
                    | None => false
                    end) a.

(** [a.filter((_, i) => keep(i))], counting from [i0]. *)
Fixpoint filter_index (keep : nat -> bool) (a : list elem) (i0 : nat)
  : list elem :=
  match a with
  | [] => []
  | x :: r =>
      if keep i0 then x :: filter_index keep r (S i0)
      else filter_index keep r (S i0)
  end.

(** The handlers return what they pass to [onChange], [None] when they
    do not call it. *)

Definition handleRemove (value : list elem) (index : nat)
  : option (list elem) :=
  Some (filter_index (fun i => negb (Nat.eqb i index)) value 0).

Definition handleShiftUp (value : list elem) (index : nat)
  : option (list elem) :=
  if Nat.ltb 0 index then
    let upper := at_index value index in
    let lower := at_index value (index - 1) in
    Some (assign (assign value (index - 1) upper) index lower)
  else None.

(** The guard [index < value.length - 1] is written without the
    subtraction: [index + 1 < value.length]. *)
Definition handleShiftDown (value : list elem) (index : nat)
  : option (list elem) :=
  if Nat.ltb (S index) (List.length value) then
    let upper := at_index value (index + 1) in
    let lower := at_index value index in
    Some (assign (assign value index upper) (index + 1) lower)
  else None.

Definition handleAdd (value : list elem) (enumValue : string)
  : option (list elem) :=
  if negb (includes value enumValue) then Some (value ++ [Some enumValue])
  else None.

(** [handleDragEnd()] with the two indices held in the component state:
    [splice(dragged, 1)] then [splice(over, 0, removed)]. *)
Definition handleDragEnd (value : list elem)
  (draggedIndex dragOverIndex : option nat) : option (list elem) :=
  match draggedIndex, dragOverIndex with
  | Some d, Some o =>
      if negb (Nat.eqb d o) then
        let removed := at_index value d in
        let newValue := firstn d value ++ skipn (S d) value in
        Some (firstn o newValue ++ removed :: skipn o newValue)
      else None
  | _, _ => None
  end.

(** [availableItems]: the entries of [enumObj] not yet in the list. *)
Definition availableItems (enumObj : list (string * string))
  (value : list elem) : list (string * string) :=
  filter (fun nv => negb (includes value (snd nv))) enumObj.

(** [getEnumName(enumValue)]. *)
Definition getEnumName (enumObj : list (string * string))
  (enumValue : string) : string :=
  match find (fun nv => String.eqb (snd nv) enumValue) enumObj with
  | Some entry => fst entry
  | None => enumValue
  end.

End OrderedList.

(* ================================================================== *)
(** ** Field widgets of the settings form *)
(* ================================================================== *)

Module Widgets.

(** [MultiChoiceInput.handleToggle(optionValue)]: the list passed to
    [onChange]. *)
Definition handleToggle (value : list string) (optionValue : string)
  : list string :=
  if existsb (String.eqb optionValue) value then
    filter (fun v => negb (String.eqb v optionValue)) value
  else value ++ [optionValue].

(** [CategoryRenderer.handleFieldChange(nestedKey, nestedValue)]: the
    object passed to [onChange].  The [value] prop is a record, or
    [undefined] ([None]) when the form holds nothing for the category. *)
Definition handleFieldChange (value : option obj) (nestedKey : string)
  (nestedValue : JS.value) : obj :=
  obj_set (match value with Some o => o | None => [] end)
          nestedKey nestedValue.

End Widgets.

(* ================================================================== *)
(** ** Vocabulary of the statements and sample configurations *)
(* ================================================================== *)

(** The two commands the enabled toggle can lead to. *)
Definition spawnCall (p : Panel.Props) (currentSettings : obj) : Call :=
  Invoke "plugin:yaof|spawn_overlay"
         [("config", VObj (Panel.spawnConfig p currentSettings))].

Definition hideCall (p : Panel.Props) : Call :=
  Invoke "plugin:yaof|overlay_set_visible"
         [("id", VStr (Panel.windowId p)); ("visible", VBool false)].

(** [overlayDefinition.route ?? "/"]. *)
Definition routeOrRoot (def : Manifest.OverlayDefinition) : string :=
  match Manifest.route def with
  | Some r => r
  | None => "/"
  end.

(** A 300x200 centred, click-through window whose manifest asks for a
    frame, and the plugin that declares it. *)
Definition demoDef : Manifest.OverlayDefinition :=
  {| Manifest.width := 300; Manifest.height := 200;
     Manifest.x := None; Manifest.y := None;
     Manifest.defaultPosition := Some "center";
     Manifest.clickThrough := Some true;
     Manifest.frameless := Some false;
     Manifest.route := None |}.

Definition demoPanel : Panel.Props :=
  {| Panel.pluginId := "clock"; Panel.overlayId := "main";
     Panel.overlayDefinition := demoDef |}.

(** A backend on which no window exists and every call succeeds. *)
Definition noWindow : Backend := fun _ => Ok (VBool false).

(** A backend on which the window exists and every call succeeds. *)
Definition liveWindow : Backend := fun _ => Ok (VBool true).

(** Classifiers of calls. *)
Definition is_store_get (c : Call) : bool :=
  match c with
  | StoreGet _ _ => true
  | _ => false
  end.

(** One [store.set] per entry of a buffer, in its order. *)
Definition setCalls (h : string) (pending : obj) : list Call :=
  map (fun kv => StoreSet h (fst kv) (snd kv)) pending.

Definition is_click_through (c : Call) : bool :=
  match c with
  | Invoke cmd _ => String.eqb cmd "plugin:yaof|overlay_set_click_through"
  | _ => false
  end.

Definition demoHook : OverlayHook.Props :=
  {| OverlayHook.pluginId := "clock"; OverlayHook.overlayId := "main";
     OverlayHook.overlayDef := Some demoDef |}.

(** A backend with an empty store on which every call succeeds. *)
Definition emptyStore : Backend := fun _ => Ok VUndefined.

(** The hook after its initial load on [emptyStore]. *)
Definition demoHookLoaded : OverlayHook.State :=
  Eval vm_compute in
    state_of (run (OverlayHook.loadSettings demoHook true) emptyStore
                  OverlayHook.initial).

(** ... and after the user then turned click-through off at time 1000. *)
Definition demoHookEdited : OverlayHook.State :=
  Eval vm_compute in
    state_of (run (OverlayHook.updateSettings 1000
                     [("clickThrough", VBool false)])
                  emptyStore demoHookLoaded).

(** The assignment loop from an arbitrary starting object. *)
Definition assignAll {A : Type} (g : string -> A -> value)
  (entries : list (string * A)) (acc : obj) : obj :=
  fold_left (fun acc kx => obj_set acc (fst kx) (g (fst kx) (snd kx)))
            entries acc.

(** What a loader owes: exactly the schema's keys, each bound to the
    stored value when that is present and non-null, else to the field's
    default as [resolve] computes it. *)
Definition merged_with_defaults (resolve : SettingField -> value)
  (S : SettingsSchema) (V merged : obj) : Prop :=
  keys merged = keys S /\
  forall k f, In (k, f) S ->
    obj_get merged k =
      if is_nullish (obj_get V k) then resolve f else obj_get V k.

(** The value each loader assigns to key [k] of field [f]. *)
Definition formMerge (V : obj) (k : string) (f : SettingField) : value :=
  nullish_or (obj_get V k) (getDefaultValue f).

Definition hookMerge (V : obj) (k : string) (f : SettingField) : value :=
  if negb (is_nullish (obj_get V k)) then obj_get V k else field_default f.

(** A schema with a plain field, a field without declared default and a
    category; a store holding one schema key, one null and one stray key. *)
Definition demoSchema : SettingsSchema :=
  [ ("format", SelectField "Format" [("12h", "12 hours"); ("24h", "24 hours")]
                           (Some "24h"));
    ("title", StringField "Title" None);
    ("look", CategoryField "Look" None
               [ ("color", ColorField "Color" (Some "#ff0000"));
                 ("size", NumberField "Size" (Some 12%Q) None None None) ]) ].

Definition demoStored : obj :=
  [ ("format", VStr "12h"); ("title", VNull); ("obsolete", VInt 1) ].

(** A backend answering every read from a stored mapping. *)
Definition storeOf (V : obj) : Backend :=
  fun c =>
    match c with
    | Invoke "plugin:yaof|plugin_settings_get_all" _ => Ok (VObj V)
    | StoreGet _ k => Ok (obj_get V k)
    | _ => Ok VUndefined
    end.

(** The stored value of nested key [nk] under category [k]. *)
Definition storedNested (V : obj) (k nk : string) : value :=
  match obj_get V k with
  | VObj o => obj_get o nk
  | _ => VUndefined
  end.

(** A key-by-key merge inside categories, as one would expect of a
    recursive merge: every nested key of every category is bound to its
    stored value when present and to the nested default otherwise. *)
Definition nested_merge (S : SettingsSchema) (V merged : obj) : Prop :=
  forall k lbl d fields nk nf,
    In (k, CategoryField lbl d fields) S -> In (nk, nf) fields ->
    exists nested,
      obj_get merged k = VObj nested /\
      obj_get nested nk =
        if is_defined (storedNested V k nk) then storedNested V k nk
        else getDefaultValue nf.

Definition demoForm : Form.Props :=
  {| Form.pluginId := "clock"; Form.schema := demoSchema |}.

(** The stored category is present but lacks [size]. *)
Definition partialLook : obj :=
  [ ("look", VObj [("color", VStr "#00ff00")]) ].

(** The persisting write and the broadcast of the settings form. *)
Definition setAllCall (pluginId : string) (v : obj) : Call :=
  Invoke "plugin:yaof|plugin_settings_set_all"
         [("pluginId", VStr pluginId); ("values", VObj v)].

Definition broadcast (pluginId : string) (v : obj) : Call :=
  Emit ("yaof:settings:changed:" ++ pluginId)%string
       [("pluginId", VStr pluginId); ("values", VObj v)].

(** What one save issues, by how the backend settles it: the write, then
    the broadcast only after the write succeeded. *)
Definition saveCalls (p : Form.Props) (be : Backend) (v : obj) : list Call :=
  match be (setAllCall (Form.pluginId p) v) with
  | Throw => [ setAllCall (Form.pluginId p) v;
               ConsoleError "Failed to save settings:" ]
  | Ok _ =>
      match be (broadcast (Form.pluginId p) v) with
      | Ok _ => [ setAllCall (Form.pluginId p) v;
                  broadcast (Form.pluginId p) v ]
      | Throw => [ setAllCall (Form.pluginId p) v;
                   broadcast (Form.pluginId p) v;
                   ConsoleError "Failed to save settings:" ]
      end
  end.

(** The topic name under which a reader of the design would look for the
    broadcast. *)
Definition dashedTopic (pluginId : string) : string :=
  ("settings-changed:" ++ pluginId)%string.

(** The form after loading [demoStored] and one edit at time 900: a
    debounced save is pending for time 1400. *)
Definition demoFormEdited : Form.State :=
  Eval vm_compute in
    state_of (run (Form.loadSettings demoForm ;;
                   Form.handleChange 900 "title" (VStr "Noon"))
                  (storeOf demoStored) Form.initial).

(** An action "flushes at once" when it issues the persisting write
    itself and leaves no timer armed. *)
Definition flushes_at_once (r : result unit * Form.State * list Call)
  : Prop :=
  (exists pluginId v, In (setAllCall pluginId v) (calls_of r)) /\
  Form.debounceTimer (state_of r) = None.


(** A backend whose store cannot be opened. *)
Definition brokenStore : Backend :=
  fun c =>
    match c with
    | StoreLoad _ => Throw
    | _ => Ok VUndefined
    end.

Definition demoPlugin : PluginSettings.Props :=
  {| PluginSettings.pluginId := "clock"; PluginSettings.schema := demoSchema |}.


(** One [updateSetting(key, value)] call and the time it is made. *)
Definition event : Type := (Z * (string * value))%type.

Definition ev_time (e : event) : Z := fst e.

Definition ev_key (e : event) : string := fst (snd e).

Definition ev_value (e : event) : value := snd (snd e).

(** The last value a burst of updates gives to key [k]. *)
Fixpoint last_update (k : string) (evs : list event) : option value :=
  match evs with
  | [] => None
  | e :: r =>
      match last_update k r with
      | Some v => Some v
      | None => if String.eqb (ev_key e) k then Some (ev_value e) else None
      end
  end.

(** Every update comes before the timer armed by the previous one runs
    out. *)
Fixpoint within_window (armed : option Z) (evs : list event) : Prop :=
  match evs with
  | [] => True
  | e :: r =>
      match armed with
      | Some d => ev_time e < d
      | None => True
      end /\ within_window (Some (ev_time e + Panel.DEBOUNCE_DELAY)) r
  end.

(** The state one [updateSetting] leaves. *)
Definition afterUpdate (e : event) (s : Panel.State) : Panel.State :=
  {| Panel.store := Panel.store s;
     Panel.settings := obj_set (Panel.settings s) (ev_key e) (ev_value e);
     Panel.isLoading := Panel.isLoading s;
     Panel.isOverlayRunning := Panel.isOverlayRunning s;
     Panel.pendingUpdates :=
       obj_set (Panel.pendingUpdates s) (ev_key e) (ev_value e);
     Panel.debounceTimer :=
       Some {| Panel.deadline := ev_time e + Panel.DEBOUNCE_DELAY;
               Panel.timer_store := Panel.store s |} |}.

(** The buffer a burst accumulates. *)
Definition buffered (evs : list event) (acc : obj) : obj :=
  fold_left (fun acc e => obj_set acc (ev_key e) (ev_value e)) evs acc.

Definition is_save (c : Call) : bool :=
  match c with
  | StoreSave _ => true
  | _ => false
  end.

(** The panel after loading on [emptyStore]. *)
Definition demoPanelLoaded : Panel.State :=
  Eval vm_compute in
    state_of (run (Panel.loadSettings demoPanel true) emptyStore
                  (Panel.initial demoPanel)).

(** The user drags [x], sets [y], drags [x] again, all within 300 ms of
    each other. *)
Definition demoBurst : list event :=
  [ (0, ("x"%string, VInt 10));
    (100, ("y"%string, VInt 20));
    (250, ("x"%string, VInt 30)) ].

(** What the design promises of a burst of updates: the flush writes one
    [set] per distinct updated key, each with the last value given to it,
    and then one [save]. *)
Definition flushed_once (evs : list event) (tr : list Call) : Prop :=
  exists h, store_writes tr = setCalls h (buffered evs []) ++ [StoreSave h].

(** A second window of the same plugin, shown by the same panel instance
    when the user selects it. *)
Definition demoPanelMini : Panel.Props :=
  {| Panel.pluginId := "clock"; Panel.overlayId := "mini";
     Panel.overlayDefinition := demoDef |}.

(** A list of the ordered-list field is well formed for its options when
    it has no [undefined], no duplicate, and only option values. *)
Definition well_formed (opts : list string) (value : list OrderedList.elem)
  : Prop :=
  NoDup value /\
  forall e, In e value -> exists s, e = Some s /\ In s opts.

(** The record a category holds in the form's values ([undefined] when
    it holds none; a string or an array there is outside the model). *)
Definition as_record (v : value) : option obj :=
  match v with
  | VObj o => Some o
  | _ => None
  end.

(** An edit of one nested field as the form wires it:
    [CategoryRenderer] is given [values[key]] and its [onChange] is
    [handleChange(key, _)]. *)
Definition nestedEdit (now : Z) (key nestedKey : string) (nestedValue : value)
  : M (S := Form.State) unit :=
  s <- get ;;
  Form.handleChange now key
    (VObj (Widgets.handleFieldChange
             (as_record (obj_get (Form.values s) key))
             nestedKey nestedValue)).

(** The nine named anchors. *)
Definition positionPresets : list string :=
  [ "top-left"; "top-center"; "top-right";
    "center-left"; "center"; "center-right";
    "bottom-left"; "bottom-center"; "bottom-right" ]%string.

(** The commands a pass has to issue on a live window for an update that
    does not disable it, in the order of the code. *)
Definition runningCommands (p : Panel.Props) (updates currentSettings : obj)
  : list Call :=
  (if is_true (obj_get updates "enabled")
   then [ Invoke "plugin:yaof|overlay_set_visible"
                 [("id", VStr (Panel.windowId p)); ("visible", VBool true)] ]
   else []) ++
  (if is_defined (obj_get updates "x") || is_defined (obj_get updates "y")
      || is_defined (obj_get updates "width")
      || is_defined (obj_get updates "height")
   then [ Invoke "plugin:yaof|overlay_update_geometry"
                 (Panel.geometryArgs (Panel.windowId p) currentSettings) ]
   else []) ++
  (if is_defined (obj_get updates "clickThrough")
   then [ Invoke "plugin:yaof|overlay_set_click_through"
                 [("id", VStr (Panel.windowId p));
                  ("enabled", obj_get updates "clickThrough")] ]
   else []) ++
  (if is_defined (obj_get updates "alwaysOnTop")
   then [ Invoke "plugin:yaof|overlay_set_always_on_top"
                 [("id", VStr (Panel.windowId p));
                  ("enabled", obj_get updates "alwaysOnTop")] ]
   else []).

(** Issuing a list of commands inside one [try] block: each is issued in
    turn, and the first one that throws is the last one issued. *)
Fixpoint issued_until_throw (be : Backend) (cmds : list Call) : list Call :=
  match cmds with
  | [] => []
  | c :: r =>
      c :: match be c with
           | Ok _ => issued_until_throw be r
           | Throw => []
           end
  end.

(** A store whose writes fail while the window manager works. *)
Definition readOnlyStore : Backend :=
  fun c =>
    match c with
    | StoreSet _ _ _ | StoreSave _ => Throw
    | _ => Ok (VBool true)
    end.

(** The panel with a loaded store, one buffered edit and its timer armed
    for time 300. *)
Definition demoPanelPending : Panel.State :=
  Eval vm_compute in
    state_of (run (Panel.updateSetting 0 "x" (VInt 10)) emptyStore
                  demoPanelLoaded).

(** A second burst, after the first one has been flushed. *)
Definition demoBurstLater : list event :=
  [ (900, ("width"%string, VInt 320));
    (1000, ("width"%string, VInt 330)) ].

(** Every update comes before the timer armed by the previous one, with
    the given delay, runs out. *)
Fixpoint spaced_within (delay : Z) (armed : option Z) (evs : list event)
  : Prop :=
  match evs with
  | [] => True
  | e :: r =>
      match armed with
      | Some d => ev_time e < d
      | None => True
      end /\ spaced_within delay (Some (ev_time e + delay)) r
  end.

(** A series of edits in the settings form, each at its own time. *)
Definition formEdits (p : Form.Props) (evs : list event) : M unit :=
  for_each evs (fun ev =>
    Form.tick p (ev_time ev) ;;
    Form.handleChange (ev_time ev) (ev_key ev) (ev_value ev)).

(** The state one [handleChange] leaves. *)
Definition afterChange (e : event) (s : Form.State) : Form.State :=
  {| Form.values := obj_set (Form.latestValues s) (ev_key e) (ev_value e);
     Form.isLoading := Form.isLoading s;
     Form.isSaving := Form.isSaving s;
     Form.hasChanges := true;
     Form.latestValues :=
       obj_set (Form.latestValues s) (ev_key e) (ev_value e);
     Form.debounceTimer := Some (ev_time e + Form.DEBOUNCE_DELAY) |}.

(** The form after loading [demoStored]. *)
Definition demoFormLoaded : Form.State :=
  Eval vm_compute in
    state_of (run (Form.loadSettings demoForm) (storeOf demoStored)
                  Form.initial).

(** Typing a title, letter by letter. *)
Definition demoTyping : list event :=
  [ (0, ("title"%string, VStr "N"));
    (200, ("title"%string, VStr "No"));
    (600, ("format"%string, VStr "24h"));
    (1000, ("title"%string, VStr "Noon")) ].

(** A backend whose settings commands fail. *)
Definition failingSettings : Backend :=
  fun c =>
    match c with
    | Invoke _ _ => Throw
    | _ => Ok VUndefined
    end.

(** A backend whose settings cannot be read, while writes and events
    work. *)
Definition unreadableSettings : Backend :=
  fun c =>
    match c with
    | Invoke "plugin:yaof|plugin_settings_get_all" _ => Throw
    | _ => Ok VUndefined
    end.

(** What the listener of the SDK hook assigns to key [k] of field [f]. *)
Definition listenerMerge (payload : obj) (k : string) (f : SettingField)
  : value :=
  if obj_has payload k then obj_get payload k else field_default f.

(** The SDK hook after loading [demoStored]. *)
Definition demoPluginLoaded : PluginSettings.State :=
  Eval vm_compute in
    state_of (run (PluginSettings.loadSettings demoPlugin true)
                  (storeOf demoStored) PluginSettings.initial).

(** A store that can be read but rejects writes. *)
Definition rejectingStore : Backend :=
  fun c =>
    match c with
    | StoreSet _ _ _ => Throw
    | StoreGet _ k => Ok (obj_get demoStored k)
    | _ => Ok VUndefined
    end.

(** The object the read loop of the overlay loaders builds from a stored
    mapping: stored non-null values replace the defaults, key by key. *)
Definition overridden (V : obj) (ks : list string) (acc : obj) : obj :=
  fold_left (fun acc k =>
               if negb (is_nullish (obj_get V k))
               then obj_set acc k (obj_get V k) else acc) ks acc.

(** A window moved and resized by the user, with a stray key. *)
Definition demoOverlayStored : obj :=
  [ ("x", VInt 40); ("width", VInt 500); ("clickThrough", VNull);
    ("theme", VStr "dark") ].

(** The commands [applySettings] has to issue, in the order of the code. *)
Definition hookCommands (p : OverlayHook.Props) (v : obj)
  (skipClickThrough : bool) : list Call :=
  [OverlayHook.geometryCall p v]
  ++ (if skipClickThrough then [] else [OverlayHook.clickThroughCall p v])
  ++ [OverlayHook.alwaysOnTopCall p v; OverlayHook.visibleCall p v].

(** A backend on which moving the window fails. *)
Definition stuckWindow : Backend :=
  fun c =>
    match c with
    | Invoke "plugin:yaof|overlay_update_geometry" _ => Throw
    | _ => Ok VUndefined
    end.













(* ================================================================== *)
(** ** Position presets on the assumed 1920x1080 screen *)
(* ================================================================== *)

Example preset_center :
  Manifest.calculateDefaultPosition (Some "center") 300 200 = (810, 440)%Q.
Proof. reflexivity. Qed.

Example preset_bottom_right :
  Manifest.calculateDefaultPosition (Some "bottom-right") 300 200
  = (1620, 880)%Q.
Proof. reflexivity. Qed.

Example preset_top_left (w h : Q) :
  Manifest.calculateDefaultPosition (Some "top-left") w h = (0, 0)%Q.
Proof. reflexivity. Qed.

Example preset_odd_width_is_halved_exactly :
  Manifest.calculateDefaultPosition (Some "top-center") 301 200
  = (1619 # 2, 0)%Q.
Proof. reflexivity. Qed.

(* ================================================================== *)
(** ** Reconciliation of one update against the live window *)
(* ================================================================== *)

Ltac unfold_async :=
  unfold run, calls_of, state_of, outcome_of, bind, ret, call, get, modify,
    try_catch, finally, detach, when, console_error, lift_option in *.

(** Splits on how the backend settles the next call under scrutiny. *)
Ltac settle_call :=
  match goal with
  | |- context [match ?b ?c with Ok _ => _ | Throw => _ end] =>
      let E := fresh "E" in destruct (b c) eqn:E; cbn
  end.

Lemma unspawned_enabled_calls (p : Panel.Props) (be : Backend)
  (st : Panel.State) (updates currentSettings : obj) :
  be (Panel.existsCall p) = Ok (VBool false) ->
  is_true (obj_get updates "enabled") = true ->
  invocations
    (calls_of (run (Panel.applyToOverlay p updates currentSettings) be st))
  = [Panel.existsCall p; spawnCall p currentSettings].
Proof.
  intros He Hen. unfold Panel.applyToOverlay.
  unfold_async. cbn. rewrite He. cbn. rewrite Hen. cbn.
  settle_call; reflexivity.
Qed.

Lemma unspawned_not_enabled_calls (p : Panel.Props) (be : Backend)
  (st : Panel.State) (updates currentSettings : obj) :
  be (Panel.existsCall p) = Ok (VBool false) ->
  is_true (obj_get updates "enabled") = false ->
  calls_of (run (Panel.applyToOverlay p updates currentSettings) be st)
  = [Panel.existsCall p].
Proof.
  intros He Hen. unfold Panel.applyToOverlay.
  unfold_async. cbn. rewrite He. cbn. rewrite Hen. reflexivity.
Qed.

Lemma running_disabled_calls (p : Panel.Props) (be : Backend)
  (st : Panel.State) (updates currentSettings : obj) (e : value) :
  be (Panel.existsCall p) = Ok e -> truthy e = true ->
  is_false (obj_get updates "enabled") = true ->
  invocations
    (calls_of (run (Panel.applyToOverlay p updates currentSettings) be st))
  = [Panel.existsCall p; hideCall p].
Proof.
  intros He Ht Hen. unfold Panel.applyToOverlay.
  unfold_async. cbn. rewrite He. cbn. rewrite Ht. cbn. rewrite Hen. cbn.
  settle_call; reflexivity.
Qed.

Lemma spawnConfig_fields (p : Panel.Props) (cur : obj) :
  let cfg := Panel.spawnConfig p cur in
  obj_get cfg "x" = obj_get cur "x" /\
  obj_get cfg "y" = obj_get cur "y" /\
  obj_get cfg "width" = obj_get cur "width" /\
  obj_get cfg "height" = obj_get cur "height" /\
  obj_get cfg "clickThrough" = obj_get cur "clickThrough" /\
  obj_get cfg "entryPoint" =
    VStr ("yaof-plugin://" ++ Panel.pluginId p ++ "/index.html#"
          ++ routeOrRoot (Panel.overlayDefinition p))%string /\
  obj_get cfg "frameless" = VBool true.
Proof. cbn. repeat split. Qed.

(** C1. Reconciling against a window that does not exist: with
    [enabled === true] in the update the only commands issued are the
    existence query and one [spawn_overlay], whose config carries [x], [y],
    [width], [height] and [clickThrough] of the full current settings and
    the entry point [yaof-plugin://{pluginId}/index.html#{route}] with the
    route defaulting to [/]; with [enabled] absent or false nothing is
    issued after the existence query. *)
Theorem reconcile_unspawned :
  forall (p : Panel.Props) (be : Backend) (st : Panel.State)
         (upd cur : obj),
    be (Panel.existsCall p) = Ok (VBool false) ->
    let pass := run (Panel.applyToOverlay p upd cur) be st in
    let cfg := Panel.spawnConfig p cur in
    (obj_get upd "enabled" = VBool true ->
       invocations (calls_of pass) =
         [Panel.existsCall p;
          Invoke "plugin:yaof|spawn_overlay" [("config", VObj cfg)]] /\
       obj_get cfg "x" = obj_get cur "x" /\
       obj_get cfg "y" = obj_get cur "y" /\
       obj_get cfg "width" = obj_get cur "width" /\
       obj_get cfg "height" = obj_get cur "height" /\
       obj_get cfg "clickThrough" = obj_get cur "clickThrough" /\
       obj_get cfg "entryPoint" =
         VStr ("yaof-plugin://" ++ Panel.pluginId p ++ "/index.html#"
               ++ routeOrRoot (Panel.overlayDefinition p))%string) /\
    (obj_get upd "enabled" = VUndefined \/ obj_get upd "enabled" = VBool false ->
       calls_of pass = [Panel.existsCall p]).
Proof.
  intros p be st upd cur He pass cfg. split.
  - intros Hen. split.
    + apply unspawned_enabled_calls; [exact He | now rewrite Hen].
    + pose proof (spawnConfig_fields p cur) as F. cbv zeta in F.
      subst cfg. intuition.
  - intros Hen. apply unspawned_not_enabled_calls; [exact He |].
    destruct Hen as [-> | ->]; reflexivity.
Qed.

Lemma reconcile_unspawned_witness :
  invocations
    (calls_of (run (Panel.applyToOverlay demoPanel [("enabled", VBool true)]
                      (Panel.getDefaultSettings demoDef))
                   noWindow (Panel.initial demoPanel)))
  = [ Invoke "plugin:yaof|overlay_exists" [("id", VStr "clock-main")];
      Invoke "plugin:yaof|spawn_overlay"
        [("config",
          VObj [ ("id", VStr "clock-main");
                 ("pluginId", VStr "clock");
                 ("entryPoint", VStr "yaof-plugin://clock/index.html#/");
                 ("width", VInt 300);
                 ("height", VInt 200);
                 ("x", VInt 810);
                 ("y", VInt 440);
                 ("clickThrough", VBool true);
                 ("frameless", VBool true) ])] ]
  /\ calls_of (run (Panel.applyToOverlay demoPanel [("x", VInt 5)]
                      (Panel.getDefaultSettings demoDef))
                   noWindow (Panel.initial demoPanel))
     = [ Invoke "plugin:yaof|overlay_exists" [("id", VStr "clock-main")] ].
Proof.
  pose proof (reconcile_unspawned demoPanel noWindow (Panel.initial demoPanel)
                [("enabled", VBool true)] (Panel.getDefaultSettings demoDef)
                eq_refl) as [H _].
  pose proof (reconcile_unspawned demoPanel noWindow (Panel.initial demoPanel)
                [("x", VInt 5)] (Panel.getDefaultSettings demoDef)
                eq_refl) as [_ H'].
  split.
  - destruct (H eq_refl) as [Hc _]. rewrite Hc. reflexivity.
  - rewrite (H' (or_introl eq_refl)). reflexivity.
Defined.

(** C2. Reconciling [enabled === false] against a live window issues,
    after the existence query, exactly one command:
    [overlay_set_visible(id, false)]; nothing is destroyed and no geometry,
    click-through or always-on-top command follows. *)
Theorem reconcile_running_disabled :
  forall (p : Panel.Props) (be : Backend) (st : Panel.State)
         (upd cur : obj) (e : value),
    be (Panel.existsCall p) = Ok e -> truthy e = true ->
    obj_get upd "enabled" = VBool false ->
    invocations (calls_of (run (Panel.applyToOverlay p upd cur) be st)) =
      [ Panel.existsCall p;
        Invoke "plugin:yaof|overlay_set_visible"
               [("id", VStr (Panel.windowId p)); ("visible", VBool false)] ].
Proof.
  intros p be st upd cur e He Ht Hen.
  apply (running_disabled_calls p be st upd cur e He Ht).
  now rewrite Hen.
Qed.

Lemma reconcile_running_disabled_witness :
  invocations
    (calls_of (run (Panel.applyToOverlay demoPanel
                      [("enabled", VBool false); ("x", VInt 7);
                       ("clickThrough", VBool true);
                       ("alwaysOnTop", VBool false)]
                      (Panel.getDefaultSettings demoDef))
                   liveWindow (Panel.initial demoPanel)))
  = [ Invoke "plugin:yaof|overlay_exists" [("id", VStr "clock-main")];
      Invoke "plugin:yaof|overlay_set_visible"
             [("id", VStr "clock-main"); ("visible", VBool false)] ].
Proof.
  apply (reconcile_running_disabled demoPanel liveWindow
           (Panel.initial demoPanel) _ _ (VBool true)); reflexivity.
Defined.

(** The other transitions on a live window, on sample updates: showing
    again, moving (the whole rectangle is sent) and toggling flags. *)
Example reconcile_running_enabled :
  invocations
    (calls_of (run (Panel.applyToOverlay demoPanel [("enabled", VBool true)]
                      (Panel.getDefaultSettings demoDef))
                   liveWindow (Panel.initial demoPanel)))
  = [ Invoke "plugin:yaof|overlay_exists" [("id", VStr "clock-main")];
      Invoke "plugin:yaof|overlay_set_visible"
             [("id", VStr "clock-main"); ("visible", VBool true)] ].
Proof. reflexivity. Qed.

Example reconcile_running_moved :
  invocations
    (calls_of (run (Panel.applyToOverlay demoPanel
                      [("x", VInt 5); ("alwaysOnTop", VBool false)]
                      (obj_set (Panel.getDefaultSettings demoDef)
                               "x" (VInt 5)))
                   liveWindow (Panel.initial demoPanel)))
  = [ Invoke "plugin:yaof|overlay_exists" [("id", VStr "clock-main")];
      Invoke "plugin:yaof|overlay_update_geometry"
             [("id", VStr "clock-main"); ("x", VInt 5); ("y", VInt 440);
              ("width", VInt 300); ("height", VInt 200)];
      Invoke "plugin:yaof|overlay_set_always_on_top"
             [("id", VStr "clock-main"); ("enabled", VBool false)] ].
Proof. reflexivity. Qed.

Ltac split_paths :=
  repeat first
    [ settle_call
    | match goal with
      | |- context [if ?c then _ else _] =>
          let E := fresh "E" in destruct c eqn:E; cbn
      end ].

(** Every command one reconciliation pass can issue is the existence
    query, the spawn built by [spawnConfig], or one of the four commands on
    a live window. *)
Lemma applyToOverlay_calls (p : Panel.Props) (be : Backend)
  (st : Panel.State) (upd cur : obj) (c : Call) :
  In c (calls_of (run (Panel.applyToOverlay p upd cur) be st)) ->
  c = Panel.existsCall p \/
  c = Invoke "plugin:yaof|spawn_overlay"
             [("config", VObj (Panel.spawnConfig p cur))] \/
  (exists cmd args, c = Invoke cmd args /\
     In cmd [ "plugin:yaof|overlay_set_visible";
              "plugin:yaof|overlay_update_geometry";
              "plugin:yaof|overlay_set_click_through";
              "plugin:yaof|overlay_set_always_on_top" ]%string) \/
  (exists msg, c = ConsoleError msg).
Proof.
  unfold Panel.applyToOverlay. unfold_async. cbn.
  split_paths; cbn; intros H;
    repeat (destruct H as [H | H];
            [ subst c;
              first [ now left
                    | now (right; left)
                    | right; right; left; do 2 eexists;
                      split; [reflexivity | cbn; tauto]
                    | right; right; right; eexists; reflexivity ]
            | ]);
    try contradiction.
Qed.

(** C10. Whatever the manifest says about [frameless], every
    [spawn_overlay] command a reconciliation pass issues carries
    [frameless: true] in its config. *)
Theorem spawn_always_frameless :
  forall (p : Panel.Props) (be : Backend) (st : Panel.State)
         (upd cur args : obj),
    In (Invoke "plugin:yaof|spawn_overlay" args)
       (calls_of (run (Panel.applyToOverlay p upd cur) be st)) ->
    exists cfg,
      obj_get args "config" = VObj cfg /\
      obj_get cfg "frameless" = VBool true.
Proof.
  intros p be st upd cur args H.
  apply applyToOverlay_calls in H.
  destruct H as [H | [H | [[cmd [a [H Hc]]] | [msg H]]]].
  - discriminate H.
  - injection H as ->. eexists. split; reflexivity.
  - injection H as <- <-. cbn in Hc.
    repeat (destruct Hc as [Hc | Hc]; [discriminate Hc |]). contradiction.
  - discriminate H.
Qed.

Lemma spawn_always_frameless_witness :
  Manifest.frameless (Panel.overlayDefinition demoPanel) = Some false /\
  exists cfg,
    obj_get [("config", VObj (Panel.spawnConfig demoPanel
                                (Panel.getDefaultSettings demoDef)))]
            "config" = VObj cfg /\
    obj_get cfg "frameless" = VBool true.
Proof.
  split; [reflexivity |].
  apply (spawn_always_frameless demoPanel noWindow (Panel.initial demoPanel)
           [("enabled", VBool true)] (Panel.getDefaultSettings demoDef)).
  cbn. right. left. reflexivity.
Defined.

(* ================================================================== *)
(** ** Store loops: what they issue and what they leave *)
(* ================================================================== *)

Lemma invocations_app (a b : list Call) :
  invocations (a ++ b) = invocations a ++ invocations b.
Proof. apply filter_app. Qed.

Lemma store_writes_app (a b : list Call) :
  store_writes (a ++ b) = store_writes a ++ store_writes b.
Proof. apply filter_app. Qed.

(** The read loop leaves the component state alone and issues only
    [get] calls on the store. *)
Lemma overrideStored_shape {S : Type} (h : string) (ks : list string) :
  forall (acc : obj) (be : Backend) (s : S) (tr : list Call),
  exists res tr',
    overrideStored h ks acc be s tr = (res, s, tr ++ tr') /\
    forallb is_store_get tr' = true.
Proof.
  induction ks as [| k ks IH]; intros acc be s tr.
  - exists (Ok acc), []. cbn. now rewrite app_nil_r.
  - unfold overrideStored. cbn. unfold_async.
    destruct (be (StoreGet h k)) as [v |] eqn:E.
    + destruct (IH (if negb (is_nullish v) then obj_set acc k v else acc)
                   be s (tr ++ [StoreGet h k])) as (res & tr' & Heq & Hall).
      unfold overrideStored in Heq. unfold_async. rewrite Heq.
      exists res, (StoreGet h k :: tr'). split.
      * now rewrite <- app_assoc.
      * cbn. exact Hall.
    + exists Throw, [StoreGet h k]. split; reflexivity.
Qed.

(** On a store whose reads succeed the read loop returns an object. *)
Lemma overrideStored_ok {S : Type} (h : string) (be : Backend)
  (Hget : forall k, be (StoreGet h k) <> Throw) (ks : list string) :
  forall (acc : obj) (s : S) (tr : list Call),
  exists loaded tr',
    overrideStored h ks acc be s tr = (Ok loaded, s, tr ++ tr') /\
    forallb is_store_get tr' = true.
Proof.
  induction ks as [| k ks IH]; intros acc s tr.
  - exists acc, []. cbn. now rewrite app_nil_r.
  - unfold overrideStored. cbn. unfold_async.
    destruct (be (StoreGet h k)) as [v |] eqn:E; [| now apply Hget in E].
    destruct (IH (if negb (is_nullish v) then obj_set acc k v else acc)
                 s (tr ++ [StoreGet h k])) as (res & tr' & Heq & Hall).
    unfold overrideStored in Heq. unfold_async. rewrite Heq.
    exists res, (StoreGet h k :: tr'). split.
    + now rewrite <- app_assoc.
    + cbn. exact Hall.
Qed.

Lemma store_gets_no_invocations (tr : list Call) :
  forallb is_store_get tr = true -> invocations tr = [].
Proof.
  induction tr as [| c tr IH]; [reflexivity |].
  cbn. intros H. apply andb_prop in H as [Hc Ht].
  destruct c; try discriminate Hc. cbn. now apply IH.
Qed.

Lemma store_gets_In (tr : list Call) (c : Call) :
  forallb is_store_get tr = true -> In c tr -> is_store_get c = true.
Proof.
  intros H Hin. rewrite forallb_forall in H. now apply H.
Qed.

(** The write loop leaves the component state alone and issues a prefix
    of "one [set] per entry, then [save]". *)
Lemma writeAll_shape {S : Type} (h : string) (pending : obj) :
  forall (be : Backend) (s : S) (tr : list Call),
  exists res tr',
    writeAll h pending be s tr = (res, s, tr ++ tr') /\
    forallb is_store_write tr' = true.
Proof.
  unfold writeAll.
  induction pending as [| [k v] pending IH]; intros be s tr.
  - cbn. unfold_async.
    destruct (be (StoreSave h)); eexists; exists [StoreSave h]; split;
      reflexivity.
  - cbn. unfold_async. cbn.
    destruct (be (StoreSet h k v)) eqn:E.
    + destruct (IH be s (tr ++ [StoreSet h k v])) as (res & tr' & Heq & Hall).
      unfold_async. cbn in Heq.
      rewrite Heq. exists res, (StoreSet h k v :: tr'). split.
      * now rewrite <- app_assoc.
      * cbn. exact Hall.
    + exists Throw, [StoreSet h k v]. split; reflexivity.
Qed.

(** When the store accepts every [set], the write loop issues exactly one
    [set] per buffered entry, in order, and then one [save]. *)
Lemma writeAll_calls {S : Type} (h : string) (be : Backend)
  (Hset : forall k v, be (StoreSet h k v) <> Throw) (pending : obj) :
  forall (s : S) (tr : list Call),
  exists res,
    writeAll h pending be s tr =
      (res, s, tr ++ setCalls h pending ++ [StoreSave h]).
Proof.
  unfold writeAll.
  induction pending as [| [k v] pending IH]; intros s tr.
  - cbn. unfold_async.
    destruct (be (StoreSave h)); eexists; reflexivity.
  - cbn. unfold_async. cbn.
    destruct (be (StoreSet h k v)) eqn:E; [| now apply Hset in E].
    destruct (IH s (tr ++ [StoreSet h k v])) as (res & Heq).
    unfold_async. cbn in Heq. rewrite Heq.
    exists res. now rewrite <- app_assoc.
Qed.

Lemma store_writes_no_invocations (tr : list Call) :
  forallb is_store_write tr = true -> invocations tr = [].
Proof.
  induction tr as [| c tr IH]; [reflexivity |].
  cbn. intros H. apply andb_prop in H as [Hc Ht].
  destruct c; try discriminate Hc; cbn; now apply IH.
Qed.

(* ================================================================== *)
(** ** useOverlaySettings: the initial load and later applies *)
(* ================================================================== *)

(** With [skipClickThrough] no click-through command is issued, whatever
    the backend answers. *)
Lemma applySettings_skip_calls (p : OverlayHook.Props) (be : Backend)
  (s : OverlayHook.State) (v : obj) (tr : list Call) :
  exists res tr',
    OverlayHook.applySettings p v true be s tr = (res, s, tr ++ tr') /\
    forallb (fun c => negb (is_click_through c)) tr' = true /\
    ((forall cmd args, be (Invoke cmd args) <> Throw) ->
     tr' = [ OverlayHook.geometryCall p v;
             OverlayHook.alwaysOnTopCall p v;
             OverlayHook.visibleCall p v ]).
Proof.
  unfold OverlayHook.applySettings. unfold_async. cbn.
  split_paths; eexists; eexists;
    (split; [rewrite <- ?app_assoc; reflexivity |]);
    (split; [reflexivity |]); intros Hok;
    first [ reflexivity
          | exfalso;
            match goal with
            | E : be (Invoke ?c ?a) = Throw |- _ => exact (Hok c a E)
            | E : be (OverlayHook.geometryCall _ _) = Throw |- _ =>
                exact (Hok _ _ E)
            | E : be (OverlayHook.alwaysOnTopCall _ _) = Throw |- _ =>
                exact (Hok _ _ E)
            | E : be (OverlayHook.visibleCall _ _) = Throw |- _ =>
                exact (Hok _ _ E)
            end ].
Qed.

(** Without the flag, and when the window commands succeed, all four
    commands are issued, click-through second. *)
Lemma applySettings_full_calls (p : OverlayHook.Props) (be : Backend)
  (s : OverlayHook.State) (v : obj) (tr : list Call) :
  (forall cmd args, be (Invoke cmd args) <> Throw) ->
  OverlayHook.applySettings p v false be s tr =
    (Ok tt, s, tr ++ [ OverlayHook.geometryCall p v;
                       OverlayHook.clickThroughCall p v;
                       OverlayHook.alwaysOnTopCall p v;
                       OverlayHook.visibleCall p v ]).
Proof.
  intros Hok. unfold OverlayHook.applySettings. unfold_async. cbn.
  destruct (be (OverlayHook.geometryCall p v)) eqn:E1;
    [| now apply Hok in E1]. cbn.
  destruct (be (OverlayHook.clickThroughCall p v)) eqn:E2;
    [| now apply Hok in E2]. cbn.
  destruct (be (OverlayHook.alwaysOnTopCall p v)) eqn:E3;
    [| now apply Hok in E3]. cbn.
  destruct (be (OverlayHook.visibleCall p v)) eqn:E4;
    [| now apply Hok in E4]. cbn.
  now rewrite <- !app_assoc.
Qed.

Lemma forallb_app_true {A : Type} (f : A -> bool) (a b : list A) :
  forallb f a = true -> forallb f b = true -> forallb f (a ++ b) = true.
Proof. intros Ha Hb. rewrite forallb_app, Ha, Hb. reflexivity. Qed.

Lemma store_gets_not_click_through (tr : list Call) :
  forallb is_store_get tr = true ->
  forallb (fun c => negb (is_click_through c)) tr = true.
Proof.
  induction tr as [| c tr IH]; [reflexivity |].
  cbn. intros H. apply andb_prop in H as [Hc Ht].
  destruct c; try discriminate Hc. cbn. now apply IH.
Qed.

(** The initial load, step by step: the calls it issues and the settings
    it leaves, for any backend. *)
Lemma hook_load_calls (p : OverlayHook.Props) (be : Backend)
  (st : OverlayHook.State) (mounted : bool) :
  forallb (fun c => negb (is_click_through c))
          (calls_of (run (OverlayHook.loadSettings p mounted) be st)) = true.
Proof.
  unfold OverlayHook.loadSettings. unfold_async.
  cbn -[overrideStored OverlayHook.applySettings OverlayHook.buildDefaults].
  destruct (be (StoreLoad (OverlayHook.storeName p))) eqn:EL;
    cbn -[overrideStored OverlayHook.applySettings OverlayHook.buildDefaults].
  2: { destruct mounted; reflexivity. }
  destruct mounted;
    cbn -[overrideStored OverlayHook.applySettings OverlayHook.buildDefaults];
    [| reflexivity].
  match goal with
  | |- context [overrideStored ?h ?ks ?acc be ?s ?tr] =>
      destruct (overrideStored_shape h ks acc be s tr)
        as (res & tr' & Heq & Hall); rewrite Heq
  end.
  destruct res as [loaded |];
    cbn -[overrideStored OverlayHook.applySettings OverlayHook.buildDefaults].
  - match goal with
    | |- context [OverlayHook.applySettings p ?v true be ?s ?tr] =>
        destruct (applySettings_skip_calls p be s v tr)
          as (r2 & tr2 & Heq2 & Hall2 & _); rewrite Heq2
    end.
    destruct r2; cbn; rewrite <- ?app_assoc;
      repeat (apply forallb_app_true);
      auto using store_gets_not_click_through.
  - rewrite <- ?app_assoc.
    repeat (apply forallb_app_true);
      auto using store_gets_not_click_through.
Qed.

Lemma hook_load_applies (p : OverlayHook.Props) (be : Backend)
  (st : OverlayHook.State) :
  (forall c, be c <> Throw) ->
  let r := run (OverlayHook.loadSettings p true) be st in
  let loaded := OverlayHook.settings (state_of r) in
  invocations (calls_of r) =
    [ OverlayHook.geometryCall p loaded;
      OverlayHook.alwaysOnTopCall p loaded;
      OverlayHook.visibleCall p loaded ].
Proof.
  intros Hok. unfold OverlayHook.loadSettings. unfold_async.
  cbn -[overrideStored OverlayHook.applySettings OverlayHook.buildDefaults].
  destruct (be (StoreLoad (OverlayHook.storeName p))) eqn:EL;
    [| now apply Hok in EL].
  cbn -[overrideStored OverlayHook.applySettings OverlayHook.buildDefaults].
  match goal with
  | |- context [overrideStored ?h ?ks ?acc be ?s ?tr] =>
      destruct (overrideStored_ok h be (fun k => Hok _) ks acc s tr)
        as (loaded & tr' & Heq & Hall); rewrite Heq
  end.
  cbn -[overrideStored OverlayHook.applySettings OverlayHook.buildDefaults].
  match goal with
  | |- context [OverlayHook.applySettings p ?v true be ?s ?tr] =>
      destruct (applySettings_skip_calls p be s v tr)
        as (r2 & tr2 & Heq2 & _ & Hcalls); rewrite Heq2
  end.
  rewrite (Hcalls (fun cmd args => Hok _)).
  destruct r2; cbn; rewrite !invocations_app;
    rewrite (store_gets_no_invocations _ Hall); reflexivity.
Qed.

(** A debounced flush of the hook: with a store handle captured and a
    non-empty buffer, the settings captured by the timer are applied in
    full. *)
Lemma hook_flush_applies (p : OverlayHook.Props) (be : Backend)
  (st : OverlayHook.State) (now : Z) (t : OverlayHook.Timer) (h : string) :
  OverlayHook.debounceTimer st = Some t ->
  OverlayHook.deadline t <= now ->
  OverlayHook.timer_store t = Some h ->
  OverlayHook.pendingUpdates st <> [] ->
  (forall cmd args, be (Invoke cmd args) <> Throw) ->
  invocations (calls_of (run (OverlayHook.tick p now) be st)) =
    [ OverlayHook.geometryCall p (OverlayHook.timer_settings t);
      OverlayHook.clickThroughCall p (OverlayHook.timer_settings t);
      OverlayHook.alwaysOnTopCall p (OverlayHook.timer_settings t);
      OverlayHook.visibleCall p (OverlayHook.timer_settings t) ].
Proof.
  intros Ht Hd Hs Hp Hok.
  unfold OverlayHook.tick, OverlayHook.onTimeout. unfold_async.
  cbn -[writeAll OverlayHook.applySettings]. rewrite Ht.
  apply Z.leb_le in Hd. rewrite Hd.
  cbn -[writeAll OverlayHook.applySettings]. rewrite Hs.
  destruct (OverlayHook.pendingUpdates st) as [| kv pending] eqn:Ep;
    [congruence |].
  cbn -[writeAll OverlayHook.applySettings].
  match goal with
  | |- context [writeAll ?h' ?pd be ?s ?tr] =>
      destruct (writeAll_shape h' pd be s tr)
        as (res & tr' & Heq & Hall); rewrite Heq
  end.
  destruct res; cbn -[OverlayHook.applySettings];
    rewrite applySettings_full_calls by exact Hok; cbn;
    rewrite !invocations_app, (store_writes_no_invocations _ Hall);
    reflexivity.
Qed.

(** C9. [clickThrough] is suppressed on the initial-load path only: the
    initial load of a window's settings never issues the click-through
    command (whatever the backend answers) while it applies geometry,
    always-on-top and visibility of the loaded settings; every later apply
    (a debounced flush) issues the click-through command too. *)
Theorem clickThrough_skipped_on_initial_load_only :
  forall (p : OverlayHook.Props) (be : Backend) (st : OverlayHook.State),
    let load := run (OverlayHook.loadSettings p true) be st in
    let loaded := OverlayHook.settings (state_of load) in
    forallb (fun c => negb (is_click_through c)) (calls_of load) = true /\
    ((forall c, be c <> Throw) ->
       invocations (calls_of load) =
         [ OverlayHook.geometryCall p loaded;
           OverlayHook.alwaysOnTopCall p loaded;
           OverlayHook.visibleCall p loaded ]) /\
    (forall (now : Z) (t : OverlayHook.Timer) (h : string),
       OverlayHook.debounceTimer st = Some t ->
       OverlayHook.deadline t <= now ->
       OverlayHook.timer_store t = Some h ->
       OverlayHook.pendingUpdates st <> [] ->
       (forall cmd args, be (Invoke cmd args) <> Throw) ->
       invocations (calls_of (run (OverlayHook.tick p now) be st)) =
         [ OverlayHook.geometryCall p (OverlayHook.timer_settings t);
           OverlayHook.clickThroughCall p (OverlayHook.timer_settings t);
           OverlayHook.alwaysOnTopCall p (OverlayHook.timer_settings t);
           OverlayHook.visibleCall p (OverlayHook.timer_settings t) ]).
Proof.
  intros p be st load loaded. split; [| split].
  - apply hook_load_calls.
  - intros Hok. apply hook_load_applies. exact Hok.
  - intros now t h. apply hook_flush_applies.
Qed.

Lemma clickThrough_skipped_on_initial_load_only_witness :
  invocations
    (calls_of (run (OverlayHook.loadSettings demoHook true) emptyStore
                   OverlayHook.initial))
  = [ Invoke "plugin:yaof|overlay_update_geometry"
        [("id", VStr "clock-main"); ("x", VInt 810); ("y", VInt 440);
         ("width", VInt 300); ("height", VInt 200)];
      Invoke "plugin:yaof|overlay_set_always_on_top"
        [("id", VStr "clock-main"); ("enabled", VBool true)];
      Invoke "plugin:yaof|overlay_set_visible"
        [("id", VStr "clock-main"); ("visible", VBool true)] ]
  /\
  invocations
    (calls_of (run (OverlayHook.tick demoHook 1300) emptyStore
                   demoHookEdited))
  = [ Invoke "plugin:yaof|overlay_update_geometry"
        [("id", VStr "clock-main"); ("x", VInt 810); ("y", VInt 440);
         ("width", VInt 300); ("height", VInt 200)];
      Invoke "plugin:yaof|overlay_set_click_through"
        [("id", VStr "clock-main"); ("enabled", VBool false)];
      Invoke "plugin:yaof|overlay_set_always_on_top"
        [("id", VStr "clock-main"); ("enabled", VBool true)];
      Invoke "plugin:yaof|overlay_set_visible"
        [("id", VStr "clock-main"); ("visible", VBool true)] ].
Proof.
  split.
  - destruct (clickThrough_skipped_on_initial_load_only demoHook emptyStore
                OverlayHook.initial) as (_ & H & _).
    rewrite H by (intros c; discriminate). reflexivity.
  - destruct (clickThrough_skipped_on_initial_load_only demoHook emptyStore
                demoHookEdited) as (_ & _ & H).
    rewrite (H 1300
               {| OverlayHook.deadline := 1300;
                  OverlayHook.timer_store := Some "clock-main-overlay.json";
                  OverlayHook.timer_settings :=
                    OverlayHook.settings demoHookEdited |}
               "clock-main-overlay.json");
      [ reflexivity | reflexivity | cbn; lia | reflexivity
      | discriminate | intros cmd args; discriminate ].
Defined.

(* ================================================================== *)
(** ** Objects built by successive assignment *)
(* ================================================================== *)

Section Objects.

Lemma obj_get_set (o : obj) (k k' : string) (v : value) :
  obj_get (obj_set o k v) k' =
    if String.eqb k k' then v else obj_get o k'.
Proof.
  induction o as [| [k0 v0] o IH]; cbn.
  - reflexivity.
  - destruct (String.eqb k0 k) eqn:E0; cbn.
    + apply String.eqb_eq in E0. subst k0.
      destruct (String.eqb k k'); reflexivity.
    + destruct (String.eqb k0 k') eqn:E1.
      * apply String.eqb_eq in E1. subst k0.
        rewrite String.eqb_sym, E0. reflexivity.
      * exact IH.
Qed.

Lemma obj_has_In (o : obj) (k : string) :
  obj_has o k = true <-> In k (keys o).
Proof.
  induction o as [| [k0 v0] o IH]; cbn.
  - split; [discriminate | contradiction].
  - destruct (String.eqb k0 k) eqn:E.
    + apply String.eqb_eq in E. tauto.
    + apply String.eqb_neq in E. rewrite IH. tauto.
Qed.

Lemma obj_get_absent (o : obj) (k : string) :
  obj_has o k = false -> obj_get o k = VUndefined.
Proof.
  induction o as [| [k0 v0] o IH]; cbn; [reflexivity |].
  destruct (String.eqb k0 k); [discriminate | exact IH].
Qed.

Lemma keys_set_new (o : obj) (k : string) (v : value) :
  ~ In k (keys o) -> keys (obj_set o k v) = keys o ++ [k].
Proof.
  induction o as [| [k0 v0] o IH]; cbn; intros H.
  - reflexivity.
  - destruct (String.eqb k0 k) eqn:E.
    + apply String.eqb_eq in E. tauto.
    + cbn. f_equal. apply IH. tauto.
Qed.

Lemma keys_set_old (o : obj) (k : string) (v : value) :
  In k (keys o) -> keys (obj_set o k v) = keys o.
Proof.
  induction o as [| [k0 v0] o IH]; cbn; intros H.
  - contradiction.
  - destruct (String.eqb k0 k) eqn:E; [reflexivity |].
    apply String.eqb_neq in E. cbn. f_equal. apply IH.
    destruct H; [contradiction | assumption].
Qed.

Context {A : Type} (g : string -> A -> value).

Lemma assignAll_cons (k : string) (a : A) (entries : list (string * A))
  (acc : obj) :
  assignAll g ((k, a) :: entries) acc =
    assignAll g entries (obj_set acc k (g k a)).
Proof. reflexivity. Qed.

Lemma assignAll_keys (entries : list (string * A)) :
  forall acc, NoDup (keys acc ++ keys entries) ->
              keys (assignAll g entries acc) = keys acc ++ keys entries.
Proof.
  induction entries as [| [k a] entries IH]; intros acc Hnd.
  - cbn. now rewrite app_nil_r.
  - rewrite assignAll_cons. cbn [keys map fst] in *.
    assert (Hk : ~ In k (keys acc)).
    { apply NoDup_remove_2 in Hnd. intros Hin. apply Hnd.
      apply in_or_app. now left. }
    rewrite IH; rewrite keys_set_new by exact Hk;
      rewrite <- app_assoc; [reflexivity | exact Hnd].
Qed.

Lemma assignAll_get_other (entries : list (string * A)) (k : string) :
  forall acc, ~ In k (keys entries) ->
              obj_get (assignAll g entries acc) k = obj_get acc k.
Proof.
  induction entries as [| [k0 a] entries IH]; intros acc Hni.
  - reflexivity.
  - rewrite assignAll_cons. cbn in Hni. rewrite IH by tauto.
    rewrite obj_get_set.
    destruct (String.eqb k0 k) eqn:E; [| reflexivity].
    apply String.eqb_eq in E. tauto.
Qed.

Lemma assignAll_get (entries : list (string * A)) (k : string) (a : A) :
  forall acc, NoDup (keys entries) -> In (k, a) entries ->
              obj_get (assignAll g entries acc) k = g k a.
Proof.
  induction entries as [| [k0 a0] entries IH]; intros acc Hnd Hin.
  - contradiction.
  - cbn in Hnd. inversion Hnd as [| ? ? Hni Hnd']; subst.
    rewrite assignAll_cons.
    destruct Hin as [Heq | Hin].
    + injection Heq as -> ->.
      rewrite assignAll_get_other by exact Hni.
      rewrite obj_get_set, String.eqb_refl. reflexivity.
    + now apply IH.
Qed.

(** An object built from entries with distinct keys has exactly those
    keys, in order, each bound to the value computed for its entry. *)
Lemma build_obj_with_spec (entries : list (string * A)) :
  NoDup (keys entries) ->
  keys (build_obj_with g entries) = keys entries /\
  forall k a, In (k, a) entries ->
              obj_get (build_obj_with g entries) k = g k a.
Proof.
  intros Hnd. split.
  - apply (assignAll_keys entries []). exact Hnd.
  - intros k a. now apply assignAll_get.
Qed.
End Objects.

(* ================================================================== *)
(** ** Loading: stored values merged with schema defaults *)
(* ================================================================== *)

Lemma mergeStored_obj (V : obj) (sch : SettingsSchema) (be : Backend)
  (s : Form.State) (tr : list Call) :
  Form.mergeStored sch (VObj V) be s tr =
    (Ok (build_obj_with (formMerge V) sch), s, tr).
Proof.
  unfold Form.mergeStored, build_obj_with.
  change (@nil (string * value)) with ([] : obj).
  generalize ([] : obj) as acc.
  induction sch as [| [k f] sch IH]; intros acc.
  - reflexivity.
  - cbn. unfold_async. cbn. unfold_async. rewrite IH. reflexivity.
Qed.

Lemma readAll_ok (V : obj) (h : string) (sch : SettingsSchema)
  (be : Backend) (s : PluginSettings.State) (tr : list Call) :
  (forall k, be (StoreGet h k) = Ok (obj_get V k)) ->
  PluginSettings.readAll h sch be s tr =
    (Ok (build_obj_with (hookMerge V) sch), s,
     tr ++ map (StoreGet h) (keys sch)).
Proof.
  intros Hget. unfold PluginSettings.readAll, build_obj_with.
  change (@nil (string * value)) with ([] : obj).
  generalize ([] : obj) as acc. revert tr.
  induction sch as [| [k f] sch IH]; intros tr acc.
  - cbn. now rewrite app_nil_r.
  - cbn. unfold_async. cbn. rewrite Hget. unfold_async. rewrite IH.
    now rewrite <- app_assoc.
Qed.


Lemma form_load_values (p : Form.Props) (V : obj) (be : Backend)
  (st : Form.State) :
  be (Invoke "plugin:yaof|plugin_settings_get_all"
             [("pluginId", VStr (Form.pluginId p))]) = Ok (VObj V) ->
  Form.values (state_of (run (Form.loadSettings p) be st)) =
    build_obj_with (formMerge V) (Form.schema p).
Proof.
  intros Hget. unfold Form.loadSettings. unfold_async.
  cbn -[Form.mergeStored]. rewrite Hget.
  rewrite mergeStored_obj. reflexivity.
Qed.

Lemma hook_load_values (p : PluginSettings.Props) (V : obj) (be : Backend)
  (st : PluginSettings.State) :
  be (StoreLoad (PluginSettings.storeName p)) <> Throw ->
  (forall k, be (StoreGet (PluginSettings.storeName p) k)
             = Ok (obj_get V k)) ->
  PluginSettings.values
    (state_of (run (PluginSettings.loadSettings p true) be st)) =
    build_obj_with (hookMerge V) (PluginSettings.schema p).
Proof.
  intros Hload Hget. unfold PluginSettings.loadSettings. unfold_async.
  cbn -[PluginSettings.readAll].
  destruct (be (StoreLoad (PluginSettings.storeName p))) eqn:E;
    [| contradiction].
  cbn -[PluginSettings.readAll].
  rewrite (readAll_ok V) by exact Hget. reflexivity.
Qed.

(** The SDK hook does not resolve defaults: it loads [demoStored], in
    which the title is [null] and no look is stored, and leaves both
    [undefined], where the resolver of the repository, [getDefaultValue],
    gives the empty string and the object of the nested defaults. *)
Lemma hook_load_default_counterexample :
  let merged :=
    PluginSettings.values
      (state_of (run (PluginSettings.loadSettings demoPlugin true)
                     (storeOf demoStored) PluginSettings.initial)) in
  merged = [ ("format", VStr "12h"); ("title", VUndefined);
             ("look", VUndefined) ] /\
  (forall f, In ("look"%string, f) demoSchema ->
     getDefaultValue f
     = VObj [("color", VStr "#ff0000"); ("size", VInt 12)]) /\
  ~ merged_with_defaults getDefaultValue demoSchema demoStored merged.
Proof.
  cbv zeta. split; [reflexivity |]. split.
  - intros f [H | [H | [H | []]]]; try discriminate H.
    injection H as <-. reflexivity.
  - intros [_ H].
    specialize (H "look"%string _ (or_intror (or_intror (or_introl eq_refl)))).
    vm_compute in H. discriminate H.
Qed.

(** C3 (as the code has it). Loading merges along the schema: for every
    schema [S] (a JavaScript object, so with distinct keys) and every
    stored mapping [V], the values held after a successful load have
    exactly the keys of [S] and bind each key to [V[k]] when that is
    present and non-null.  Otherwise the settings form binds it to the
    resolved default [getDefaultValue(field)], and the SDK hook to the
    declared [field.default] as it is written: [undefined] when the field
    declares none, also for a category. *)
Theorem load_merges_along_schema :
  forall (S : SettingsSchema) (V : obj) (pluginId : string),
    NoDup (keys S) ->
    (forall (be : Backend) (st : Form.State),
       let p := {| Form.pluginId := pluginId; Form.schema := S |} in
       be (Invoke "plugin:yaof|plugin_settings_get_all"
                  [("pluginId", VStr pluginId)]) = Ok (VObj V) ->
       merged_with_defaults getDefaultValue S V
         (Form.values (state_of (run (Form.loadSettings p) be st)))) /\
    (forall (be : Backend) (st : PluginSettings.State),
       let p := {| PluginSettings.pluginId := pluginId;
                   PluginSettings.schema := S |} in
       be (StoreLoad (PluginSettings.storeName p)) <> Throw ->
       (forall k, be (StoreGet (PluginSettings.storeName p) k)
                  = Ok (obj_get V k)) ->
       merged_with_defaults field_default S V
         (PluginSettings.values
            (state_of (run (PluginSettings.loadSettings p true) be st)))).
Proof.
  intros S V pluginId Hnd. split.
  - intros be st p Hget.
    rewrite (form_load_values p V be st Hget).
    subst p. cbn [Form.schema].
    destruct (build_obj_with_spec (formMerge V) S Hnd) as [Hk Hv].
    split; [exact Hk |].
    intros k f Hin. rewrite (Hv k f Hin).
    unfold formMerge, nullish_or. reflexivity.
  - intros be st p Hload Hget.
    rewrite (hook_load_values p V be st Hload Hget).
    subst p. cbn [PluginSettings.schema].
    destruct (build_obj_with_spec (hookMerge V) S Hnd) as [Hk Hv].
    split; [exact Hk |].
    intros k f Hin. rewrite (Hv k f Hin).
    unfold hookMerge. destruct (is_nullish (obj_get V k)); reflexivity.
Qed.

Lemma load_merges_along_schema_witness :
  NoDup (keys demoSchema) /\
  merged_with_defaults getDefaultValue demoSchema demoStored
    [ ("format", VStr "12h");
      ("title", VStr "");
      ("look", VObj [("color", VStr "#ff0000"); ("size", VInt 12)]) ] /\
  merged_with_defaults field_default demoSchema demoStored
    [ ("format", VStr "12h");
      ("title", VUndefined);
      ("look", VUndefined) ] /\
  merged_with_defaults field_default demoSchema partialLook
    [ ("format", VStr "24h");
      ("title", VUndefined);
      ("look", VObj [("color", VStr "#00ff00")]) ].
Proof.
  assert (Hnd : NoDup (keys demoSchema)).
  { cbn. repeat constructor; cbn; intuition discriminate. }
  split; [exact Hnd |].
  destruct (load_merges_along_schema demoSchema demoStored "clock" Hnd)
    as [HF HH].
  destruct (load_merges_along_schema demoSchema partialLook "clock" Hnd)
    as [_ HP].
  split; [| split].
  - exact (HF (storeOf demoStored) Form.initial eq_refl).
  - refine (HH (storeOf demoStored) PluginSettings.initial _ _).
    + discriminate.
    + reflexivity.
  - refine (HP (storeOf partialLook) PluginSettings.initial _ _).
    + discriminate.
    + reflexivity.
Defined.

(* ================================================================== *)
(** ** Category fields *)
(* ================================================================== *)

Lemma category_merge_counterexample :
  Form.values
    (state_of (run (Form.loadSettings demoForm) (storeOf partialLook)
                   Form.initial))
  = [ ("format", VStr "24h");
      ("title", VStr "");
      ("look", VObj [("color", VStr "#00ff00")]) ]
  /\ ~ nested_merge demoSchema partialLook
         (Form.values
            (state_of (run (Form.loadSettings demoForm) (storeOf partialLook)
                           Form.initial))).
Proof.
  split; [reflexivity |].
  intros H.
  destruct (H "look" "Look" None
              [ ("color", ColorField "Color" (Some "#ff0000"));
                ("size", NumberField "Size" (Some 12%Q) None None None) ]
              "size" (NumberField "Size" (Some 12%Q) None None None))
    as (nested & Hn & Hv).
  - cbn. tauto.
  - cbn. tauto.
  - vm_compute in Hn. injection Hn as <-. vm_compute in Hv. discriminate Hv.
Qed.

(** C6 (as the code has it). The merge of the settings form is decided per
    top-level key only.  For a category field: when the stored category is
    absent or null the merged value is the object of the nested fields'
    defaults, built recursively by [getDefaultValue]; when a stored
    category object is present it is taken whole, so a nested key it lacks
    stays [undefined] in the merged value. *)
Theorem category_merge_is_shallow :
  forall (S : SettingsSchema) (V : obj) (pluginId : string) (be : Backend)
         (st : Form.State) (k lbl : string) (d : option value)
         (fields : list (string * SettingField)),
    NoDup (keys S) ->
    In (k, CategoryField lbl d fields) S ->
    be (Invoke "plugin:yaof|plugin_settings_get_all"
               [("pluginId", VStr pluginId)]) = Ok (VObj V) ->
    let p := {| Form.pluginId := pluginId; Form.schema := S |} in
    let merged := Form.values (state_of (run (Form.loadSettings p) be st)) in
    (is_nullish (obj_get V k) = true ->
       obj_get merged k = VObj (build_obj getDefaultValue fields) /\
       (NoDup (keys fields) ->
          keys (build_obj getDefaultValue fields) = keys fields /\
          forall nk nf, In (nk, nf) fields ->
            obj_get (build_obj getDefaultValue fields) nk
            = getDefaultValue nf)) /\
    (forall o, obj_get V k = VObj o ->
       obj_get merged k = VObj o /\
       forall nk, obj_has o nk = false ->
                  prop_get (obj_get merged k) nk = Some VUndefined).
Proof.
  intros S V pluginId be st k lbl d fields Hnd Hin Hget p merged.
  assert (Hm : obj_get merged k
               = nullish_or (obj_get V k)
                            (getDefaultValue (CategoryField lbl d fields))).
  { subst merged. rewrite (form_load_values p V be st Hget).
    subst p. cbn [Form.schema].
    destruct (build_obj_with_spec (formMerge V) S Hnd) as [_ Hv].
    exact (Hv k _ Hin). }
  split.
  - intros Hnull. split.
    + rewrite Hm. unfold nullish_or. rewrite Hnull. reflexivity.
    + intros Hndf.
      exact (build_obj_with_spec (fun _ => getDefaultValue) fields Hndf).
  - intros o Ho. rewrite Hm, Ho. cbn. split; [reflexivity |].
    intros nk Hhas. f_equal. now apply obj_get_absent.
Qed.

Lemma category_merge_is_shallow_witness :
  let merged :=
    Form.values
      (state_of (run (Form.loadSettings demoForm) (storeOf partialLook)
                     Form.initial)) in
  let defaulted :=
    Form.values
      (state_of (run (Form.loadSettings demoForm) (storeOf demoStored)
                     Form.initial)) in
  obj_get defaulted "look"
    = VObj [("color", VStr "#ff0000"); ("size", VInt 12)] /\
  (forall nested, obj_get defaulted "look" = VObj nested ->
                  keys nested = ["color"; "size"]%string) /\
  obj_get merged "look" = VObj [("color", VStr "#00ff00")] /\
  prop_get (obj_get merged "look") "size" = Some VUndefined.
Proof.
  assert (Hnd : NoDup (keys demoSchema)).
  { cbn. repeat constructor; cbn; intuition discriminate. }
  assert (Hin : In ("look",
                    CategoryField "Look" None
                      [ ("color", ColorField "Color" (Some "#ff0000"));
                        ("size",
                         NumberField "Size" (Some 12%Q) None None None) ])
                   demoSchema).
  { cbn. tauto. }
  destruct (category_merge_is_shallow demoSchema demoStored "clock"
              (storeOf demoStored) Form.initial _ _ _ _ Hnd Hin eq_refl)
    as [Hdef _].
  destruct (category_merge_is_shallow demoSchema partialLook "clock"
              (storeOf partialLook) Form.initial _ _ _ _ Hnd Hin eq_refl)
    as [_ Hkeep].
  destruct (Hdef eq_refl) as [Hd Hd2].
  destruct Hd2 as [Hkeys _].
  { cbn. repeat constructor; cbn; intuition discriminate. }
  destruct (Hkeep [("color", VStr "#00ff00")] eq_refl) as [Hk Hsize].
  cbv zeta. split; [exact Hd |]. split.
  { intros nested Hn. pose proof (eq_trans (eq_sym Hd) Hn) as E.
    injection E as <-. exact Hkeys. }
  split; [exact Hk |].
  exact (Hsize "size" eq_refl).
Defined.

(* ================================================================== *)
(** ** Saving and broadcasting from the settings form *)
(* ================================================================== *)

Lemma saveAndEmit_run (p : Form.Props) (v : obj) (be : Backend)
  (s : Form.State) (tr : list Call) :
  exists s',
    Form.saveAndEmit p v be s tr = (Ok tt, s', tr ++ saveCalls p be v) /\
    Form.values s' = Form.values s /\
    Form.latestValues s' = Form.latestValues s /\
    Form.debounceTimer s' = Form.debounceTimer s.
Proof.
  unfold Form.saveAndEmit, saveCalls, setAllCall, broadcast, settings_topic.
  unfold_async. cbn.
  destruct (be (Invoke "plugin:yaof|plugin_settings_set_all" _)); cbn.
  - destruct (be (Emit _ _)); cbn; eexists;
      rewrite <- ?app_assoc; cbn; repeat split.
  - eexists. rewrite <- ?app_assoc. cbn. repeat split.
Qed.

Lemma saveCalls_emits (p : Form.Props) (be : Backend) (v : obj)
  (topic : string) (payload : obj) :
  In (Emit topic payload) (saveCalls p be v) ->
  Emit topic payload = broadcast (Form.pluginId p) v.
Proof.
  unfold saveCalls.
  destruct (be (setAllCall _ _)); [destruct (be (broadcast _ _)) |];
    cbn; intros H;
    repeat (destruct H as [H | H]; [try discriminate H; now symmetry |]);
    contradiction.
Qed.

Lemma handleSave_run (p : Form.Props) (be : Backend) (st : Form.State) :
  calls_of (run (Form.handleSave p) be st) = saveCalls p be (Form.values st)
  /\ Form.debounceTimer (state_of (run (Form.handleSave p) be st)) = None
  /\ outcome_of (run (Form.handleSave p) be st) = Ok tt.
Proof.
  unfold Form.handleSave. unfold_async. cbn -[Form.saveAndEmit].
  destruct (saveAndEmit_run p (Form.values st) be (Form.setTimer None st) [])
    as (s' & Heq & _ & _ & Ht).
  cbn -[Form.saveAndEmit] in Heq. rewrite Heq. cbn. auto.
Qed.

Lemma form_tick_due (p : Form.Props) (be : Backend) (st : Form.State)
  (now d : Z) :
  Form.debounceTimer st = Some d -> d <= now ->
  calls_of (run (Form.tick p now) be st)
    = saveCalls p be (Form.latestValues st)
  /\ Form.debounceTimer (state_of (run (Form.tick p now) be st)) = None.
Proof.
  intros Ht Hd. unfold Form.tick, Form.onTimeout, Form.debouncedSave.
  unfold_async. cbn -[Form.saveAndEmit]. rewrite Ht.
  apply Z.leb_le in Hd. rewrite Hd. cbn -[Form.saveAndEmit].
  destruct (saveAndEmit_run p (Form.latestValues st) be
              (Form.setTimer None st) [])
    as (s' & Heq & _ & _ & Ht').
  cbn -[Form.saveAndEmit] in Heq. rewrite Heq. cbn. auto.
Qed.

Lemma form_tick_idle (p : Form.Props) (be : Backend) (st : Form.State)
  (now : Z) :
  match Form.debounceTimer st with
  | Some d => now < d
  | None => True
  end ->
  run (Form.tick p now) be st = (Ok tt, st, []).
Proof.
  intros H. unfold Form.tick. unfold_async.
  destruct (Form.debounceTimer st) as [d |]; [| reflexivity].
  apply Z.leb_gt in H. rewrite H. reflexivity.
Qed.

Lemma handleChange_steps (e : event) (be : Backend) (s : Form.State)
  (tr : list Call) :
  Form.handleChange (ev_time e) (ev_key e) (ev_value e) be s tr
  = (Ok tt, afterChange e s, tr).
Proof. reflexivity. Qed.

Lemma handleSave_steps (p : Form.Props) (be : Backend) (st : Form.State)
  (tr : list Call) :
  exists s',
    Form.handleSave p be st tr
      = (Ok tt, s', tr ++ saveCalls p be (Form.values st)) /\
    Form.debounceTimer s' = None.
Proof.
  unfold Form.handleSave. unfold_async. cbn -[Form.saveAndEmit].
  destruct (saveAndEmit_run p (Form.values st) be (Form.setTimer None st) tr)
    as (s' & Heq & _ & _ & Ht).
  cbn -[Form.saveAndEmit] in Heq. rewrite Heq. exists s'. split; auto.
Qed.

Lemma form_load_run (p : Form.Props) (V : obj) (be : Backend)
  (st : Form.State) :
  be (Invoke "plugin:yaof|plugin_settings_get_all"
             [("pluginId", VStr (Form.pluginId p))]) = Ok (VObj V) ->
  exists s',
    run (Form.loadSettings p) be st
    = (Ok tt, s',
       [ Invoke "plugin:yaof|plugin_settings_get_all"
                [("pluginId", VStr (Form.pluginId p))] ]) /\
    Form.values s' = build_obj_with (formMerge V) (Form.schema p) /\
    Form.latestValues s' = Form.values s'.
Proof.
  intros Hget. unfold Form.loadSettings. unfold_async.
  cbn -[Form.mergeStored]. rewrite Hget.
  rewrite mergeStored_obj. cbn. eexists.
  split; [reflexivity |]. split; reflexivity.
Qed.

(** A tick leaves the values alone; what it issues is nothing or one save
    of the edit buffer. *)
Lemma form_tick_saves (p : Form.Props) (be : Backend) (s : Form.State)
  (now : Z) (tr : list Call) :
  exists s' tr',
    Form.tick p now be s tr = (Ok tt, s', tr ++ tr') /\
    Form.values s' = Form.values s /\
    Form.latestValues s' = Form.latestValues s /\
    (tr' = [] \/ tr' = saveCalls p be (Form.latestValues s)).
Proof.
  unfold Form.tick, Form.onTimeout, Form.debouncedSave. unfold_async.
  destruct (Form.debounceTimer s) as [d |];
    [| exists s, []; rewrite app_nil_r; auto].
  destruct (d <=? now); [| exists s, []; rewrite app_nil_r; auto].
  cbn -[Form.saveAndEmit].
  destruct (saveAndEmit_run p (Form.latestValues s) be
              (Form.setTimer None s) tr) as (s' & Heq & Hv & Hl & _).
  cbn -[Form.saveAndEmit] in Heq. rewrite Heq.
  exists s', (saveCalls p be (Form.latestValues s)). auto.
Qed.

(** Edits of keys the buffer already has keep its keys, and every
    broadcast sent meanwhile carries an object with those keys. *)
Lemma formEdits_saves (p : Form.Props) (be : Backend) (K : list string) :
  forall (evs : list event) (s : Form.State) (tr : list Call),
    keys (Form.latestValues s) = K ->
    Form.values s = Form.latestValues s ->
    (forall e, In e evs -> In (ev_key e) K) ->
    exists s' tr',
      formEdits p evs be s tr = (Ok tt, s', tr ++ tr') /\
      keys (Form.latestValues s') = K /\
      Form.values s' = Form.latestValues s' /\
      forall topic payload,
        In (Emit topic payload) tr' ->
        exists v, Emit topic payload = broadcast (Form.pluginId p) v /\
                  keys v = K.
Proof.
  unfold formEdits.
  induction evs as [| e evs IH]; intros s tr HK Hv Hin.
  - exists s, []. cbn. rewrite app_nil_r.
    split; [reflexivity |]. split; [exact HK |]. split; [exact Hv |].
    intros topic payload [].
  - cbn [for_each]. unfold bind at 1. unfold bind at 1.
    destruct (form_tick_saves p be s (ev_time e) tr)
      as (s1 & tr1 & Heq & Hv1 & Hl1 & Htr1).
    rewrite Heq, handleChange_steps.
    destruct (IH (afterChange e s1) (tr ++ tr1))
      as (s' & tr' & Heq' & HK' & Hv' & Hem).
    + cbn [afterChange Form.latestValues]. rewrite Hl1, keys_set_old; auto.
      rewrite HK. apply Hin. now left.
    + reflexivity.
    + intros e' He'. apply Hin. now right.
    + rewrite Heq'. exists s', (tr1 ++ tr').
      split; [now rewrite app_assoc |].
      split; [exact HK' |]. split; [exact Hv' |].
      intros topic payload Hi. apply in_app_or in Hi.
      destruct Hi as [Hi | Hi]; [| now apply Hem].
      destruct Htr1 as [-> | ->]; [contradiction |].
      apply saveCalls_emits in Hi.
      exists (Form.latestValues s). split; [exact Hi | exact HK].
Qed.

(** The form broadcasts on [yaof:settings:changed:clock], not on the
    dashed topic: after loading [demoStored] and one edit, the flush emits
    the whole values object there.  (When the settings could not be read,
    the same edit broadcasts the edited key alone: the failed load did not
    put the defaults in the edit buffer.) *)
Lemma broadcast_topic_counterexample :
  let session :=
    calls_of (run (Form.loadSettings demoForm ;;
                   Form.handleChange 0 "title" (VStr "Noon") ;;
                   Form.tick demoForm 500)
                  (storeOf demoStored) Form.initial) in
  let unread :=
    calls_of (run (Form.loadSettings demoForm ;;
                   Form.handleChange 0 "title" (VStr "Noon") ;;
                   Form.tick demoForm 500)
                  unreadableSettings Form.initial) in
  In (Emit "yaof:settings:changed:clock"
        [ ("pluginId", VStr "clock");
          ("values",
           VObj [ ("format", VStr "12h");
                  ("title", VStr "Noon");
                  ("look", VObj [ ("color", VStr "#ff0000");
                                  ("size", VInt 12) ]) ]) ])
     session /\
  ~ (forall topic payload,
       In (Emit topic payload) session -> topic = dashedTopic "clock") /\
  In (Emit "yaof:settings:changed:clock"
        [ ("pluginId", VStr "clock");
          ("values", VObj [("title", VStr "Noon")]) ])
     unread.
Proof.
  cbv zeta. split; [| split].
  - vm_compute. right. right. left. reflexivity.
  - intros H.
    specialize (H "yaof:settings:changed:clock"%string
                  [ ("pluginId", VStr "clock");
                    ("values",
                     VObj [ ("format", VStr "12h");
                            ("title", VStr "Noon");
                            ("look", VObj [ ("color", VStr "#ff0000");
                                            ("size", VInt 12) ]) ]) ]).
    assert (Hneq : "yaof:settings:changed:clock"%string
                   <> dashedTopic "clock") by discriminate.
    apply Hneq, H. vm_compute. right. right. left. reflexivity.
  - vm_compute. do 3 right. left. reflexivity.
Qed.

(** C7 (as the code has it). Every settings broadcast of the form - from
    the Save button and from the debounced flush - goes out on the topic
    [yaof:settings:changed:{pluginId}] with payload [{pluginId, values}],
    [values] being the whole in-memory values object, not a diff: after an
    edit of one key the flush sends the whole object with that key
    replaced.  In a session that began with a successful load, every
    broadcast - of the flushes between and after the edits and of a final
    Save - carries an object with exactly the schema's keys.  The SDK hook
    subscribes on the same topic. *)
Theorem broadcast_on_yaof_topic :
  forall (p : Form.Props) (be : Backend) (st : Form.State),
    let topicOfPlugin := ("yaof:settings:changed:" ++ Form.pluginId p)%string in
    (forall topic payload,
       In (Emit topic payload) (calls_of (run (Form.handleSave p) be st)) ->
       topic = topicOfPlugin /\
       payload = [ ("pluginId", VStr (Form.pluginId p));
                   ("values", VObj (Form.values st)) ]) /\
    (forall now topic payload,
       In (Emit topic payload) (calls_of (run (Form.tick p now) be st)) ->
       topic = topicOfPlugin /\
       payload = [ ("pluginId", VStr (Form.pluginId p));
                   ("values", VObj (Form.latestValues st)) ]) /\
    (forall now key v,
       (forall c, be c <> Throw) ->
       calls_of (run (Form.handleChange now key v ;;
                      Form.tick p (now + Form.DEBOUNCE_DELAY)) be st)
       = [ setAllCall (Form.pluginId p)
                      (obj_set (Form.latestValues st) key v);
           Emit topicOfPlugin
                [ ("pluginId", VStr (Form.pluginId p));
                  ("values", VObj (obj_set (Form.latestValues st) key v)) ] ])
    /\
    (forall (V : obj) (evs : list event) (T : Z),
       NoDup (keys (Form.schema p)) ->
       be (Invoke "plugin:yaof|plugin_settings_get_all"
                  [("pluginId", VStr (Form.pluginId p))]) = Ok (VObj V) ->
       (forall e, In e evs -> In (ev_key e) (keys (Form.schema p))) ->
       forall topic payload,
         In (Emit topic payload)
            (calls_of (run (Form.loadSettings p ;; formEdits p evs ;;
                            Form.tick p T ;; Form.handleSave p) be st)) ->
         topic = topicOfPlugin /\
         exists vals,
           payload = [ ("pluginId", VStr (Form.pluginId p));
                       ("values", VObj vals) ] /\
           keys vals = keys (Form.schema p)) /\
    (forall (st' : PluginSettings.State),
       hd_error
         (calls_of
            (run (PluginSettings.setupListener
                    {| PluginSettings.pluginId := Form.pluginId p;
                       PluginSettings.schema := Form.schema p |}) be st'))
       = Some (Listen topicOfPlugin)).
Proof.
  intros p be st topicOfPlugin.
  split; [| split; [| split; [| split]]].
  - intros topic payload H.
    destruct (handleSave_run p be st) as [Hc _]. rewrite Hc in H.
    apply saveCalls_emits in H. injection H as -> ->. split; reflexivity.
  - intros now topic payload H.
    destruct (Form.debounceTimer st) as [d |] eqn:Ht.
    + destruct (Z_le_gt_dec d now) as [Hd | Hd].
      * destruct (form_tick_due p be st now d Ht Hd) as [Hc _].
        rewrite Hc in H. apply saveCalls_emits in H.
        injection H as -> ->. split; reflexivity.
      * rewrite form_tick_idle in H by (rewrite Ht; lia). contradiction.
    + rewrite form_tick_idle in H by now rewrite Ht. contradiction.
  - intros now key v Hok.
    unfold Form.handleChange. unfold_async. cbn -[Form.tick Z.add].
    match goal with
    | |- snd (Form.tick p ?n be ?s []) = _ =>
        destruct (form_tick_due p be s n n eq_refl (Z.le_refl n)) as [Hc _]
    end.
    unfold run, calls_of in Hc. rewrite Hc.
    cbn [Form.latestValues Form.setTimer Form.setHasChanges Form.setValues
         Form.setLatestValues].
    unfold saveCalls.
    destruct (be (setAllCall _ _)) eqn:E1; [| now apply Hok in E1].
    destruct (be (broadcast _ _)) eqn:E2; [| now apply Hok in E2].
    reflexivity.
  - intros V evs T Hnd Hget Hin topic payload Hem.
    assert (Hall : exists v, Emit topic payload
                             = broadcast (Form.pluginId p) v /\
                             keys v = keys (Form.schema p)).
    { unfold run, calls_of, bind in Hem.
      destruct (form_load_run p V be st Hget) as (s1 & Heq1 & Hv1 & Hl1).
      unfold run in Heq1. rewrite Heq1 in Hem.
      assert (HK1 : keys (Form.latestValues s1) = keys (Form.schema p)).
      { rewrite Hl1, Hv1.
        exact (proj1 (build_obj_with_spec (formMerge V) (Form.schema p)
                        Hnd)). }
      destruct (formEdits_saves p be (keys (Form.schema p)) evs s1
                  [ Invoke "plugin:yaof|plugin_settings_get_all"
                           [("pluginId", VStr (Form.pluginId p))] ]
                  HK1 (eq_sym Hl1) Hin)
        as (s2 & tr2 & Heq2 & HK2 & Hv2 & Hem2).
      rewrite Heq2 in Hem.
      destruct (form_tick_saves p be s2 T
                  ([ Invoke "plugin:yaof|plugin_settings_get_all"
                            [("pluginId", VStr (Form.pluginId p))] ] ++ tr2))
        as (s3 & tr3 & Heq3 & Hv3 & Hl3 & Htr3).
      rewrite Heq3 in Hem.
      match type of Hem with
      | context [Form.handleSave p be s3 ?tr0] =>
          destruct (handleSave_steps p be s3 tr0) as (s4 & Heq4 & _)
      end.
      rewrite Heq4 in Hem. cbn [snd] in Hem.
      rewrite <- !app_assoc in Hem. cbn [app] in Hem.
      destruct Hem as [Hem | Hem]; [discriminate Hem |].
      apply in_app_or in Hem. destruct Hem as [Hem | Hem];
        [now apply Hem2 |].
      apply in_app_or in Hem. destruct Hem as [Hem | Hem].
      - destruct Htr3 as [-> | ->]; [contradiction |].
        apply saveCalls_emits in Hem.
        exists (Form.latestValues s2). split; [exact Hem | exact HK2].
      - apply saveCalls_emits in Hem.
        exists (Form.values s3). split; [exact Hem |].
        now rewrite Hv3, Hv2. }
    destruct Hall as (v & Heq & Hk).
    injection Heq as -> ->. split; [reflexivity |].
    exists v. split; [reflexivity | exact Hk].
  - intros st'. unfold PluginSettings.setupListener, settings_topic.
    unfold_async. cbn.
    destruct (be (Listen _)); reflexivity.
Qed.

Lemma broadcast_on_yaof_topic_witness :
  (In (Emit "yaof:settings:changed:clock"
            [ ("pluginId", VStr "clock");
              ("values", VObj (Form.values demoFormEdited)) ])
      (calls_of (run (Form.handleSave demoForm) emptyStore demoFormEdited)) /\
   "yaof:settings:changed:clock"%string
   = ("yaof:settings:changed:" ++ Form.pluginId demoForm)%string) /\
  calls_of (run (Form.handleChange 0 "title" (VStr "Noon") ;;
                 Form.tick demoForm 500) emptyStore
                (state_of (run (Form.loadSettings demoForm)
                               (storeOf demoStored) Form.initial)))
  = [ Invoke "plugin:yaof|plugin_settings_set_all"
        [ ("pluginId", VStr "clock");
          ("values",
           VObj [ ("format", VStr "12h");
                  ("title", VStr "Noon");
                  ("look", VObj [ ("color", VStr "#ff0000");
                                  ("size", VInt 12) ]) ]) ];
      Emit "yaof:settings:changed:clock"
        [ ("pluginId", VStr "clock");
          ("values",
           VObj [ ("format", VStr "12h");
                  ("title", VStr "Noon");
                  ("look", VObj [ ("color", VStr "#ff0000");
                                  ("size", VInt 12) ]) ]) ] ] /\
  (exists vals,
     [ ("pluginId", VStr "clock");
       ("values",
        VObj [ ("format", VStr "24h");
               ("title", VStr "Noon");
               ("look", VObj [ ("color", VStr "#ff0000");
                               ("size", VInt 12) ]) ]) ]
     = [ ("pluginId", VStr (Form.pluginId demoForm)); ("values", VObj vals) ]
     /\ keys vals = ["format"; "title"; "look"]%string).
Proof.
  split; [| split].
  - assert (Hin : In (Emit "yaof:settings:changed:clock"
                           [ ("pluginId", VStr "clock");
                             ("values", VObj (Form.values demoFormEdited)) ])
                     (calls_of (run (Form.handleSave demoForm) emptyStore
                                    demoFormEdited))).
    { cbn. right. left. reflexivity. }
    split; [exact Hin |].
    destruct (broadcast_on_yaof_topic demoForm emptyStore demoFormEdited)
      as (H & _).
    exact (proj1 (H _ _ Hin)).
  - destruct (broadcast_on_yaof_topic demoForm emptyStore
                (state_of (run (Form.loadSettings demoForm)
                               (storeOf demoStored) Form.initial)))
      as (_ & _ & H & _).
    apply (H 0 "title"%string (VStr "Noon")). intros c. discriminate.
  - destruct (broadcast_on_yaof_topic demoForm (storeOf demoStored)
                Form.initial) as (_ & _ & _ & H & _).
    refine (proj2 (H demoStored demoTyping 1500 _ eq_refl _
                     "yaof:settings:changed:clock"%string _ _)).
    + cbn. repeat constructor; cbn; intuition discriminate.
    + intros e He. cbn in He.
      repeat (destruct He as [<- | He]; [cbn; tauto |]). contradiction.
    + vm_compute. right. right. left. reflexivity.
Defined.

(* ================================================================== *)
(** ** Save now, reset to defaults *)
(* ================================================================== *)

Lemma form_tick_steps (p : Form.Props) (be : Backend) (st : Form.State)
  (now : Z) (tr : list Call) :
  match Form.debounceTimer st with
  | Some d =>
      if d <=? now then
        exists s', Form.tick p now be st tr
                   = (Ok tt, s', tr ++ saveCalls p be (Form.latestValues st))
                   /\ Form.debounceTimer s' = None
      else Form.tick p now be st tr = (Ok tt, st, tr)
  | None => Form.tick p now be st tr = (Ok tt, st, tr)
  end.
Proof.
  unfold Form.tick, Form.onTimeout, Form.debouncedSave. unfold_async.
  destruct (Form.debounceTimer st) as [d |] eqn:Ht; [| reflexivity].
  destruct (d <=? now); [| reflexivity].
  cbn -[Form.saveAndEmit].
  destruct (saveAndEmit_run p (Form.latestValues st) be
              (Form.setTimer None st) tr)
    as (s' & Heq & _ & _ & Ht').
  cbn -[Form.saveAndEmit] in Heq. rewrite Heq. exists s'. auto.
Qed.

Lemma handleReset_steps (p : Form.Props) (now : Z) (be : Backend)
  (st : Form.State) (tr : list Call) :
  Form.handleReset p now be st tr =
    (Ok tt,
     {| Form.values := Form.schemaDefaults (Form.schema p);
        Form.isLoading := Form.isLoading st;
        Form.isSaving := Form.isSaving st;
        Form.hasChanges := true;
        Form.latestValues := Form.schemaDefaults (Form.schema p);
        Form.debounceTimer := Some (now + Form.DEBOUNCE_DELAY) |},
     tr).
Proof. reflexivity. Qed.

(** The hook's reset goes through [updateSettings]: it only buffers and
    arms the timer. *)
Lemma resetToDefaults_steps (now : Z) (be : Backend)
  (st : OverlayHook.State) (tr : list Call) :
  OverlayHook.resetToDefaults now be st tr =
    (Ok tt,
     {| OverlayHook.store := OverlayHook.store st;
        OverlayHook.settings :=
          obj_assign (OverlayHook.settings st)
                     (OverlayHook.manifestDefaults st);
        OverlayHook.manifestDefaults := OverlayHook.manifestDefaults st;
        OverlayHook.isLoading := OverlayHook.isLoading st;
        OverlayHook.pendingUpdates :=
          obj_assign (OverlayHook.pendingUpdates st)
                     (OverlayHook.manifestDefaults st);
        OverlayHook.debounceTimer :=
          Some {| OverlayHook.deadline := now + OverlayHook.DEBOUNCE_DELAY;
                  OverlayHook.timer_store := OverlayHook.store st;
                  OverlayHook.timer_settings :=
                    obj_assign (OverlayHook.settings st)
                               (OverlayHook.manifestDefaults st) |} |},
     tr).
Proof. reflexivity. Qed.

Lemma reset_not_immediate_counterexample :
  ~ flushes_at_once
      (run (Form.handleReset demoForm 1000) emptyStore demoFormEdited) /\
  Form.debounceTimer demoFormEdited = Some 1400 /\
  calls_of (run (Form.handleReset demoForm 1000) emptyStore demoFormEdited)
  = [] /\
  Form.debounceTimer
    (state_of (run (Form.handleReset demoForm 1000) emptyStore
                   demoFormEdited)) = Some 1500 /\
  calls_of (run (Form.handleReset demoForm 1000 ;; Form.tick demoForm 1499)
                emptyStore demoFormEdited) = [] /\
  calls_of (run (OverlayHook.resetToDefaults 2000) emptyStore demoHookEdited)
  = [] /\
  option_map OverlayHook.deadline
    (OverlayHook.debounceTimer
       (state_of (run (OverlayHook.resetToDefaults 2000) emptyStore
                      demoHookEdited))) = Some 2300.
Proof.
  split; [| repeat split].
  intros [_ H]. discriminate H.
Qed.

(** C5 (as the code has it). The Save button cancels the pending timer and
    writes at once: the persisting call is issued by the action itself, the
    broadcast follows when the write succeeded, and no flush remains
    scheduled.  Reset to defaults also cancels the pending timer, but it
    only replaces the in-memory values by the defaults and arms a new
    timer: nothing is written by the action, and the defaults are written
    when that timer fires [DEBOUNCE_DELAY] later.  The SDK hook's
    [resetToDefaults] likewise only buffers and arms its timer. *)
Theorem save_immediate_reset_debounced :
  forall (p : Form.Props) (be : Backend) (st : Form.State),
    (hd_error (calls_of (run (Form.handleSave p) be st))
       = Some (setAllCall (Form.pluginId p) (Form.values st)) /\
     flushes_at_once (run (Form.handleSave p) be st) /\
     ((forall c, be c <> Throw) ->
        calls_of (run (Form.handleSave p) be st)
        = [ setAllCall (Form.pluginId p) (Form.values st);
            broadcast (Form.pluginId p) (Form.values st) ]) /\
     (forall later,
        calls_of (run (Form.handleSave p ;; Form.tick p later) be st)
        = calls_of (run (Form.handleSave p) be st))) /\
    (forall now,
       calls_of (run (Form.handleReset p now) be st) = [] /\
       Form.values (state_of (run (Form.handleReset p now) be st))
         = Form.schemaDefaults (Form.schema p) /\
       Form.debounceTimer (state_of (run (Form.handleReset p now) be st))
         = Some (now + Form.DEBOUNCE_DELAY) /\
       (forall t, t < now + Form.DEBOUNCE_DELAY ->
          calls_of (run (Form.handleReset p now ;; Form.tick p t) be st)
          = []) /\
       (forall t, now + Form.DEBOUNCE_DELAY <= t ->
          calls_of (run (Form.handleReset p now ;; Form.tick p t) be st)
          = saveCalls p be (Form.schemaDefaults (Form.schema p)))) /\
    (forall (hst : OverlayHook.State) now,
       calls_of (run (OverlayHook.resetToDefaults now) be hst) = [] /\
       option_map OverlayHook.deadline
         (OverlayHook.debounceTimer
            (state_of (run (OverlayHook.resetToDefaults now) be hst)))
       = Some (now + OverlayHook.DEBOUNCE_DELAY)).
Proof.
  intros p be st. split; [| split].
  - destruct (handleSave_steps p be st []) as (s' & Heq & Ht).
    unfold run, calls_of, state_of. rewrite Heq. cbn [fst snd app].
    assert (Hhd : hd_error (saveCalls p be (Form.values st))
                  = Some (setAllCall (Form.pluginId p) (Form.values st))).
    { unfold saveCalls.
      destruct (be (setAllCall _ _)); [destruct (be (broadcast _ _)) |];
        reflexivity. }
    split; [exact Hhd |]. split; [| split].
    + split; [| exact Ht].
      exists (Form.pluginId p), (Form.values st).
      destruct (saveCalls p be (Form.values st)) as [| c l];
        [discriminate Hhd |].
      injection Hhd as ->. now left.
    + intros Hok. unfold saveCalls.
      destruct (be (setAllCall _ _)) eqn:E1; [| now apply Hok in E1].
      destruct (be (broadcast _ _)) eqn:E2; [| now apply Hok in E2].
      reflexivity.
    + intros later. unfold bind. rewrite Heq.
      pose proof (form_tick_steps p be s' later
                    ([] ++ saveCalls p be (Form.values st))) as Htick.
      rewrite Ht in Htick. rewrite Htick. reflexivity.
  - intros now. unfold run, calls_of, state_of, bind.
    rewrite !handleReset_steps. cbn [fst snd]. repeat split.
    + intros t Hlt.
      match goal with
      | |- context [Form.tick p t be ?s ?tr] =>
          pose proof (form_tick_steps p be s t tr) as Htick
      end.
      cbn [Form.debounceTimer] in Htick.
      apply Z.leb_gt in Hlt. rewrite Hlt in Htick. rewrite Htick.
      reflexivity.
    + intros t Hle.
      match goal with
      | |- context [Form.tick p t be ?s ?tr] =>
          pose proof (form_tick_steps p be s t tr) as Htick
      end.
      cbn [Form.debounceTimer] in Htick.
      apply Z.leb_le in Hle. rewrite Hle in Htick.
      destruct Htick as (s' & Heq & _). rewrite Heq. reflexivity.
  - intros hst now. unfold run, calls_of, state_of.
    rewrite resetToDefaults_steps. split; reflexivity.
Qed.

Lemma save_immediate_reset_debounced_witness :
  calls_of (run (Form.handleSave demoForm) emptyStore demoFormEdited)
  = [ setAllCall "clock" (Form.values demoFormEdited);
      broadcast "clock" (Form.values demoFormEdited) ] /\
  calls_of (run (Form.handleReset demoForm 1000 ;; Form.tick demoForm 1499)
                emptyStore demoFormEdited) = [] /\
  calls_of (run (Form.handleReset demoForm 1000 ;; Form.tick demoForm 1500)
                emptyStore demoFormEdited)
  = [ setAllCall "clock" (Form.schemaDefaults demoSchema);
      broadcast "clock" (Form.schemaDefaults demoSchema) ].
Proof.
  destruct (save_immediate_reset_debounced demoForm emptyStore demoFormEdited)
    as ((_ & _ & Hsave & _) & Hreset & _).
  destruct (Hreset 1000) as (_ & _ & _ & Hearly & Hdue).
  split; [| split].
  - apply Hsave. intros c. discriminate.
  - apply Hearly. reflexivity.
  - rewrite Hdue; [reflexivity | discriminate].
Defined.

(* ================================================================== *)
(** ** usePluginSettings when the store cannot be loaded *)
(* ================================================================== *)




Lemma setSetting_with_store (be : Backend) (s : PluginSettings.State)
  (h key : string) (v : value) :
  PluginSettings.store s = Some h ->
  be (StoreSet h key v) <> Throw -> be (StoreSave h) <> Throw ->
  run (PluginSettings.setSetting key v) be s =
    (Ok tt,
     PluginSettings.setValues (obj_set (PluginSettings.values s) key v) s,
     [StoreSet h key v; StoreSave h]).
Proof.
  intros Hs Hset Hsave. unfold PluginSettings.setSetting. unfold_async.
  rewrite Hs. cbn.
  destruct (be (StoreSet h key v)); [| contradiction].
  destruct (be (StoreSave h)); [| contradiction].
  reflexivity.
Qed.




(* ================================================================== *)
(** ** The debounced write of the settings panel *)
(* ================================================================== *)

Lemma updateSetting_steps (e : event) (be : Backend) (s : Panel.State)
  (tr : list Call) :
  Panel.updateSetting (ev_time e) (ev_key e) (ev_value e) be s tr
  = (Ok tt, afterUpdate e s, tr).
Proof. reflexivity. Qed.

Lemma panel_tick_idle (p : Panel.Props) (be : Backend) (s : Panel.State)
  (now : Z) (tr : list Call) :
  match Panel.debounceTimer s with
  | Some t => now < Panel.deadline t
  | None => True
  end ->
  Panel.tick p now be s tr = (Ok tt, s, tr).
Proof.
  intros H. unfold Panel.tick. unfold_async.
  destruct (Panel.debounceTimer s) as [t |]; [| reflexivity].
  apply Z.leb_gt in H. rewrite H. reflexivity.
Qed.

(** A burst inside the window only buffers: no call is issued. *)
Lemma updates_buffer_only (p : Panel.Props) (be : Backend) :
  forall (evs : list event) (s : Panel.State) (tr : list Call),
    within_window (option_map Panel.deadline (Panel.debounceTimer s)) evs ->
    Panel.updates p evs be s tr
    = (Ok tt, fold_left (fun s e => afterUpdate e s) evs s, tr).
Proof.
  unfold Panel.updates.
  induction evs as [| e evs IH]; intros s tr Hw.
  - reflexivity.
  - destruct Hw as [Hnow Hrest]. cbn [for_each fold_left].
    unfold bind at 1. unfold bind at 1.
    rewrite panel_tick_idle.
    + change (Panel.updateSetting (fst e) (fst (snd e)) (snd (snd e)) be s tr)
        with (Panel.updateSetting (ev_time e) (ev_key e) (ev_value e)
                                  be s tr).
      rewrite updateSetting_steps. apply IH. exact Hrest.
    + destruct (Panel.debounceTimer s); [exact Hnow | exact I].
Qed.

Lemma burst_state (evs : list event) :
  forall s,
    let s' := fold_left (fun s e => afterUpdate e s) evs s in
    Panel.store s' = Panel.store s /\
    Panel.pendingUpdates s' = buffered evs (Panel.pendingUpdates s) /\
    Panel.settings s' = buffered evs (Panel.settings s) /\
    Panel.debounceTimer s' =
      match evs with
      | [] => Panel.debounceTimer s
      | _ => Some {| Panel.deadline :=
                       ev_time (last evs (0, (""%string, VUndefined)))
                       + Panel.DEBOUNCE_DELAY;
                     Panel.timer_store := Panel.store s |}
      end.
Proof.
  induction evs as [| e evs IH]; intros s.
  - cbn. auto.
  - cbn [fold_left]. destruct (IH (afterUpdate e s)) as (Hs & Hp & Hse & Ht).
    cbv zeta. rewrite Hs, Hp, Hse, Ht.
    repeat split. destruct evs; reflexivity.
Qed.

Lemma keys_set_In (o : obj) (k k' : string) (v : value) :
  In k' (keys (obj_set o k v)) <-> k' = k \/ In k' (keys o).
Proof.
  destruct (obj_has o k) eqn:E.
  - apply obj_has_In in E. rewrite keys_set_old by exact E.
    split; [tauto | intros [-> | H]; assumption].
  - assert (Hni : ~ In k (keys o)).
    { intros H. apply obj_has_In in H. congruence. }
    rewrite keys_set_new by exact Hni. rewrite in_app_iff. cbn.
    split; [intros [H | [H | []]]; auto | intros [H | H]; auto].
Qed.

Lemma keys_set_NoDup (o : obj) (k : string) (v : value) :
  NoDup (keys o) -> NoDup (keys (obj_set o k v)).
Proof.
  intros Hnd. destruct (obj_has o k) eqn:E.
  - apply obj_has_In in E. now rewrite keys_set_old.
  - assert (Hni : ~ In k (keys o)).
    { intros H. apply obj_has_In in H. congruence. }
    rewrite keys_set_new by exact Hni.
    apply NoDup_app; [exact Hnd | repeat constructor; auto |].
    intros x Hx [<- | []]. contradiction.
Qed.

Lemma obj_set_nonempty (o : obj) (k : string) (v : value) :
  obj_set o k v <> [].
Proof. destruct o as [| [k0 v0] o]; cbn; [| destruct (String.eqb k0 k)];
  discriminate. Qed.

(** The buffer after a burst: distinct keys, exactly the updated ones on
    top of what was there, each holding its last update. *)
Lemma buffered_spec (evs : list event) :
  forall acc,
    NoDup (keys acc) ->
    NoDup (keys (buffered evs acc)) /\
    (forall k, In k (keys (buffered evs acc)) <->
               In k (map ev_key evs) \/ In k (keys acc)) /\
    (forall k, obj_get (buffered evs acc) k =
               match last_update k evs with
               | Some v => v
               | None => obj_get acc k
               end).
Proof.
  induction evs as [| e evs IH]; intros acc Hnd.
  - cbn. repeat split; tauto.
  - cbn [buffered fold_left].
    destruct (IH (obj_set acc (ev_key e) (ev_value e))
                 (keys_set_NoDup _ _ _ Hnd)) as (H1 & H2 & H3).
    fold (buffered evs (obj_set acc (ev_key e) (ev_value e))).
    split; [exact H1 |]. split.
    + intros k. rewrite H2, keys_set_In. cbn. split.
      * intros [H | [-> | H]]; auto.
      * intros [[<- | H] | H]; auto.
    + intros k. rewrite H3. cbn [last_update].
      destruct (last_update k evs); [reflexivity |].
      rewrite obj_get_set.
      destruct (String.eqb (ev_key e) k); reflexivity.
Qed.

Lemma buffered_nonempty (evs : list event) :
  forall acc, evs <> [] -> buffered evs acc <> [].
Proof.
  induction evs as [| e evs IH]; intros acc Hne; [congruence |].
  cbn [buffered fold_left].
  destruct evs as [| e' evs'].
  - cbn. apply obj_set_nonempty.
  - apply IH. discriminate.
Qed.

(** A reconciliation pass appends its calls to whatever was issued
    before, and none of them is a store write. *)
Lemma applyToOverlay_appends (p : Panel.Props) (be : Backend)
  (st : Panel.State) (upd cur : obj) (tr : list Call) :
  exists res s' tr',
    Panel.applyToOverlay p upd cur be st tr = (res, s', tr ++ tr') /\
    Panel.pendingUpdates s' = Panel.pendingUpdates st /\
    Panel.debounceTimer s' = Panel.debounceTimer st /\
    store_writes tr' = [].
Proof.
  unfold Panel.applyToOverlay. unfold_async. cbn.
  split_paths; do 3 eexists;
    (split; [rewrite <- ?app_assoc; reflexivity |]);
    repeat split.
Qed.

(** The flush: one [set] per buffered entry, one [save], then the
    reconciliation pass; the buffer is emptied and the timer disarmed. *)
Lemma panel_flush (p : Panel.Props) (be : Backend) (s : Panel.State)
  (h : string) (now : Z) (t : Panel.Timer) (tr : list Call) :
  Panel.debounceTimer s = Some t ->
  Panel.deadline t <= now ->
  Panel.timer_store t = Some h ->
  Panel.pendingUpdates s <> [] ->
  (forall k v, be (StoreSet h k v) <> Throw) ->
  exists s' tr',
    Panel.tick p now be s tr
    = (Ok tt, s',
       tr ++ setCalls h (Panel.pendingUpdates s) ++ [StoreSave h] ++ tr') /\
    store_writes tr' = [] /\
    Panel.pendingUpdates s' = [] /\
    Panel.debounceTimer s' = None.
Proof.
  intros Ht Hd Hs Hp Hset.
  unfold Panel.tick, Panel.onTimeout. unfold_async.
  cbn -[writeAll Panel.applyToOverlay]. rewrite Ht.
  apply Z.leb_le in Hd. rewrite Hd.
  cbn -[writeAll Panel.applyToOverlay]. rewrite Hs.
  destruct (Panel.pendingUpdates s) as [| kv pending] eqn:Ep;
    [congruence |].
  cbn -[writeAll Panel.applyToOverlay].
  match goal with
  | |- context [writeAll ?h' ?pd be ?s0 ?tr0] =>
      destruct (writeAll_calls h' be Hset pd s0 tr0) as (res & Heq);
      rewrite Heq
  end.
  destruct res; cbn -[Panel.applyToOverlay].
  - match goal with
    | |- context [Panel.applyToOverlay p ?u ?c be ?s0 ?tr0] =>
        destruct (applyToOverlay_appends p be s0 u c tr0)
          as (r2 & s2 & tr2 & Heq2 & Hp2 & Ht2 & Hw2); rewrite Heq2
    end.
    cbn in Hp2, Ht2.
    exists s2, tr2.
    split; [| repeat split; assumption].
    f_equal. cbn. rewrite <- !app_assoc. cbn. rewrite <- ?app_assoc.
    reflexivity.
  - match goal with
    | |- context [Panel.applyToOverlay p ?u ?c be ?s0 ?tr0] =>
        destruct (applyToOverlay_appends p be s0 u c tr0)
          as (r2 & s2 & tr2 & Heq2 & Hp2 & Ht2 & Hw2); rewrite Heq2
    end.
    cbn in Hp2, Ht2.
    exists s2, (ConsoleError "Failed to save settings:" :: tr2).
    split; [| repeat split; assumption].
    f_equal. cbn. rewrite <- !app_assoc. cbn. rewrite <- ?app_assoc.
    reflexivity.
Qed.

Lemma setCalls_are_writes (h : string) (pending : obj) :
  store_writes (setCalls h pending) = setCalls h pending.
Proof.
  induction pending as [| [k v] pending IH]; [reflexivity |].
  cbn. f_equal. exact IH.
Qed.

Lemma setCalls_no_save (h : string) (pending : obj) :
  filter is_save (setCalls h pending) = [].
Proof.
  induction pending as [| [k v] pending IH]; [reflexivity | exact IH].
Qed.

(** Three bursts that are not flushed as one [set] per updated key and
    one [save].  After a rejected [load()] the panel has no store handle
    and the flush writes nothing.  After the user edited [x] on one window
    and selected another before the timer ran out, the cleanup cleared the
    timer but not the buffer, and the flush of a later edit of [y] writes
    the stale [x] as well, into the other window's store.  When
    [store.set] throws, the remaining [set] calls and the [save] are
    skipped. *)
Lemma burst_flush_counterexample :
  let unloaded :=
    state_of (run (Panel.loadSettings demoPanel true) brokenStore
                  (Panel.initial demoPanel)) in
  let switched :=
    state_of (run (Panel.loadSettings demoPanel true ;;
                   Panel.updateSetting 0 "x" (VInt 10) ;;
                   Panel.cleanup ;;
                   Panel.loadSettings demoPanelMini true)
                  emptyStore (Panel.initial demoPanel)) in
  let readOnly :=
    state_of (run (Panel.loadSettings demoPanel true) rejectingStore
                  (Panel.initial demoPanel)) in
  let noStore :=
    calls_of (run (Panel.updates demoPanel demoBurst ;;
                   Panel.tick demoPanel 550) brokenStore unloaded) in
  let stale :=
    calls_of (run (Panel.updates demoPanelMini
                     [(1000, ("y"%string, VInt 20))] ;;
                   Panel.tick demoPanelMini 1300) emptyStore switched) in
  let rejected :=
    calls_of (run (Panel.updates demoPanel demoBurst ;;
                   Panel.tick demoPanel 550) rejectingStore readOnly) in
  (store_writes noStore = [] /\ ~ flushed_once demoBurst noStore) /\
  (store_writes stale
   = [ StoreSet "clock-mini-overlay.json" "x" (VInt 10);
       StoreSet "clock-mini-overlay.json" "y" (VInt 20);
       StoreSave "clock-mini-overlay.json" ] /\
   ~ flushed_once [(1000, ("y"%string, VInt 20))] stale) /\
  (store_writes rejected
   = [ StoreSet "clock-main-overlay.json" "x" (VInt 30) ] /\
   ~ flushed_once demoBurst rejected).
Proof.
  cbv zeta. split; [| split]; (split; [reflexivity |]);
    intros [h H]; vm_compute in H; discriminate H.
Qed.

(** C4 (as the code has it). On a panel that holds a loaded store handle
    and starts with an empty buffer and no pending timer, and whose store
    accepts the [set] calls, a burst of N >= 1 updates, each issued before
    the timer armed by the previous one runs out, issues no call while it
    lasts; when the quiet period has passed the single flush writes one
    [set] per distinct updated key followed by exactly one [save].  The
    buffer has one entry per distinct key and each holds the last value
    given to that key.  Afterwards the buffer is empty and no timer is
    armed, so nothing more is flushed. *)
Theorem debounce_coalesces_updates :
  forall (p : Panel.Props) (be : Backend) (st : Panel.State) (h : string)
         (evs : list event) (T : Z),
    evs <> [] ->
    Panel.store st = Some h ->
    Panel.pendingUpdates st = [] ->
    Panel.debounceTimer st = None ->
    within_window None evs ->
    ev_time (last evs (0, (""%string, VUndefined))) + Panel.DEBOUNCE_DELAY
      <= T ->
    (forall k v, be (StoreSet h k v) <> Throw) ->
    let during := run (Panel.updates p evs) be st in
    let after := run (Panel.updates p evs ;; Panel.tick p T) be st in
    let buffer := Panel.pendingUpdates (state_of during) in
    calls_of during = [] /\
    store_writes (calls_of after) = setCalls h buffer ++ [StoreSave h] /\
    List.length (filter is_save (calls_of after)) = 1%nat /\
    NoDup (keys buffer) /\
    (forall k, In k (keys buffer) <-> In k (map ev_key evs)) /\
    (forall k v, last_update k evs = Some v -> obj_get buffer k = v) /\
    Panel.pendingUpdates (state_of after) = [] /\
    Panel.debounceTimer (state_of after) = None /\
    (forall later,
       run (Panel.tick p later) be (state_of after)
       = (Ok tt, state_of after, [])).
Proof.
  intros p be st h evs T Hne Hstore Hpend Htimer Hwin HT Hset
         during after buffer.
  assert (Hrun : Panel.updates p evs be st []
                 = (Ok tt, fold_left (fun s e => afterUpdate e s) evs st, [])).
  { apply updates_buffer_only. now rewrite Htimer. }
  destruct (burst_state evs st) as (Hs & Hp & _ & Ht). cbv zeta in *.
  set (s1 := fold_left (fun s e => afterUpdate e s) evs st) in *.
  rewrite Hpend in Hp.
  assert (Hbuf : buffer = buffered evs []).
  { subst buffer during. unfold run, state_of. rewrite Hrun. exact Hp. }
  destruct (buffered_spec evs [] (NoDup_nil _)) as (B1 & B2 & B3).
  assert (Htm : Panel.debounceTimer s1
                = Some {| Panel.deadline :=
                            ev_time (last evs (0, (""%string, VUndefined)))
                            + Panel.DEBOUNCE_DELAY;
                          Panel.timer_store := Some h |}).
  { rewrite Ht, Hstore. destruct evs; [congruence | reflexivity]. }
  destruct (panel_flush p be s1 h T _ [] Htm HT eq_refl) as
    (s2 & tr2 & Hflush & Hw2 & Hp2 & Ht2).
  { rewrite Hp. now apply buffered_nonempty. }
  { exact Hset. }
  assert (Hafter : after
                   = (Ok tt, s2,
                      setCalls h (buffered evs []) ++ [StoreSave h] ++ tr2)).
  { subst after. unfold run, bind. rewrite Hrun, Hflush, Hp. reflexivity. }
  split.
  { subst during. unfold run, calls_of. now rewrite Hrun. }
  rewrite Hafter, Hbuf. unfold calls_of, state_of. cbn [fst snd].
  split.
  { rewrite !store_writes_app, setCalls_are_writes, Hw2. cbn.
    rewrite ?app_nil_r. reflexivity. }
  split.
  { rewrite !filter_app, setCalls_no_save. cbn.
    assert (Hns : filter is_save tr2 = []).
    { clear - Hw2. induction tr2 as [| c tr IH]; [reflexivity |].
      unfold store_writes in Hw2. cbn in Hw2.
      destruct c; cbn in *; try discriminate Hw2; now apply IH. }
    now rewrite Hns. }
  split; [exact B1 |]. split.
  { intros k. rewrite B2. cbn. tauto. }
  split.
  { intros k v Hl. rewrite B3, Hl. reflexivity. }
  split; [exact Hp2 |]. split; [exact Ht2 |].
  intros later. unfold run. apply panel_tick_idle. now rewrite Ht2.
Qed.

Lemma debounce_coalesces_updates_witness :
  calls_of (run (Panel.updates demoPanel demoBurst) emptyStore
                demoPanelLoaded) = [] /\
  store_writes
    (calls_of (run (Panel.updates demoPanel demoBurst ;;
                    Panel.tick demoPanel 550) emptyStore demoPanelLoaded))
  = [ StoreSet "clock-main-overlay.json" "x" (VInt 30);
      StoreSet "clock-main-overlay.json" "y" (VInt 20);
      StoreSave "clock-main-overlay.json" ].
Proof.
  assert (Hne : demoBurst <> []) by discriminate.
  assert (Hwin : within_window None demoBurst).
  { cbn. repeat split; reflexivity. }
  assert (HT : ev_time (last demoBurst (0, (""%string, VUndefined)))
               + Panel.DEBOUNCE_DELAY <= 550).
  { cbn. discriminate. }
  assert (Hset : forall k v,
             emptyStore (StoreSet "clock-main-overlay.json" k v) <> Throw).
  { intros k v. discriminate. }
  destruct (debounce_coalesces_updates demoPanel emptyStore demoPanelLoaded
              "clock-main-overlay.json" demoBurst 550
              Hne eq_refl eq_refl eq_refl Hwin HT Hset)
    as (Hquiet & Hwrites & _).
  split; [exact Hquiet |].
  rewrite Hwrites. reflexivity.
Defined.

(* ================================================================== *)
(** ** The ordered-list field: reordering, adding, removing *)
(* ================================================================== *)

Lemma at_index_middle (l1 : list OrderedList.elem) (x : OrderedList.elem)
  (r : list OrderedList.elem) :
  OrderedList.at_index (l1 ++ x :: r) (List.length l1) = x.
Proof.
  unfold OrderedList.at_index. induction l1 as [| a l1 IH]; cbn; auto.
Qed.

Lemma assign_middle (l1 : list OrderedList.elem) (x v : OrderedList.elem)
  (r : list OrderedList.elem) :
  OrderedList.assign (l1 ++ x :: r) (List.length l1) v = l1 ++ v :: r.
Proof.
  induction l1 as [| a l1 IH]; cbn; [reflexivity | now rewrite IH].
Qed.

Lemma includes_In (a : list OrderedList.elem) (x : string) :
  OrderedList.includes a x = true <-> In (Some x) a.
Proof.
  unfold OrderedList.includes. rewrite existsb_exists. split.
  - intros (e & Hin & He). destruct e as [y |]; [| discriminate].
    apply String.eqb_eq in He. now subst.
  - intros Hin. exists (Some x). split; [exact Hin | apply String.eqb_refl].
Qed.

Lemma filter_index_past (a : list OrderedList.elem) (k : nat) :
  forall j, (k < j)%nat ->
    OrderedList.filter_index (fun i => negb (Nat.eqb i k)) a j = a.
Proof.
  induction a as [| y a IH]; intros j Hj; [reflexivity |].
  cbn. destruct (Nat.eqb_spec j k); [lia |]. cbn.
  f_equal. apply IH. lia.
Qed.

Lemma filter_index_drop (a : list OrderedList.elem) :
  forall (n i0 : nat),
    OrderedList.filter_index (fun i => negb (Nat.eqb i (i0 + n))) a i0
    = firstn n a ++ skipn (S n) a.
Proof.
  induction a as [| x a IH]; intros n i0.
  - cbn. now destruct n.
  - cbn [OrderedList.filter_index]. destruct n as [| n].
    + rewrite Nat.add_0_r, Nat.eqb_refl. cbn.
      apply filter_index_past. lia.
    + destruct (Nat.eqb_spec i0 (i0 + S n)); [lia |]. cbn.
      f_equal. replace (i0 + S n)%nat with (S i0 + n)%nat by lia.
      apply IH.
Qed.

Lemma split_at (a : list OrderedList.elem) (i : nat) :
  (i < List.length a)%nat ->
  a = firstn i a ++ OrderedList.at_index a i :: skipn (S i) a
  /\ List.length (firstn i a) = i.
Proof.
  revert i. induction a as [| x a IH]; intros i Hi; [cbn in Hi; lia |].
  destruct i as [| i]; cbn.
  - split; reflexivity.
  - cbn in Hi. destruct (IH i ltac:(lia)) as [H1 H2].
    unfold OrderedList.at_index in *.
    split; [f_equal; exact H1 | f_equal; exact H2].
Qed.

Lemma shiftUp_middle (l1 : list OrderedList.elem) (x y : OrderedList.elem)
  (l2 : list OrderedList.elem) :
  OrderedList.handleShiftUp (l1 ++ x :: y :: l2) (S (List.length l1))
  = Some (l1 ++ y :: x :: l2).
Proof.
  unfold OrderedList.handleShiftUp. cbn [Nat.ltb Nat.leb].
  replace (S (List.length l1) - 1)%nat with (List.length l1) by lia.
  rewrite at_index_middle.
  assert (Hy : OrderedList.at_index (l1 ++ x :: y :: l2) (S (List.length l1))
               = y).
  { replace (l1 ++ x :: y :: l2) with ((l1 ++ [x]) ++ y :: l2)
      by now rewrite <- app_assoc.
    replace (S (List.length l1)) with (List.length (l1 ++ [x]))
      by (rewrite length_app; cbn; lia).
    apply at_index_middle. }
  rewrite Hy, assign_middle.
  replace (l1 ++ y :: y :: l2) with ((l1 ++ [y]) ++ y :: l2)
    by now rewrite <- app_assoc.
  replace (S (List.length l1)) with (List.length (l1 ++ [y]))
    by (rewrite length_app; cbn; lia).
  rewrite assign_middle, <- app_assoc. reflexivity.
Qed.

Lemma shiftDown_middle (l1 : list OrderedList.elem) (x y : OrderedList.elem)
  (l2 : list OrderedList.elem) :
  OrderedList.handleShiftDown (l1 ++ x :: y :: l2) (List.length l1)
  = Some (l1 ++ y :: x :: l2).
Proof.
  unfold OrderedList.handleShiftDown.
  assert (Hlt : Nat.ltb (S (List.length l1))
                        (List.length (l1 ++ x :: y :: l2)) = true).
  { apply Nat.ltb_lt. rewrite length_app. cbn. lia. }
  rewrite Hlt, at_index_middle.
  assert (Hy : OrderedList.at_index (l1 ++ x :: y :: l2)
                 (List.length l1 + 1) = y).
  { replace (l1 ++ x :: y :: l2) with ((l1 ++ [x]) ++ y :: l2)
      by now rewrite <- app_assoc.
    replace (List.length l1 + 1)%nat with (List.length (l1 ++ [x]))
      by (rewrite length_app; cbn; lia).
    apply at_index_middle. }
  rewrite Hy, assign_middle.
  replace (l1 ++ y :: y :: l2) with ((l1 ++ [y]) ++ y :: l2)
    by now rewrite <- app_assoc.
  replace (List.length l1 + 1)%nat with (List.length (l1 ++ [y]))
    by (rewrite length_app; cbn; lia).
  rewrite assign_middle, <- app_assoc. reflexivity.
Qed.

(** Two neighbours inside the list, by position. *)
Lemma split_pair (a : list OrderedList.elem) (i : nat) :
  (S i < List.length a)%nat ->
  exists l1 x y l2, a = l1 ++ x :: y :: l2 /\ List.length l1 = i.
Proof.
  intros Hi. destruct (split_at a i ltac:(lia)) as [Ha Hl].
  destruct (skipn (S i) a) as [| y l2] eqn:Es.
  - apply (f_equal (@List.length _)) in Es. rewrite length_skipn in Es.
    cbn in Es. lia.
  - exists (firstn i a), (OrderedList.at_index a i), y, l2. split; assumption.
Qed.

(** X1. The arrows of the ordered-list field exchange an item with its
    neighbour and touch nothing else; the up arrow of the first item and
    the down arrow of the last item (or of anything beyond) emit no
    change. *)
Theorem shift_exchanges_neighbours :
  (forall l1 x y l2,
     OrderedList.handleShiftUp (l1 ++ x :: y :: l2) (S (List.length l1))
     = Some (l1 ++ y :: x :: l2)) /\
  (forall l1 x y l2,
     OrderedList.handleShiftDown (l1 ++ x :: y :: l2) (List.length l1)
     = Some (l1 ++ y :: x :: l2)) /\
  (forall value, OrderedList.handleShiftUp value 0 = None) /\
  (forall value index,
     (List.length value <= S index)%nat ->
     OrderedList.handleShiftDown value index = None).
Proof.
  split; [exact shiftUp_middle |]. split; [exact shiftDown_middle |].
  split; [reflexivity |].
  intros value index Hle. unfold OrderedList.handleShiftDown.
  destruct (Nat.ltb_spec (S index) (List.length value)); [lia | reflexivity].
Qed.

Lemma shift_exchanges_neighbours_witness :
  OrderedList.handleShiftDown [Some "cpu"; Some "clock"; Some "net"]%string 2
  = None /\
  OrderedList.handleShiftUp [Some "cpu"; Some "clock"; Some "net"]%string 2
  = Some [Some "cpu"; Some "net"; Some "clock"]%string.
Proof.
  destruct shift_exchanges_neighbours as (Hup & _ & _ & Hlast).
  split.
  - apply Hlast. cbn. lia.
  - exact (Hup [Some "cpu"%string] (Some "clock"%string)
               (Some "net"%string) []).
Defined.

(** X2. Shifting an item up and then shifting the item now above its old
    place down gives back the original list. *)
Theorem shift_up_then_down_restores :
  forall value index moved,
    (index < List.length value)%nat ->
    OrderedList.handleShiftUp value index = Some moved ->
    OrderedList.handleShiftDown moved (index - 1) = Some value.
Proof.
  intros value index moved Hlt Hup.
  destruct index as [| i]; [discriminate Hup |].
  destruct (split_pair value i Hlt) as (l1 & x & y & l2 & -> & <-).
  rewrite shiftUp_middle in Hup. injection Hup as <-.
  replace (S (List.length l1) - 1)%nat with (List.length l1) by lia.
  apply shiftDown_middle.
Qed.

Lemma shift_up_then_down_restores_witness :
  OrderedList.handleShiftDown [Some "clock"; Some "cpu"]%string 0
  = Some [Some "cpu"; Some "clock"]%string.
Proof.
  apply (shift_up_then_down_restores
           [Some "cpu"; Some "clock"]%string 1
           [Some "clock"; Some "cpu"]%string).
  - cbn. lia.
  - reflexivity.
Defined.

(** X3. Removing an item deletes exactly the position asked for and keeps
    the others in order; an index past the end emits the list unchanged. *)
Theorem remove_deletes_one_position :
  (forall l1 x l2,
     OrderedList.handleRemove (l1 ++ x :: l2) (List.length l1)
     = Some (l1 ++ l2)) /\
  (forall value index,
     (List.length value <= index)%nat ->
     OrderedList.handleRemove value index = Some value).
Proof.
  split.
  - intros l1 x l2. unfold OrderedList.handleRemove.
    rewrite (filter_index_drop _ (List.length l1) 0).
    rewrite firstn_app, Nat.sub_diag, firstn_all. cbn [firstn].
    rewrite app_nil_r.
    replace (S (List.length l1)) with (List.length (l1 ++ [x]))
      by (rewrite length_app; cbn; lia).
    replace (l1 ++ x :: l2) with ((l1 ++ [x]) ++ l2)
      by now rewrite <- app_assoc.
    rewrite skipn_app, skipn_all, Nat.sub_diag. reflexivity.
  - intros value index Hle. unfold OrderedList.handleRemove.
    rewrite (filter_index_drop _ index 0).
    rewrite firstn_all2 by lia. rewrite skipn_all2 by lia.
    now rewrite app_nil_r.
Qed.

Lemma remove_deletes_one_position_witness :
  OrderedList.handleRemove [Some "cpu"; Some "clock"]%string 5
  = Some [Some "cpu"; Some "clock"]%string.
Proof.
  destruct remove_deletes_one_position as [_ H]. apply H. cbn. lia.
Defined.

(** X4. Adding never duplicates: a value already in the list emits no
    change, a value not in it is appended at the end; the add menu offers
    exactly the enum entries whose value is not in the list, so an offered
    item is always appended and a list without duplicates stays so. *)
Theorem add_appends_only_new_items :
  forall (value : list OrderedList.elem) (enumObj : list (string * string)),
    (forall x, In (Some x) value -> OrderedList.handleAdd value x = None) /\
    (forall x, ~ In (Some x) value ->
       OrderedList.handleAdd value x = Some (value ++ [Some x])) /\
    (forall name v,
       In (name, v) (OrderedList.availableItems enumObj value) <->
       In (name, v) enumObj /\ ~ In (Some v) value) /\
    (forall x added,
       NoDup value -> OrderedList.handleAdd value x = Some added ->
       NoDup added).
Proof.
  intros value enumObj.
  assert (Hin : forall x, In (Some x) value ->
                          OrderedList.handleAdd value x = None).
  { intros x H. unfold OrderedList.handleAdd.
    apply includes_In in H. now rewrite H. }
  assert (Hout : forall x, ~ In (Some x) value ->
                 OrderedList.handleAdd value x = Some (value ++ [Some x])).
  { intros x H. unfold OrderedList.handleAdd.
    destruct (OrderedList.includes value x) eqn:E; [| reflexivity].
    apply includes_In in E. contradiction. }
  split; [exact Hin |]. split; [exact Hout |]. split.
  - intros name v. unfold OrderedList.availableItems.
    rewrite filter_In. cbn [snd]. rewrite negb_true_iff.
    split; intros [H1 H2]; (split; [exact H1 |]).
    + intros Hc. apply includes_In in Hc. congruence.
    + destruct (OrderedList.includes value v) eqn:E; [| reflexivity].
      apply includes_In in E. contradiction.
  - intros x added Hnd Hadd.
    destruct (OrderedList.includes value x) eqn:E.
    + apply includes_In in E. rewrite (Hin x E) in Hadd. discriminate.
    + assert (Hni : ~ In (Some x) value).
      { intros Hc. apply includes_In in Hc. congruence. }
      rewrite (Hout x Hni) in Hadd. injection Hadd as <-.
      apply NoDup_app; [exact Hnd | repeat constructor; auto |].
      intros e He [<- | []]. contradiction.
Qed.

Lemma add_appends_only_new_items_witness :
  OrderedList.handleAdd [Some "cpu"]%string "cpu" = None /\
  OrderedList.handleAdd [Some "cpu"]%string "net"
  = Some [Some "cpu"; Some "net"]%string /\
  NoDup [Some "cpu"; Some "net"]%string.
Proof.
  destruct (add_appends_only_new_items [Some "cpu"%string] [])
    as (Hin & Hout & _ & Hnd).
  assert (H1 : NoDup [Some "cpu"%string]).
  { repeat constructor. cbn. tauto. }
  assert (H2 : ~ In (Some "net"%string) [Some "cpu"%string]).
  { cbn. intros [H | []]. discriminate H. }
  split; [apply Hin; cbn; tauto |].
  split; [exact (Hout _ H2) |].
  exact (Hnd "net"%string _ H1 (Hout _ H2)).
Defined.

Lemma drag_shape (value : list OrderedList.elem) (d o : nat) :
  (d < List.length value)%nat -> (o < List.length value)%nat -> d <> o ->
  let rest := firstn d value ++ skipn (S d) value in
  OrderedList.handleDragEnd value (Some d) (Some o)
  = Some (firstn o rest ++ OrderedList.at_index value d :: skipn o rest)
  /\ List.length (firstn o rest) = o
  /\ Permutation value (OrderedList.at_index value d :: rest).
Proof.
  intros Hd Ho Hne rest. unfold OrderedList.handleDragEnd.
  destruct (Nat.eqb_spec d o); [contradiction |]. cbn [negb].
  split; [reflexivity |].
  destruct (split_at value d Hd) as [Hv Hl].
  assert (Hlen : List.length rest = (List.length value - 1)%nat).
  { subst rest. rewrite length_app, length_firstn, length_skipn. lia. }
  split.
  - rewrite length_firstn. lia.
  - rewrite Hv at 1. subst rest. symmetry. apply Permutation_middle.
Qed.

(** X5. Dropping a dragged item on another position moves it there: the
    new list is a rearrangement of the old one, the dragged item sits at
    the drop position, and the other items keep their relative order.
    Dropping an item on itself, or ending a drag without both positions,
    emits no change. *)
Theorem drag_moves_one_item :
  forall (value : list OrderedList.elem),
    (forall d o,
       (d < List.length value)%nat -> (o < List.length value)%nat ->
       d <> o ->
       exists moved,
         OrderedList.handleDragEnd value (Some d) (Some o) = Some moved /\
         Permutation value moved /\
         OrderedList.at_index moved o = OrderedList.at_index value d /\
         firstn o moved ++ skipn (S o) moved
         = firstn d value ++ skipn (S d) value) /\
    (forall d, OrderedList.handleDragEnd value (Some d) (Some d) = None) /\
    (forall o, OrderedList.handleDragEnd value None o = None) /\
    (forall d, OrderedList.handleDragEnd value d None = None).
Proof.
  intros value. split; [| split; [| split]].
  - intros d o Hd Ho Hne.
    destruct (drag_shape value d o Hd Ho Hne) as (Heq & Hlen & Hperm).
    set (rest := firstn d value ++ skipn (S d) value) in *.
    eexists. split; [exact Heq |]. split; [| split].
    + etransitivity; [exact Hperm |].
      rewrite <- (firstn_skipn o rest) at 1. apply Permutation_middle.
    + pose proof (at_index_middle (firstn o rest)
                    (OrderedList.at_index value d) (skipn o rest)) as Hat.
      rewrite Hlen in Hat. exact Hat.
    + rewrite firstn_app, Hlen, Nat.sub_diag, firstn_all2 by lia.
      cbn [firstn]. rewrite app_nil_r.
      replace (firstn o rest ++ OrderedList.at_index value d :: skipn o rest)
        with ((firstn o rest ++ [OrderedList.at_index value d])
                ++ skipn o rest) by now rewrite <- app_assoc.
      rewrite skipn_app.
      assert (Hl2 : List.length
                      (firstn o rest ++ [OrderedList.at_index value d])
                    = S o) by (rewrite length_app, Hlen; cbn; lia).
      rewrite Hl2, Nat.sub_diag, skipn_all2 by lia. cbn [skipn app].
      apply firstn_skipn.
  - intros d. unfold OrderedList.handleDragEnd.
    now rewrite Nat.eqb_refl.
  - intros o. reflexivity.
  - intros [d |]; reflexivity.
Qed.

Lemma drag_moves_one_item_witness :
  exists moved,
    OrderedList.handleDragEnd
      [Some "cpu"; Some "clock"; Some "net"]%string (Some 0%nat) (Some 2%nat)
    = Some moved /\
    Permutation [Some "cpu"; Some "clock"; Some "net"]%string moved /\
    OrderedList.at_index moved 2 = Some "cpu"%string.
Proof.
  destruct (drag_moves_one_item [Some "cpu"; Some "clock"; Some "net"]%string)
    as (H & _).
  destruct (H 0%nat 2%nat) as (moved & H1 & H2 & H3 & _);
    [cbn; lia | cbn; lia | discriminate |].
  exists moved. repeat split; assumption.
Defined.

Lemma handleAdd_some (value : list OrderedList.elem)
  (x : string) (out : list OrderedList.elem) :
  OrderedList.handleAdd value x = Some out ->
  out = value ++ [Some x] /\ ~ In (Some x) value.
Proof.
  unfold OrderedList.handleAdd.
  destruct (OrderedList.includes value x) eqn:E; [discriminate |].
  intros H. injection H as <-. split; [reflexivity |].
  intros Hc. apply includes_In in Hc. congruence.
Qed.

Lemma well_formed_perm (opts : list string)
  (a b : list OrderedList.elem) :
  Permutation a b -> well_formed opts a -> well_formed opts b.
Proof.
  intros Hp [Hnd Hin]. split.
  - exact (Permutation_NoDup Hp Hnd).
  - intros e He. apply Hin. apply (Permutation_in e (Permutation_sym Hp) He).
Qed.

Lemma well_formed_drop (opts : list string) (a : list OrderedList.elem)
  (i : nat) :
  well_formed opts a -> well_formed opts (firstn i a ++ skipn (S i) a).
Proof.
  intros [Hnd Hin].
  destruct (Nat.lt_ge_cases i (List.length a)) as [Hlt | Hge].
  - destruct (split_at a i Hlt) as [Ha _].
    rewrite Ha in Hnd, Hin. split.
    + exact (NoDup_remove_1 _ _ _ Hnd).
    + intros e He. apply Hin. apply in_app_or in He.
      apply in_or_app. destruct He; [now left | right; now right].
  - rewrite firstn_all2, skipn_all2, app_nil_r by lia. split; assumption.
Qed.

(** X6. The editing operations keep an ordered-list value well formed: if
    the list has no duplicates and holds only option values, so does the
    list after shifting, removing, dragging (positions inside the list) or
    adding an option value. *)
Theorem ordered_list_stays_well_formed :
  forall (opts : list string) (value : list OrderedList.elem),
    well_formed opts value ->
    (forall i out, (i < List.length value)%nat ->
       OrderedList.handleShiftUp value i = Some out -> well_formed opts out) /\
    (forall i out,
       OrderedList.handleShiftDown value i = Some out ->
       well_formed opts out) /\
    (forall i out,
       OrderedList.handleRemove value i = Some out -> well_formed opts out) /\
    (forall x out, In x opts ->
       OrderedList.handleAdd value x = Some out -> well_formed opts out) /\
    (forall d o out,
       (d < List.length value)%nat -> (o < List.length value)%nat ->
       OrderedList.handleDragEnd value (Some d) (Some o) = Some out ->
       well_formed opts out).
Proof.
  intros opts value Hwf. repeat split.
  - destruct i as [| i]; [discriminate |].
    destruct (split_pair value i H) as (l1 & x & y & l2 & -> & <-).
    rewrite shiftUp_middle in H0. injection H0 as <-.
    destruct Hwf as [Hnd _].
    apply (Permutation_NoDup (l := l1 ++ x :: y :: l2)); [| exact Hnd].
    apply Permutation_app_head, perm_swap.
  - destruct i as [| i]; [discriminate |].
    destruct (split_pair value i H) as (l1 & x & y & l2 & -> & <-).
    rewrite shiftUp_middle in H0. injection H0 as <-.
    destruct Hwf as [_ Hin]. intros e He. apply Hin.
    apply (Permutation_in e (l := l1 ++ y :: x :: l2)); [| exact He].
    apply Permutation_app_head, perm_swap.
  - unfold OrderedList.handleShiftDown in H.
    destruct (Nat.ltb_spec (S i) (List.length value)) as [Hlt |];
      [| discriminate].
    destruct (split_pair value i Hlt) as (l1 & x & y & l2 & Hv & Hl).
    pose proof (shiftDown_middle l1 x y l2) as Hs.
    rewrite Hl, <- Hv in Hs. unfold OrderedList.handleShiftDown in Hs.
    destruct (Nat.ltb (S i) (List.length value)); [| discriminate].
    rewrite Hs in H. injection H as <-.
    destruct Hwf as [Hnd _]. rewrite Hv in Hnd.
    apply (Permutation_NoDup (l := l1 ++ x :: y :: l2)); [| exact Hnd].
    apply Permutation_app_head, perm_swap.
  - unfold OrderedList.handleShiftDown in H.
    destruct (Nat.ltb_spec (S i) (List.length value)) as [Hlt |];
      [| discriminate].
    destruct (split_pair value i Hlt) as (l1 & x & y & l2 & Hv & Hl).
    pose proof (shiftDown_middle l1 x y l2) as Hs.
    rewrite Hl, <- Hv in Hs. unfold OrderedList.handleShiftDown in Hs.
    destruct (Nat.ltb (S i) (List.length value)); [| discriminate].
    rewrite Hs in H. injection H as <-.
    destruct Hwf as [_ Hin]. rewrite Hv in Hin. intros e He. apply Hin.
    apply (Permutation_in e (l := l1 ++ y :: x :: l2)); [| exact He].
    apply Permutation_app_head, perm_swap.
  - unfold OrderedList.handleRemove in H.
    rewrite (filter_index_drop _ i 0) in H. injection H as <-.
    apply (well_formed_drop opts value i Hwf).
  - unfold OrderedList.handleRemove in H.
    rewrite (filter_index_drop _ i 0) in H. injection H as <-.
    apply (well_formed_drop opts value i Hwf).
  - destruct (handleAdd_some value x out H0) as [-> Hni].
    destruct Hwf as [Hnd _].
    apply NoDup_app; [exact Hnd | repeat constructor; auto |].
    intros e He [<- | []]. contradiction.
  - destruct (handleAdd_some value x out H0) as [-> Hni].
    destruct Hwf as [_ Hin]. intros e He. apply in_app_or in He.
    destruct He as [He | [<- | []]]; [now apply Hin |].
    exists x. split; [reflexivity | exact H].
  - destruct (Nat.eq_dec d o) as [-> | Hne].
    { unfold OrderedList.handleDragEnd in H1.
      rewrite Nat.eqb_refl in H1. discriminate. }
    destruct (drag_shape value d o H H0 Hne) as (Heq & _ & Hperm).
    rewrite Heq in H1. injection H1 as <-.
    apply (well_formed_perm opts value); [| exact Hwf].
    etransitivity; [exact Hperm |].
    rewrite <- (firstn_skipn o (firstn d value ++ skipn (S d) value)) at 1.
    apply Permutation_middle.
  - destruct (Nat.eq_dec d o) as [-> | Hne].
    { unfold OrderedList.handleDragEnd in H1.
      rewrite Nat.eqb_refl in H1. discriminate. }
    destruct (drag_shape value d o H H0 Hne) as (Heq & _ & Hperm).
    rewrite Heq in H1. injection H1 as <-.
    apply (well_formed_perm opts value); [| exact Hwf].
    etransitivity; [exact Hperm |].
    rewrite <- (firstn_skipn o (firstn d value ++ skipn (S d) value)) at 1.
    apply Permutation_middle.
Qed.

Lemma ordered_list_stays_well_formed_witness :
  well_formed ["cpu"; "clock"; "net"]%string
              [Some "clock"; Some "cpu"]%string /\
  well_formed ["cpu"; "clock"; "net"]%string
              [Some "cpu"; Some "clock"; Some "net"]%string.
Proof.
  assert (Hwf : well_formed ["cpu"; "clock"; "net"]%string
                            [Some "cpu"; Some "clock"]%string).
  { split.
    - repeat constructor; cbn; intuition discriminate.
    - intros e [<- | [<- | []]]; eexists; (split; [reflexivity |]);
        cbn; tauto. }
  destruct (ordered_list_stays_well_formed _ _ Hwf)
    as (Hup & _ & _ & Hadd & _).
  split.
  - apply (Hup 1%nat); [cbn; lia | reflexivity].
  - apply (Hadd "net"%string); [cbn; tauto | reflexivity].
Defined.

(* ================================================================== *)
(** ** Multi-choice and category widgets *)
(* ================================================================== *)

Lemma existsb_eqb_In (x : string) (l : list string) :
  existsb (String.eqb x) l = true <-> In x l.
Proof.
  rewrite existsb_exists. split.
  - intros (y & Hy & He). apply String.eqb_eq in He. now subst.
  - intros H. exists x. split; [exact H | apply String.eqb_refl].
Qed.

(** X7. Toggling a choice flips exactly that choice: afterwards the
    option is selected if and only if it was not before, every other
    option is selected as before, a selection without duplicates stays
    so, and toggling an unselected option twice gives back the original
    selection. *)
Theorem toggle_flips_one_choice :
  forall (value : list string) (opt : string),
    (In opt (Widgets.handleToggle value opt) <-> ~ In opt value) /\
    (forall other, other <> opt ->
       (In other (Widgets.handleToggle value opt) <-> In other value)) /\
    (NoDup value -> NoDup (Widgets.handleToggle value opt)) /\
    (~ In opt value ->
       Widgets.handleToggle (Widgets.handleToggle value opt) opt = value).
Proof.
  intros value opt. unfold Widgets.handleToggle at 1 2 3.
  destruct (existsb (String.eqb opt) value) eqn:E.
  - assert (Hin : In opt value) by now apply existsb_eqb_In.
    split; [| split; [| split]].
    + rewrite filter_In, negb_true_iff, String.eqb_refl. split.
      * intros [_ H]. discriminate.
      * intros H. contradiction.
    + intros other Hne. rewrite filter_In, negb_true_iff.
      split; [tauto |]. intros H. split; [exact H |].
      now apply String.eqb_neq.
    + intros Hnd. now apply NoDup_filter.
    + intros H. contradiction.
  - assert (Hni : ~ In opt value).
    { intros H. apply existsb_eqb_In in H. congruence. }
    split; [| split; [| split]].
    + rewrite in_app_iff. cbn. tauto.
    + intros other Hne. rewrite in_app_iff. cbn. split; [| tauto].
      intros [H | [H | []]]; [exact H | congruence].
    + intros Hnd. apply NoDup_app; [exact Hnd | repeat constructor; auto |].
      intros e He [<- | []]. contradiction.
    + intros _. unfold Widgets.handleToggle.
      assert (Hex : existsb (String.eqb opt) (value ++ [opt]) = true).
      { apply existsb_eqb_In, in_or_app. right. now left. }
      rewrite E, Hex, filter_app. cbn. rewrite String.eqb_refl. cbn.
      rewrite app_nil_r.
      clear - Hni. induction value as [| v value IH]; [reflexivity |].
      cbn. destruct (String.eqb_spec v opt) as [-> | Hne].
      * exfalso. apply Hni. now left.
      * cbn. f_equal. apply IH. intros H. apply Hni. now right.
Qed.

Lemma toggle_flips_one_choice_witness :
  NoDup (Widgets.handleToggle ["a"; "b"]%string "b"%string) /\
  Widgets.handleToggle
    (Widgets.handleToggle ["a"; "b"]%string "c"%string) "c"%string
  = ["a"; "b"]%string.
Proof.
  split.
  - destruct (toggle_flips_one_choice ["a"; "b"]%string "b"%string)
      as (_ & _ & H & _).
    apply H. repeat constructor; cbn; intuition discriminate.
  - destruct (toggle_flips_one_choice ["a"; "b"]%string "c"%string)
      as (_ & _ & _ & H).
    apply H. cbn. intuition discriminate.
Defined.

(** X8. Editing one nested field of a category replaces that nested key
    only: the category's other nested keys keep what the form showed, the
    other top-level keys keep what the edit buffer held, nothing is sent
    yet and the auto-save timer is armed. *)
Theorem nested_edit_touches_one_key :
  forall (be : Backend) (st : Form.State) (now : Z)
         (key nestedKey : string) (nestedValue : value),
    let r := run (nestedEdit now key nestedKey nestedValue) be st in
    let old := match as_record (obj_get (Form.values st) key) with
               | Some o => o
               | None => []
               end in
    (exists cat,
       obj_get (Form.values (state_of r)) key = VObj cat /\
       obj_get cat nestedKey = nestedValue /\
       forall nk, nk <> nestedKey -> obj_get cat nk = obj_get old nk) /\
    (forall k, k <> key ->
       obj_get (Form.values (state_of r)) k
       = obj_get (Form.latestValues st) k) /\
    Form.latestValues (state_of r) = Form.values (state_of r) /\
    calls_of r = [] /\
    Form.debounceTimer (state_of r) = Some (now + Form.DEBOUNCE_DELAY).
Proof.
  intros be st now key nestedKey nestedValue r old.
  subst r. unfold nestedEdit, Form.handleChange. unfold_async.
  cbn -[Z.add obj_set obj_get].
  split; [| split; [| repeat split]].
  - eexists. split; [| split].
    + rewrite obj_get_set, String.eqb_refl. reflexivity.
    + unfold Widgets.handleFieldChange.
      rewrite obj_get_set, String.eqb_refl. reflexivity.
    + intros nk Hne. unfold Widgets.handleFieldChange.
      rewrite obj_get_set.
      destruct (String.eqb_spec nestedKey nk); [congruence | reflexivity].
  - intros k Hne. rewrite obj_get_set.
    destruct (String.eqb_spec key k); [congruence | reflexivity].
Qed.

Lemma nested_edit_touches_one_key_witness :
  let loaded := state_of (run (Form.loadSettings demoForm)
                              (storeOf demoStored) Form.initial) in
  let edited := state_of (run (nestedEdit 0 "look" "size" (VInt 14))
                              emptyStore loaded) in
  obj_get (Form.values edited) "format" = VStr "12h" /\
  Form.debounceTimer edited = Some 500.
Proof.
  cbv zeta.
  destruct (nested_edit_touches_one_key emptyStore
              (state_of (run (Form.loadSettings demoForm)
                             (storeOf demoStored) Form.initial))
              0 "look" "size" (VInt 14)) as (_ & Hother & _ & _ & Htimer).
  split.
  - rewrite (Hother "format"%string) by discriminate. reflexivity.
  - rewrite Htimer. reflexivity.
Defined.

(* ================================================================== *)
(** ** Preset positions stay on the screen *)
(* ================================================================== *)

Lemma size_in_range (n bound : Z) :
  0 <= n <= bound ->
  (0 <= inject_Z n)%Q /\ (inject_Z n <= inject_Z bound)%Q.
Proof. intros [H1 H2]. unfold Qle, inject_Z. cbn. lia. Qed.

Lemma twice_half (bound n : Z) :
  (2 * Manifest.half (Manifest.minus (inject_Z bound) (inject_Z n))
   == inject_Z (bound - n))%Q.
Proof.
  unfold Manifest.half, Manifest.minus. rewrite !Qred_correct.
  unfold Z.sub. rewrite inject_Z_plus, inject_Z_opp.
  unfold Qdiv. change (/ 2)%Q with (1 # 2)%Q. lra.
Qed.

Lemma twice_minus (bound n : Z) :
  (2 * Manifest.minus (inject_Z bound) (inject_Z n)
   == inject_Z (2 * (bound - n)))%Q.
Proof.
  unfold Manifest.minus. rewrite !Qred_correct.
  rewrite inject_Z_mult. unfold Z.sub. rewrite inject_Z_plus, inject_Z_opp.
  change (inject_Z 2) with 2%Q. lra.
Qed.

Lemma twice_zero : (2 * 0 == inject_Z 0)%Q.
Proof. reflexivity. Qed.

(** X9. For each of the nine presets and a window whose width and height
    are whole numbers of pixels no larger than the assumed 1920x1080
    screen, the default position puts the whole window on that screen.
    Twice each coordinate is an integer: the coordinates are integers or
    half-integers, which the code's doubles hold exactly. *)
Theorem preset_keeps_window_on_screen :
  forall (preset : string) (w h : Z),
    In preset positionPresets ->
    0 <= w <= 1920 -> 0 <= h <= 1080 ->
    let pos :=
      Manifest.calculateDefaultPosition (Some preset)
                                        (inject_Z w) (inject_Z h) in
    ((0 <= fst pos)%Q /\
     (fst pos + inject_Z w <= Manifest.screenWidth)%Q /\
     (0 <= snd pos)%Q /\
     (snd pos + inject_Z h <= Manifest.screenHeight)%Q) /\
    exists a b : Z,
      (2 * fst pos == inject_Z a)%Q /\ (2 * snd pos == inject_Z b)%Q.
Proof.
  intros preset w h Hin Hw Hh.
  destruct (size_in_range w 1920 Hw) as [Hw0 Hw1].
  destruct (size_in_range h 1080 Hh) as [Hh0 Hh1].
  change (inject_Z 1920) with 1920%Q in Hw1.
  change (inject_Z 1080) with 1080%Q in Hh1.
  cbn in Hin.
  repeat (destruct Hin as [<- | Hin]); try contradiction;
    cbn [Manifest.calculateDefaultPosition fst snd];
    (split;
     [ unfold Manifest.half, Manifest.minus,
         Manifest.screenWidth, Manifest.screenHeight;
       rewrite ?Qred_correct; unfold Qdiv;
       change (/ 2)%Q with (1 # 2)%Q;
       repeat split; lra
     | change Manifest.screenWidth with (inject_Z 1920);
       change Manifest.screenHeight with (inject_Z 1080);
       eexists; eexists;
       split;
       first [ apply twice_half | apply twice_minus | apply twice_zero ] ]).
Qed.

Lemma preset_keeps_window_on_screen_witness :
  (0 <= fst (Manifest.calculateDefaultPosition (Some "bottom-center")
                                               (inject_Z 301) (inject_Z 200)))%Q
  /\
  (fst (Manifest.calculateDefaultPosition (Some "bottom-center")
                                          (inject_Z 301) (inject_Z 200))
   + inject_Z 301 <= 1920)%Q.
Proof.
  assert (Hin : In "bottom-center"%string positionPresets)
    by (cbn; tauto).
  assert (Hw : 0 <= 301 <= 1920) by lia.
  assert (Hh : 0 <= 200 <= 1080) by lia.
  destruct (preset_keeps_window_on_screen "bottom-center" 301 200
              Hin Hw Hh) as ((H1 & H2 & _) & _).
  split; [exact H1 | exact H2].
Defined.

(* ================================================================== *)
(** ** More on the reconciliation pass *)
(* ================================================================== *)

Ltac use_answers :=
  repeat match goal with
         | E : ?b ?c = _ |- context [?b ?c] => rewrite E
         end.

(** X10. On a live window, for an update that does not disable it, a pass
    issues - after the existence query - the visibility, geometry,
    click-through and always-on-top commands the update asks for, in that
    order, the geometry command carrying the whole rectangle of the current
    settings; the first command that throws ends the pass (the later ones
    are not issued).  The pass itself does not throw and leaves the panel
    state alone. *)
Theorem reconcile_running_pass :
  forall (p : Panel.Props) (be : Backend) (st : Panel.State)
         (upd cur : obj) (e : value),
    be (Panel.existsCall p) = Ok e -> truthy e = true ->
    is_false (obj_get upd "enabled") = false ->
    let pass := run (Panel.applyToOverlay p upd cur) be st in
    invocations (calls_of pass)
    = Panel.existsCall p
        :: issued_until_throw be (runningCommands p upd cur) /\
    outcome_of pass = Ok tt /\
    state_of pass = st.
Proof.
  intros p be st upd cur e He Ht Hen pass. subst pass.
  unfold Panel.applyToOverlay, runningCommands. unfold_async.
  cbn -[Panel.geometryArgs]. rewrite He. cbn -[Panel.geometryArgs].
  rewrite Ht. cbn -[Panel.geometryArgs]. rewrite Hen.
  cbn -[Panel.geometryArgs].
  destruct (is_true (obj_get upd "enabled"));
    destruct (is_defined (obj_get upd "x") || is_defined (obj_get upd "y")
              || is_defined (obj_get upd "width")
              || is_defined (obj_get upd "height"));
    destruct (is_defined (obj_get upd "clickThrough"));
    destruct (is_defined (obj_get upd "alwaysOnTop"));
    cbn -[Panel.geometryArgs];
    repeat (settle_call; cbn -[Panel.geometryArgs]; use_answers);
    repeat split.
Qed.

Lemma reconcile_running_pass_witness :
  invocations
    (calls_of
       (run (Panel.applyToOverlay demoPanel
               [("width", VInt 320); ("clickThrough", VBool false)]
               (obj_set (Panel.getDefaultSettings demoDef)
                        "width" (VInt 320)))
            liveWindow (Panel.initial demoPanel)))
  = [ Invoke "plugin:yaof|overlay_exists" [("id", VStr "clock-main")];
      Invoke "plugin:yaof|overlay_update_geometry"
             [("id", VStr "clock-main"); ("x", VInt 810); ("y", VInt 440);
              ("width", VInt 320); ("height", VInt 200)];
      Invoke "plugin:yaof|overlay_set_click_through"
             [("id", VStr "clock-main"); ("enabled", VBool false)] ].
Proof.
  destruct (reconcile_running_pass demoPanel liveWindow
              (Panel.initial demoPanel)
              [("width", VInt 320); ("clickThrough", VBool false)]
              (obj_set (Panel.getDefaultSettings demoDef) "width" (VInt 320))
              (VBool true) eq_refl eq_refl eq_refl) as (H & _).
  rewrite H. reflexivity.
Defined.

(** A pass does not look at the calls issued before it, and the only
    thing it may change in the panel is the running flag. *)
Lemma applyToOverlay_frame (p : Panel.Props) (be : Backend)
  (st : Panel.State) (upd cur : obj) (tr : list Call) :
  Panel.applyToOverlay p upd cur be st tr
  = (outcome_of (run (Panel.applyToOverlay p upd cur) be st),
     state_of (run (Panel.applyToOverlay p upd cur) be st),
     tr ++ calls_of (run (Panel.applyToOverlay p upd cur) be st)) /\
  (state_of (run (Panel.applyToOverlay p upd cur) be st) = st \/
   state_of (run (Panel.applyToOverlay p upd cur) be st)
   = Panel.setIsOverlayRunning true st).
Proof.
  unfold Panel.applyToOverlay. unfold_async. cbn.
  split_paths; cbn; rewrite <- ?app_assoc; cbn; auto.
Qed.

Lemma applyToOverlay_calls_any_state (p : Panel.Props) (be : Backend)
  (st st' : Panel.State) (upd cur : obj) :
  calls_of (run (Panel.applyToOverlay p upd cur) be st)
  = calls_of (run (Panel.applyToOverlay p upd cur) be st').
Proof.
  unfold Panel.applyToOverlay. unfold_async. cbn.
  split_paths; reflexivity.
Qed.

Lemma pass_has_no_store_writes (p : Panel.Props) (be : Backend)
  (st : Panel.State) (upd cur : obj) :
  store_writes (calls_of (run (Panel.applyToOverlay p upd cur) be st)) = [].
Proof.
  destruct (applyToOverlay_appends p be st upd cur [])
    as (res & s' & tr' & Heq & _ & _ & Hw).
  unfold run, calls_of. rewrite Heq. exact Hw.
Qed.

(** The flush for any backend: store traffic first, then the pass on the
    buffered updates and the current settings. *)
Lemma panel_flush_steps (p : Panel.Props) (be : Backend) (s : Panel.State)
  (h : string) (now : Z) (t : Panel.Timer) (tr : list Call) :
  Panel.debounceTimer s = Some t ->
  Panel.deadline t <= now ->
  Panel.timer_store t = Some h ->
  Panel.pendingUpdates s <> [] ->
  let s0 := Panel.setPending [] (Panel.setTimer None s) in
  let pass := run (Panel.applyToOverlay p (Panel.pendingUpdates s)
                                        (Panel.settings s)) be s0 in
  exists w,
    Panel.tick p now be s tr = (Ok tt, state_of pass, tr ++ w ++ calls_of pass)
    /\ invocations w = []
    /\ ((forall k v, be (StoreSet h k v) <> Throw) ->
        store_writes w = setCalls h (Panel.pendingUpdates s) ++ [StoreSave h]).
Proof.
  intros Ht Hd Hs Hp s0 pass.
  unfold Panel.tick, Panel.onTimeout. unfold_async.
  cbn -[writeAll Panel.applyToOverlay]. rewrite Ht.
  apply Z.leb_le in Hd. rewrite Hd.
  cbn -[writeAll Panel.applyToOverlay]. rewrite Hs.
  destruct (Panel.pendingUpdates s) as [| kv pending] eqn:Ep;
    [congruence |].
  cbn -[writeAll Panel.applyToOverlay].
  fold s0.
  destruct (writeAll_shape h (kv :: pending) be s0 tr)
    as (res & w & Heq & Hall).
  rewrite Heq.
  assert (Hexact : (forall k v, be (StoreSet h k v) <> Throw) ->
                   w = setCalls h (kv :: pending) ++ [StoreSave h]).
  { intros Hset.
    destruct (writeAll_calls h be Hset (kv :: pending) s0 tr) as (res' & Heq').
    rewrite Heq' in Heq. injection Heq as _ Happ.
    now apply app_inv_head in Happ. }
  destruct res; cbn -[Panel.applyToOverlay].
  - destruct (applyToOverlay_frame p be s0 (kv :: pending)
                (Panel.settings s) (tr ++ w)) as [Hf _].
    change (Panel.settings s0) with (Panel.settings s).
    rewrite Hf. exists w. split; [| split].
    + unfold pass. cbn. now rewrite <- app_assoc.
    + now apply store_writes_no_invocations.
    + intros Hset. rewrite (Hexact Hset).
      rewrite store_writes_app, setCalls_are_writes. reflexivity.
  - destruct (applyToOverlay_frame p be s0 (kv :: pending)
                (Panel.settings s)
                ((tr ++ w) ++ [ConsoleError "Failed to save settings:"]))
      as [Hf _].
    change (Panel.settings s0) with (Panel.settings s).
    rewrite Hf. exists (w ++ [ConsoleError "Failed to save settings:"]).
    split; [| split].
    + unfold pass. cbn. now rewrite <- !app_assoc.
    + rewrite invocations_app, (store_writes_no_invocations _ Hall).
      reflexivity.
    + intros Hset. rewrite store_writes_app. cbn [store_writes filter
        is_store_write]. rewrite app_nil_r, (Hexact Hset).
      rewrite store_writes_app, setCalls_are_writes. reflexivity.
Qed.

(** X11. A due flush with a loaded store and a non-empty buffer runs the
    reconciliation pass on the buffered updates and the current settings
    whatever the store answers: a failing [set] or [save] is logged and the
    window is updated all the same.  Everything issued before the pass is
    store traffic, the flush does not throw, and it leaves the buffer empty
    and the timer disarmed. *)
Theorem flush_reconciles_whatever_the_store_answers :
  forall (p : Panel.Props) (be : Backend) (st : Panel.State) (h : string)
         (now : Z) (t : Panel.Timer),
    Panel.debounceTimer st = Some t ->
    Panel.deadline t <= now ->
    Panel.timer_store t = Some h ->
    Panel.pendingUpdates st <> [] ->
    let r := run (Panel.tick p now) be st in
    let pass := run (Panel.applyToOverlay p (Panel.pendingUpdates st)
                                          (Panel.settings st)) be st in
    (exists w, calls_of r = w ++ calls_of pass /\ invocations w = []) /\
    invocations (calls_of r) = invocations (calls_of pass) /\
    outcome_of r = Ok tt /\
    Panel.pendingUpdates (state_of r) = [] /\
    Panel.debounceTimer (state_of r) = None.
Proof.
  intros p be st h now t Ht Hd Hs Hp r pass.
  destruct (panel_flush_steps p be st h now t [] Ht Hd Hs Hp)
    as (w & Heq & Hw & _).
  cbv zeta in Heq.
  set (s0 := Panel.setPending [] (Panel.setTimer None st)) in *.
  assert (Hc : calls_of (run (Panel.applyToOverlay p (Panel.pendingUpdates st)
                                (Panel.settings st)) be s0)
               = calls_of pass)
    by apply applyToOverlay_calls_any_state.
  subst r. unfold run at 1 2 3 4 5. rewrite Heq.
  cbn [calls_of outcome_of state_of fst snd app].
  rewrite Hc.
  split; [exists w; auto |].
  split; [rewrite invocations_app, Hw; reflexivity |].
  split; [reflexivity |].
  destruct (applyToOverlay_frame p be s0 (Panel.pendingUpdates st)
              (Panel.settings st) []) as [_ [Hst | Hst]];
    unfold state_of in *; rewrite Hst; split; reflexivity.
Qed.

Lemma flush_reconciles_whatever_the_store_answers_witness :
  invocations (calls_of (run (Panel.tick demoPanel 300) readOnlyStore
                             demoPanelPending))
  = [ Invoke "plugin:yaof|overlay_exists" [("id", VStr "clock-main")];
      Invoke "plugin:yaof|overlay_update_geometry"
             [("id", VStr "clock-main"); ("x", VInt 10); ("y", VInt 440);
              ("width", VInt 300); ("height", VInt 200)] ].
Proof.
  destruct (flush_reconciles_whatever_the_store_answers demoPanel
              readOnlyStore demoPanelPending "clock-main-overlay.json" 300
              {| Panel.deadline := 300;
                 Panel.timer_store := Some "clock-main-overlay.json" |})
    as (_ & H & _).
  - reflexivity.
  - cbn. lia.
  - reflexivity.
  - discriminate.
  - rewrite H. reflexivity.
Defined.

(** X12. Edits made while the panel has no store handle only change the
    local settings: the flush they schedule empties the buffer and issues
    nothing - no store write and no window command. *)
Theorem edits_without_store_are_dropped :
  forall (p : Panel.Props) (be : Backend) (st : Panel.State)
         (evs : list event) (T : Z),
    evs <> [] ->
    Panel.store st = None ->
    Panel.debounceTimer st = None ->
    within_window None evs ->
    ev_time (last evs (0, (""%string, VUndefined))) + Panel.DEBOUNCE_DELAY
      <= T ->
    let r := run (Panel.updates p evs ;; Panel.tick p T) be st in
    calls_of r = [] /\
    outcome_of r = Ok tt /\
    Panel.pendingUpdates (state_of r) = [] /\
    Panel.debounceTimer (state_of r) = None /\
    Panel.settings (state_of r) = buffered evs (Panel.settings st).
Proof.
  intros p be st evs T Hne Hstore Htimer Hwin HT r.
  assert (Hrun : Panel.updates p evs be st []
                 = (Ok tt, fold_left (fun s e => afterUpdate e s) evs st, [])).
  { apply updates_buffer_only. now rewrite Htimer. }
  destruct (burst_state evs st) as (Hs & _ & Hse & Ht). cbv zeta in *.
  set (s1 := fold_left (fun s e => afterUpdate e s) evs st) in *.
  assert (Htm : Panel.debounceTimer s1
                = Some {| Panel.deadline :=
                            ev_time (last evs (0, (""%string, VUndefined)))
                            + Panel.DEBOUNCE_DELAY;
                          Panel.timer_store := None |}).
  { rewrite Ht, Hstore. destruct evs; [congruence | reflexivity]. }
  subst r. unfold run, bind. rewrite Hrun.
  unfold Panel.tick, Panel.onTimeout. unfold_async.
  cbn -[writeAll Panel.applyToOverlay]. rewrite Htm.
  cbn -[writeAll Panel.applyToOverlay Z.add].
  apply Z.leb_le in HT. rewrite HT. cbn. rewrite Hse. auto.
Qed.

Lemma edits_without_store_are_dropped_witness :
  calls_of (run (Panel.updates demoPanel demoBurst ;;
                 Panel.tick demoPanel 550) emptyStore
                (Panel.initial demoPanel)) = [] /\
  obj_get
    (Panel.settings
       (state_of (run (Panel.updates demoPanel demoBurst ;;
                       Panel.tick demoPanel 550) emptyStore
                      (Panel.initial demoPanel)))) "x" = VInt 30.
Proof.
  destruct (edits_without_store_are_dropped demoPanel emptyStore
              (Panel.initial demoPanel) demoBurst 550)
    as (Hc & _ & _ & _ & Hs).
  - discriminate.
  - reflexivity.
  - reflexivity.
  - cbn. repeat split; reflexivity.
  - cbn. discriminate.
  - split; [exact Hc |]. rewrite Hs. reflexivity.
Defined.

Lemma for_each_app {S A : Type} (body : A -> M (S := S) unit)
  (l1 l2 : list A) (be : Backend) :
  forall (s : S) (tr : list Call),
    for_each (l1 ++ l2) body be s tr
    = match for_each l1 body be s tr with
      | (Ok _, s', tr') => for_each l2 body be s' tr'
      | (Throw, s', tr') => (Throw, s', tr')
      end.
Proof.
  induction l1 as [| a l1 IH]; intros s tr.
  - reflexivity.
  - cbn [app for_each]. unfold bind.
    destruct (body a be s tr) as [[[u |] s'] tr']; [apply IH | reflexivity].
Qed.

Lemma updates_app (p : Panel.Props) (evs1 evs2 : list event) (be : Backend)
  (s : Panel.State) (tr : list Call) :
  Panel.updates p (evs1 ++ evs2) be s tr
  = match Panel.updates p evs1 be s tr with
    | (Ok _, s', tr') => Panel.updates p evs2 be s' tr'
    | (Throw, s', tr') => (Throw, s', tr')
    end.
Proof. unfold Panel.updates. apply for_each_app. Qed.

Lemma flushed_state (p : Panel.Props) (be : Backend) (s : Panel.State)
  (upd cur : obj) :
  let s0 := Panel.setPending [] (Panel.setTimer None s) in
  let s' := state_of (run (Panel.applyToOverlay p upd cur) be s0) in
  Panel.store s' = Panel.store s /\
  Panel.pendingUpdates s' = [] /\
  Panel.debounceTimer s' = None /\
  Panel.settings s' = Panel.settings s.
Proof.
  cbv zeta.
  destruct (applyToOverlay_frame p be
              (Panel.setPending [] (Panel.setTimer None s)) upd cur [])
    as [_ [H | H]]; rewrite H; repeat split.
Qed.

(** X13. On a panel that holds a loaded store handle and has no timer
    pending, and whose store accepts the [set] calls, two bursts separated
    by a quiet period are flushed separately: the first flush writes what
    the buffer held before together with the keys of the first burst and
    saves, the second writes the keys of the second burst alone and saves -
    two saves in all, and the second flush repeats nothing of the first. *)
Theorem separate_bursts_flush_separately :
  forall (p : Panel.Props) (be : Backend) (st : Panel.State) (h : string)
         (evs1 evs2 : list event) (T : Z),
    evs1 <> [] -> evs2 <> [] ->
    Panel.store st = Some h ->
    Panel.debounceTimer st = None ->
    within_window None evs1 ->
    within_window None evs2 ->
    ev_time (last evs1 (0, (""%string, VUndefined))) + Panel.DEBOUNCE_DELAY
      <= ev_time (hd (0, (""%string, VUndefined)) evs2) ->
    ev_time (last evs2 (0, (""%string, VUndefined))) + Panel.DEBOUNCE_DELAY
      <= T ->
    (forall k v, be (StoreSet h k v) <> Throw) ->
    store_writes
      (calls_of (run (Panel.updates p (evs1 ++ evs2) ;; Panel.tick p T)
                     be st))
    = setCalls h (buffered evs1 (Panel.pendingUpdates st)) ++ [StoreSave h]
      ++ setCalls h (buffered evs2 []) ++ [StoreSave h].
Proof.
  intros p be st h evs1 evs2 T Hne1 Hne2 Hstore Htimer Hw1 Hw2
         Hgap HT Hset.
  unfold run, bind. rewrite updates_app.
  rewrite updates_buffer_only by now rewrite Htimer.
  destruct (burst_state evs1 st) as (Hs1 & Hp1 & _ & Ht1). cbv zeta in *.
  set (s1 := fold_left (fun s e => afterUpdate e s) evs1 st) in *.
  destruct evs2 as [| e2 r2]; [congruence |].
  cbn [hd] in Hgap. destruct Hw2 as [_ Hw2].
  unfold Panel.updates at 1. cbn [for_each]. unfold bind at 1 2.
  assert (Htm1 : Panel.debounceTimer s1
                 = Some {| Panel.deadline :=
                             ev_time (last evs1 (0, (""%string, VUndefined)))
                             + Panel.DEBOUNCE_DELAY;
                           Panel.timer_store := Some h |}).
  { rewrite Ht1, Hstore. destruct evs1; [congruence | reflexivity]. }
  destruct (panel_flush_steps p be s1 h (fst e2) _ [] Htm1 Hgap eq_refl)
    as (w1 & Hf1 & _ & Hsw1).
  { rewrite Hp1. now apply buffered_nonempty. }
  cbv zeta in Hf1. rewrite Hf1.
  destruct (flushed_state p be s1 (Panel.pendingUpdates s1)
              (Panel.settings s1)) as (Hs2 & Hp2 & Ht2 & _).
  cbv zeta in Hs2, Hp2, Ht2.
  set (pass1 := run (Panel.applyToOverlay p (Panel.pendingUpdates s1)
                       (Panel.settings s1)) be
                    (Panel.setPending [] (Panel.setTimer None s1))) in *.
  set (s2 := state_of pass1) in *.
  change (Panel.updateSetting (fst e2) (fst (snd e2)) (snd (snd e2)) be s2
            ([] ++ w1 ++ calls_of pass1))
    with (Panel.updateSetting (ev_time e2) (ev_key e2) (ev_value e2) be s2
            ([] ++ w1 ++ calls_of pass1)).
  rewrite updateSetting_steps.
  fold (Panel.updates p r2).
  rewrite updates_buffer_only by exact Hw2.
  change (fold_left (fun s e => afterUpdate e s) r2 (afterUpdate e2 s2))
    with (fold_left (fun s e => afterUpdate e s) (e2 :: r2) s2).
  destruct (burst_state (e2 :: r2) s2) as (Hs3 & Hp3 & _ & Ht3).
  cbv zeta in *.
  set (s3 := fold_left (fun s e => afterUpdate e s) (e2 :: r2) s2) in *.
  rewrite Hp2 in Hp3. rewrite Hs2, Hs1, Hstore in Ht3.
  destruct (panel_flush_steps p be s3 h T _
              ([] ++ w1 ++ calls_of pass1) Ht3 HT eq_refl)
    as (w2 & Hf2 & _ & Hsw2).
  { rewrite Hp3. apply buffered_nonempty. discriminate. }
  cbv zeta in Hf2. rewrite Hf2.
  unfold calls_of at 1. cbn [snd app].
  rewrite !store_writes_app.
  rewrite (Hsw1 Hset), (Hsw2 Hset), Hp1, Hp3.
  unfold pass1. rewrite !pass_has_no_store_writes.
  rewrite !app_nil_r, <- !app_assoc. reflexivity.
Qed.

Lemma separate_bursts_flush_separately_witness :
  store_writes
    (calls_of (run (Panel.updates demoPanel (demoBurst ++ demoBurstLater) ;;
                    Panel.tick demoPanel 1300) emptyStore demoPanelLoaded))
  = [ StoreSet "clock-main-overlay.json" "x" (VInt 30);
      StoreSet "clock-main-overlay.json" "y" (VInt 20);
      StoreSave "clock-main-overlay.json";
      StoreSet "clock-main-overlay.json" "width" (VInt 330);
      StoreSave "clock-main-overlay.json" ].
Proof.
  rewrite (separate_bursts_flush_separately demoPanel emptyStore
             demoPanelLoaded "clock-main-overlay.json"
             demoBurst demoBurstLater 1300).
  - reflexivity.
  - discriminate.
  - discriminate.
  - reflexivity.
  - reflexivity.
  - cbn. repeat split; reflexivity.
  - cbn. repeat split; reflexivity.
  - cbn. discriminate.
  - cbn. discriminate.
  - intros k v. discriminate.
Defined.

(** What a burst leaves at key [k], whatever the buffer held before. *)
Lemma buffered_spec_from (evs : list event) :
  forall acc k,
    obj_get (buffered evs acc) k =
      match last_update k evs with
      | Some v => v
      | None => obj_get acc k
      end.
Proof.
  induction evs as [| e evs IH]; intros acc k.
  - reflexivity.
  - cbn [buffered fold_left].
    fold (buffered evs (obj_set acc (ev_key e) (ev_value e))).
    rewrite IH. cbn [last_update].
    destruct (last_update k evs); [reflexivity |].
    rewrite obj_get_set.
    destruct (String.eqb (ev_key e) k); reflexivity.
Qed.

(* ================================================================== *)
(** ** The settings form: auto-save, failures *)
(* ================================================================== *)

Lemma formEdits_buffer_only (p : Form.Props) (be : Backend) :
  forall (evs : list event) (s : Form.State) (tr : list Call),
    spaced_within Form.DEBOUNCE_DELAY (Form.debounceTimer s) evs ->
    formEdits p evs be s tr
    = (Ok tt, fold_left (fun s e => afterChange e s) evs s, tr).
Proof.
  unfold formEdits.
  induction evs as [| e evs IH]; intros s tr Hw.
  - reflexivity.
  - destruct Hw as [Hnow Hrest]. cbn [for_each fold_left].
    unfold bind at 1. unfold bind at 1.
    pose proof (form_tick_steps p be s (ev_time e) tr) as Htick.
    destruct (Form.debounceTimer s) as [d |].
    + apply Z.leb_gt in Hnow. rewrite Hnow in Htick. rewrite Htick.
      rewrite handleChange_steps. apply IH. exact Hrest.
    + rewrite Htick. rewrite handleChange_steps. apply IH. exact Hrest.
Qed.

Lemma formEdits_state (evs : list event) :
  forall s,
    let s' := fold_left (fun s e => afterChange e s) evs s in
    Form.latestValues s' = buffered evs (Form.latestValues s) /\
    (evs <> [] ->
     Form.values s' = Form.latestValues s' /\
     Form.hasChanges s' = true /\
     Form.debounceTimer s'
     = Some (ev_time (last evs (0, (""%string, VUndefined)))
             + Form.DEBOUNCE_DELAY)).
Proof.
  induction evs as [| e evs IH]; intros s.
  - cbn. split; [reflexivity | congruence].
  - cbn [fold_left]. destruct (IH (afterChange e s)) as (Hl & Hrest).
    cbv zeta. split; [exact Hl |]. intros _.
    destruct evs as [| e' evs'].
    + cbn. auto.
    + destruct Hrest as (Hv & Hh & Ht); [discriminate |].
      repeat split; assumption.
Qed.

(** X14. Auto-save of the settings form: a series of edits, each made
    before the 500 ms timer armed by the previous one runs out, sends
    nothing while it lasts; when the timer fires, the whole values object -
    every key holding its last edit - is written once with
    [plugin_settings_set_all] and then broadcast once, and the form is
    clean again. *)
Theorem form_autosave_coalesces_edits :
  forall (p : Form.Props) (be : Backend) (st : Form.State)
         (evs : list event) (T : Z),
    evs <> [] ->
    Form.debounceTimer st = None ->
    spaced_within Form.DEBOUNCE_DELAY None evs ->
    ev_time (last evs (0, (""%string, VUndefined))) + Form.DEBOUNCE_DELAY
      <= T ->
    (forall c, be c <> Throw) ->
    let during := run (formEdits p evs) be st in
    let after := run (formEdits p evs ;; Form.tick p T) be st in
    let final := buffered evs (Form.latestValues st) in
    calls_of during = [] /\
    Form.values (state_of during) = final /\
    calls_of after = [ setAllCall (Form.pluginId p) final;
                       broadcast (Form.pluginId p) final ] /\
    (forall k v, last_update k evs = Some v -> obj_get final k = v) /\
    (forall k, last_update k evs = None ->
               obj_get final k = obj_get (Form.latestValues st) k) /\
    Form.hasChanges (state_of after) = false /\
    Form.debounceTimer (state_of after) = None.
Proof.
  intros p be st evs T Hne Htimer Hw HT Hok during after final.
  assert (Hrun : formEdits p evs be st []
                 = (Ok tt, fold_left (fun s e => afterChange e s) evs st, [])).
  { apply formEdits_buffer_only. now rewrite Htimer. }
  destruct (formEdits_state evs st) as (Hl & Hrest). cbv zeta in *.
  destruct (Hrest Hne) as (Hv & Hh & Ht). clear Hrest.
  set (s1 := fold_left (fun s e => afterChange e s) evs st) in *.
  split; [subst during; unfold run, calls_of; now rewrite Hrun |].
  split.
  { subst during. unfold run, state_of. rewrite Hrun. cbn.
    now rewrite Hv, Hl. }
  assert (Hafter : after
                   = Form.tick p T be s1 []).
  { subst after. unfold run, bind. now rewrite Hrun. }
  rewrite Hafter.
  unfold Form.tick, Form.onTimeout, Form.debouncedSave, Form.saveAndEmit.
  unfold_async. cbn -[Z.add]. rewrite Ht.
  apply Z.leb_le in HT. rewrite HT. cbn -[Z.add]. rewrite Hl.
  fold final.
  destruct (be (Invoke "plugin:yaof|plugin_settings_set_all" _)) eqn:E1;
    [| now apply Hok in E1].
  cbn.
  destruct (be (Emit _ _)) eqn:E2; [| now apply Hok in E2].
  cbn.
  pose proof (buffered_spec_from evs (Form.latestValues st)) as Hb.
  split; [reflexivity |].
  split; [intros k v Hk; subst final; now rewrite Hb, Hk |].
  split; [intros k Hk; subst final; now rewrite Hb, Hk |].
  split; reflexivity.
Qed.

Lemma form_autosave_coalesces_edits_witness :
  calls_of (run (formEdits demoForm demoTyping) emptyStore demoFormLoaded)
  = [] /\
  calls_of (run (formEdits demoForm demoTyping ;; Form.tick demoForm 1500)
                emptyStore demoFormLoaded)
  = [ setAllCall "clock"
        [ ("format", VStr "24h"); ("title", VStr "Noon");
          ("look", VObj [("color", VStr "#ff0000"); ("size", VInt 12)]) ];
      broadcast "clock"
        [ ("format", VStr "24h"); ("title", VStr "Noon");
          ("look", VObj [("color", VStr "#ff0000"); ("size", VInt 12)]) ] ].
Proof.
  destruct (form_autosave_coalesces_edits demoForm emptyStore demoFormLoaded
              demoTyping 1500) as (H1 & _ & H2 & _).
  - discriminate.
  - reflexivity.
  - cbn. repeat split; reflexivity.
  - cbn. discriminate.
  - intros c. discriminate.
  - split; [exact H1 | rewrite H2; reflexivity].
Defined.

Lemma form_tick_keeps_values (p : Form.Props) (be : Backend)
  (s : Form.State) (now : Z) (tr : list Call) :
  exists s' tr',
    Form.tick p now be s tr = (Ok tt, s', tr') /\
    Form.values s' = Form.values s /\
    Form.latestValues s' = Form.latestValues s.
Proof.
  unfold Form.tick, Form.onTimeout, Form.debouncedSave. unfold_async.
  destruct (Form.debounceTimer s) as [d |]; [| now exists s, tr].
  destruct (d <=? now); [| now exists s, tr].
  cbn -[Form.saveAndEmit].
  destruct (saveAndEmit_run p (Form.latestValues s) be
              (Form.setTimer None s) tr) as (s' & Heq & Hv & Hl & _).
  cbn -[Form.saveAndEmit] in Heq. rewrite Heq.
  exists s'. eexists. split; [reflexivity |]. split; assumption.
Qed.

Lemma formEdits_any (p : Form.Props) (be : Backend) :
  forall (evs : list event) (s : Form.State) (tr : list Call),
  exists s' tr',
    formEdits p evs be s tr = (Ok tt, s', tr') /\
    Form.latestValues s' = buffered evs (Form.latestValues s) /\
    (Form.values s = Form.latestValues s ->
     Form.values s' = Form.latestValues s').
Proof.
  unfold formEdits.
  induction evs as [| e evs IH]; intros s tr.
  - exists s, tr. cbn. auto.
  - cbn [for_each fold_left]. unfold bind at 1. unfold bind at 1.
    destruct (form_tick_keeps_values p be s (ev_time e) tr)
      as (s1 & tr1 & Heq & Hv & Hl).
    rewrite Heq, handleChange_steps.
    destruct (IH (afterChange e s1) tr1) as (s' & tr' & Heq' & Hl' & Hv').
    rewrite Heq'. exists s', tr'. split; [reflexivity |]. split.
    + rewrite Hl'. cbn [buffered fold_left afterChange Form.latestValues].
      now rewrite Hl.
    + intros _. apply Hv'. reflexivity.
Qed.

Lemma buffered_keys_same (evs : list event) :
  forall acc,
    (forall e, In e evs -> In (ev_key e) (keys acc)) ->
    keys (buffered evs acc) = keys acc.
Proof.
  induction evs as [| e evs IH]; intros acc Hin; [reflexivity |].
  cbn [buffered fold_left].
  fold (buffered evs (obj_set acc (ev_key e) (ev_value e))).
  assert (Hk : keys (obj_set acc (ev_key e) (ev_value e)) = keys acc).
  { apply keys_set_old. apply Hin. now left. }
  rewrite IH; [exact Hk |].
  intros e' He'. rewrite Hk. apply Hin. now right.
Qed.

Lemma form_load_state (p : Form.Props) (V : obj) (be : Backend)
  (st : Form.State) (tr : list Call) :
  be (Invoke "plugin:yaof|plugin_settings_get_all"
             [("pluginId", VStr (Form.pluginId p))]) = Ok (VObj V) ->
  exists s' tr',
    Form.loadSettings p be st tr = (Ok tt, s', tr') /\
    Form.values s' = build_obj_with (formMerge V) (Form.schema p) /\
    Form.latestValues s' = Form.values s'.
Proof.
  intros Hget. unfold Form.loadSettings. unfold_async.
  cbn -[Form.mergeStored]. rewrite Hget.
  rewrite mergeStored_obj. cbn. eexists. eexists.
  split; [reflexivity |]. split; reflexivity.
Qed.

(** X15. Once loaded, the form's values keep exactly the schema's keys
    through any series of edits of schema fields, whenever the edits are
    made and whatever the backend answers to the saves in between; the
    shown values and the edit buffer stay equal.  So what the form saves
    and broadcasts always carries every schema key. *)
Theorem form_values_keep_schema_keys :
  forall (p : Form.Props) (V : obj) (be : Backend) (st : Form.State)
         (evs : list event),
    NoDup (keys (Form.schema p)) ->
    be (Invoke "plugin:yaof|plugin_settings_get_all"
               [("pluginId", VStr (Form.pluginId p))]) = Ok (VObj V) ->
    (forall e, In e evs -> In (ev_key e) (keys (Form.schema p))) ->
    let s := state_of (run (Form.loadSettings p ;; formEdits p evs) be st) in
    keys (Form.values s) = keys (Form.schema p) /\
    Form.latestValues s = Form.values s.
Proof.
  intros p V be st evs Hnd Hget Hin s. subst s.
  unfold run, bind.
  destruct (form_load_state p V be st [] Hget) as (s1 & tr1 & Heq & Hv & Hl).
  rewrite Heq.
  destruct (formEdits_any p be evs s1 tr1) as (s2 & tr2 & Heq2 & Hl2 & Hv2).
  rewrite Heq2. cbn [state_of fst snd].
  rewrite (Hv2 (eq_sym Hl)). split; [| reflexivity].
  rewrite Hl2, Hl, Hv.
  destruct (build_obj_with_spec (formMerge V) (Form.schema p) Hnd) as [Hk _].
  rewrite buffered_keys_same; [exact Hk |].
  intros e He. rewrite Hk. now apply Hin.
Qed.

Lemma form_values_keep_schema_keys_witness :
  keys (Form.values
          (state_of (run (Form.loadSettings demoForm ;;
                          formEdits demoForm demoTyping)
                         (storeOf demoStored) Form.initial)))
  = ["format"; "title"; "look"]%string.
Proof.
  destruct (form_values_keep_schema_keys demoForm demoStored
              (storeOf demoStored) Form.initial demoTyping) as [H _].
  - cbn. repeat constructor; cbn; intuition discriminate.
  - reflexivity.
  - intros e He. cbn in He.
    repeat (destruct He as [<- | He]; [cbn; tauto |]). contradiction.
  - exact H.
Defined.

(** X16. When loading fails, the form shows the schema defaults and
    reports nothing to the caller, but its edit buffer is left as it was:
    the next edit shows the old buffer with the edited key set, not the
    defaults with the edited key set. *)
Theorem failed_load_keeps_old_edit_buffer :
  forall (p : Form.Props) (be : Backend) (st : Form.State),
    be (Invoke "plugin:yaof|plugin_settings_get_all"
               [("pluginId", VStr (Form.pluginId p))]) = Throw ->
    let r := run (Form.loadSettings p) be st in
    outcome_of r = Ok tt /\
    Form.values (state_of r) = Form.schemaDefaults (Form.schema p) /\
    Form.latestValues (state_of r) = Form.latestValues st /\
    Form.isLoading (state_of r) = false /\
    forall now key v,
      Form.values
        (state_of (run (Form.handleChange now key v) be (state_of r)))
      = obj_set (Form.latestValues st) key v.
Proof.
  intros p be st Hget r. subst r.
  unfold Form.loadSettings. unfold_async.
  cbn -[Form.mergeStored]. rewrite Hget. cbn. repeat split.
Qed.

Lemma failed_load_keeps_old_edit_buffer_witness :
  Form.values
    (state_of (run (Form.loadSettings demoForm) failingSettings
                   Form.initial))
  = [ ("format", VStr "24h"); ("title", VStr "");
      ("look", VObj [("color", VStr "#ff0000"); ("size", VInt 12)]) ] /\
  Form.values
    (state_of
       (run (Form.handleChange 0 "title" (VStr "Noon")) failingSettings
            (state_of (run (Form.loadSettings demoForm) failingSettings
                           Form.initial))))
  = [ ("title", VStr "Noon") ].
Proof.
  destruct (failed_load_keeps_old_edit_buffer demoForm failingSettings
              Form.initial eq_refl) as (_ & Hv & _ & _ & He).
  split; [exact Hv |].
  exact (He 0 "title"%string (VStr "Noon")).
Defined.

(** X17. The Save button never throws and always ends with [isSaving]
    off.  The broadcast is only sent after the write succeeded: when
    [plugin_settings_set_all] throws, no event is emitted, the error is
    logged and the form stays dirty.  The form is marked clean only when
    both the write and the broadcast succeeded - a failed broadcast after
    a successful write also leaves its dirty flag as it was. *)
Theorem save_outcomes :
  forall (p : Form.Props) (be : Backend) (st : Form.State),
    let r := run (Form.handleSave p) be st in
    let write := setAllCall (Form.pluginId p) (Form.values st) in
    let publish := broadcast (Form.pluginId p) (Form.values st) in
    outcome_of r = Ok tt /\
    Form.isSaving (state_of r) = false /\
    Form.values (state_of r) = Form.values st /\
    (be write = Throw ->
       calls_of r = [write; ConsoleError "Failed to save settings:"] /\
       Form.hasChanges (state_of r) = Form.hasChanges st) /\
    (be write <> Throw -> be publish = Throw ->
       calls_of r = [write; publish;
                     ConsoleError "Failed to save settings:"] /\
       Form.hasChanges (state_of r) = Form.hasChanges st) /\
    (be write <> Throw -> be publish <> Throw ->
       calls_of r = [write; publish] /\
       Form.hasChanges (state_of r) = false).
Proof.
  intros p be st r write publish. subst r write publish.
  unfold Form.handleSave, Form.saveAndEmit, setAllCall, broadcast,
    settings_topic.
  unfold_async. cbn.
  destruct (be (Invoke "plugin:yaof|plugin_settings_set_all" _)) eqn:E1; cbn.
  - destruct (be (Emit _ _)) eqn:E2; cbn; repeat split;
      try discriminate; try congruence; intros; try contradiction;
      try reflexivity; congruence.
  - repeat split; intros; try congruence; contradiction.
Qed.

Lemma save_outcomes_witness :
  calls_of (run (Form.handleSave demoForm) failingSettings demoFormEdited)
  = [ setAllCall "clock" (Form.values demoFormEdited);
      ConsoleError "Failed to save settings:" ] /\
  Form.hasChanges
    (state_of (run (Form.handleSave demoForm) failingSettings
                   demoFormEdited)) = true /\
  Form.hasChanges
    (state_of (run (Form.handleSave demoForm) emptyStore demoFormEdited))
  = false.
Proof.
  destruct (save_outcomes demoForm failingSettings demoFormEdited)
    as (_ & _ & _ & Hfail & _).
  destruct (save_outcomes demoForm emptyStore demoFormEdited)
    as (_ & _ & _ & _ & _ & Hok).
  destruct (Hfail eq_refl) as [Hc Hd].
  split; [exact Hc |]. split; [exact Hd |].
  apply Hok; discriminate.
Defined.

(* ================================================================== *)
(** ** usePluginSettings: listener, writes, resets *)
(* ================================================================== *)

(** X18. A received settings event is merged along the hook's own schema:
    the hook then holds exactly the schema keys, each bound to the
    payload's value when the payload has the key - a [null] included - and
    to the declared default otherwise; keys of the payload outside the
    schema are ignored, nothing is written to the store. *)
Theorem listener_merges_along_schema :
  forall (p : PluginSettings.Props) (payload : obj) (be : Backend)
         (st : PluginSettings.State),
    NoDup (keys (PluginSettings.schema p)) ->
    let r := run (PluginSettings.onSettingsChanged p payload) be st in
    keys (PluginSettings.values (state_of r))
    = keys (PluginSettings.schema p) /\
    (forall k f, In (k, f) (PluginSettings.schema p) ->
       obj_get (PluginSettings.values (state_of r)) k
       = if obj_has payload k then obj_get payload k else field_default f) /\
    calls_of r = [] /\
    PluginSettings.store (state_of r) = PluginSettings.store st.
Proof.
  intros p payload be st Hnd r. subst r.
  unfold PluginSettings.onSettingsChanged. unfold_async. cbn [fst snd].
  destruct (build_obj_with_spec
              (fun key field =>
                 if obj_has payload key then obj_get payload key
                 else field_default field)
              (PluginSettings.schema p) Hnd) as [Hk Hv].
  repeat split; [exact Hk | exact Hv].
Qed.

Lemma listener_merges_along_schema_witness :
  let after :=
    PluginSettings.values
      (state_of (run (PluginSettings.onSettingsChanged demoPlugin
                        [ ("title", VNull); ("obsolete", VInt 1) ])
                     emptyStore demoPluginLoaded)) in
  keys after = ["format"; "title"; "look"]%string /\
  obj_get after "title" = VNull /\
  obj_get after "format" = VStr "24h".
Proof.
  assert (Hnd : NoDup (keys (PluginSettings.schema demoPlugin))).
  { cbn. repeat constructor; cbn; intuition discriminate. }
  destruct (listener_merges_along_schema demoPlugin
              [ ("title", VNull); ("obsolete", VInt 1) ]
              emptyStore demoPluginLoaded Hnd) as (Hk & Hv & _).
  cbv zeta. split; [exact Hk |]. split.
  - apply (Hv "title"%string (StringField "Title" None)). cbn. tauto.
  - apply (Hv "format"%string
              (SelectField "Format"
                 [("12h", "12 hours"); ("24h", "24 hours")]%string
                 (Some "24h"%string))).
    cbn. tauto.
Defined.

Lemma writeAll_ok {S : Type} (h : string) (be : Backend)
  (Hset : forall k v, be (StoreSet h k v) <> Throw)
  (Hsave : be (StoreSave h) <> Throw) (pending : obj) :
  forall (s : S) (tr : list Call),
    writeAll h pending be s tr
    = (Ok tt, s, tr ++ setCalls h pending ++ [StoreSave h]).
Proof.
  unfold writeAll.
  induction pending as [| [k v] pending IH]; intros s tr.
  - cbn. unfold_async.
    destruct (be (StoreSave h)); [reflexivity | contradiction].
  - cbn. unfold_async. cbn.
    destruct (be (StoreSet h k v)) eqn:E; [| now apply Hset in E].
    pose proof (IH s (tr ++ [StoreSet h k v])) as Heq.
    unfold_async. cbn in Heq. rewrite Heq.
    now rewrite <- app_assoc.
Qed.

(** X19. [setSettings(updates)] with a loaded store assigns every update
    to the local values and writes one [set] per entry followed by one
    [save]; without a store handle it does nothing at all. *)
Theorem setSettings_writes_batch :
  forall (be : Backend) (s : PluginSettings.State) (updates : obj),
    (forall h, PluginSettings.store s = Some h ->
       (forall k v, be (StoreSet h k v) <> Throw) ->
       be (StoreSave h) <> Throw ->
       run (PluginSettings.setSettings updates) be s
       = (Ok tt,
          PluginSettings.setValues
            (obj_assign (PluginSettings.values s) updates) s,
          setCalls h updates ++ [StoreSave h])) /\
    (PluginSettings.store s = None ->
       run (PluginSettings.setSettings updates) be s = (Ok tt, s, [])).
Proof.
  intros be s updates. split.
  - intros h Hs Hset Hsave. unfold PluginSettings.setSettings, run.
    unfold bind at 1. unfold get at 1. rewrite Hs.
    unfold bind at 1. unfold modify at 1.
    exact (writeAll_ok h be Hset Hsave updates _ []).
  - intros Hs. unfold PluginSettings.setSettings. unfold_async.
    rewrite Hs. reflexivity.
Qed.

Lemma setSettings_writes_batch_witness :
  calls_of
    (run (PluginSettings.setSettings
            [("format", VStr "24h"); ("title", VStr "Noon")])
         emptyStore demoPluginLoaded)
  = [ StoreSet "clock-settings.json" "format" (VStr "24h");
      StoreSet "clock-settings.json" "title" (VStr "Noon");
      StoreSave "clock-settings.json" ] /\
  run (PluginSettings.setSettings [("format", VStr "24h")]) emptyStore
      PluginSettings.initial
  = (Ok tt, PluginSettings.initial, []).
Proof.
  split.
  - destruct (setSettings_writes_batch emptyStore demoPluginLoaded
                [("format", VStr "24h"); ("title", VStr "Noon")])
      as [H _].
    rewrite (H "clock-settings.json"%string eq_refl);
      [reflexivity | intros k v; discriminate | discriminate].
  - destruct (setSettings_writes_batch emptyStore PluginSettings.initial
                [("format", VStr "24h")]) as [_ H].
    exact (H eq_refl).
Defined.

(** X20. [setSetting] updates the local value before it writes: when
    [store.set] throws, the call rejects, [save] is not issued, and the
    local value stays changed (it is not rolled back). *)
Theorem setSetting_failure_is_not_rolled_back :
  forall (be : Backend) (s : PluginSettings.State) (h key : string)
         (v : value),
    PluginSettings.store s = Some h ->
    be (StoreSet h key v) = Throw ->
    let r := run (PluginSettings.setSetting key v) be s in
    outcome_of r = Throw /\
    calls_of r = [StoreSet h key v] /\
    obj_get (PluginSettings.values (state_of r)) key = v /\
    forall k, k <> key ->
      obj_get (PluginSettings.values (state_of r)) k
      = obj_get (PluginSettings.values s) k.
Proof.
  intros be s h key v Hs Hthrow r. subst r.
  unfold PluginSettings.setSetting. unfold_async. rewrite Hs. cbn.
  rewrite Hthrow. cbn. repeat split.
  - rewrite obj_get_set, String.eqb_refl. reflexivity.
  - intros k Hne. rewrite obj_get_set.
    destruct (String.eqb_spec key k); [congruence | reflexivity].
Qed.

Lemma setSetting_failure_is_not_rolled_back_witness :
  outcome_of (run (PluginSettings.setSetting "title" (VStr "Noon"))
                  rejectingStore demoPluginLoaded) = Throw /\
  obj_get
    (PluginSettings.values
       (state_of (run (PluginSettings.setSetting "title" (VStr "Noon"))
                      rejectingStore demoPluginLoaded))) "title"
  = VStr "Noon".
Proof.
  destruct (setSetting_failure_is_not_rolled_back rejectingStore
              demoPluginLoaded "clock-settings.json" "title" (VStr "Noon")
              eq_refl eq_refl) as (H1 & _ & H2 & _).
  split; assumption.
Defined.

Lemma schemaDefault_found (sch : SettingsSchema) (k : string)
  (f : SettingField) :
  NoDup (keys sch) -> In (k, f) sch ->
  PluginSettings.schemaDefault sch k = field_default f.
Proof.
  unfold PluginSettings.schemaDefault.
  induction sch as [| [k0 f0] sch IH]; intros Hnd Hin; [contradiction |].
  cbn. inversion Hnd as [| ? ? Hni Hnd']; subst.
  destruct Hin as [Heq | Hin].
  - injection Heq as -> ->. now rewrite String.eqb_refl.
  - destruct (String.eqb_spec k0 k) as [-> | Hne].
    + exfalso. apply Hni. change k with (fst (k, f)). now apply in_map.
    + now apply IH.
Qed.

(** X21. Resets of the SDK hook.  [resetAll()] with a loaded store puts
    the declared default of every schema field in the local values and
    writes them: one [set] per schema key, then one [save]; the values it
    leaves are those a load from an empty store gives.  [resetSetting(key)]
    sets and saves the declared default of that one field.  Without a
    store handle [resetAll] does nothing. *)
Theorem resets_write_declared_defaults :
  forall (p : PluginSettings.Props) (be : Backend)
         (s : PluginSettings.State),
    NoDup (keys (PluginSettings.schema p)) ->
    (forall h, PluginSettings.store s = Some h ->
       (forall k v, be (StoreSet h k v) <> Throw) ->
       be (StoreSave h) <> Throw ->
       let r := run (PluginSettings.resetAll p) be s in
       outcome_of r = Ok tt /\
       PluginSettings.values (state_of r) = PluginSettings.defaults p /\
       calls_of r = setCalls h (PluginSettings.defaults p) ++ [StoreSave h] /\
       keys (PluginSettings.defaults p) = keys (PluginSettings.schema p) /\
       PluginSettings.defaults p
       = build_obj_with (hookMerge []) (PluginSettings.schema p) /\
       forall k f, In (k, f) (PluginSettings.schema p) ->
         run (PluginSettings.resetSetting p k) be s
         = (Ok tt,
            PluginSettings.setValues
              (obj_set (PluginSettings.values s) k (field_default f)) s,
            [StoreSet h k (field_default f); StoreSave h])) /\
    (PluginSettings.store s = None ->
       run (PluginSettings.resetAll p) be s = (Ok tt, s, [])).
Proof.
  intros p be s Hnd. split.
  - intros h Hs Hset Hsave r. subst r.
    assert (Hrun : run (PluginSettings.resetAll p) be s
                   = (Ok tt,
                      PluginSettings.setValues (PluginSettings.defaults p) s,
                      setCalls h (PluginSettings.defaults p)
                        ++ [StoreSave h])).
    { unfold PluginSettings.resetAll, run.
      unfold bind at 1. unfold get at 1. rewrite Hs.
      unfold bind at 1. unfold modify at 1.
      exact (writeAll_ok h be Hset Hsave (PluginSettings.defaults p) _ []). }
    rewrite Hrun. cbn [outcome_of state_of calls_of fst snd].
    split; [reflexivity |]. split; [reflexivity |]. split; [reflexivity |].
    split.
    { exact (proj1 (build_obj_with_spec (fun _ => field_default)
                      (PluginSettings.schema p) Hnd)). }
    split; [reflexivity |].
    intros k f Hin. unfold PluginSettings.resetSetting.
    rewrite (schemaDefault_found _ k f Hnd Hin).
    apply setSetting_with_store; [exact Hs | apply Hset | exact Hsave].
  - intros Hs. unfold PluginSettings.resetAll. unfold_async.
    rewrite Hs. reflexivity.
Qed.

Lemma resets_write_declared_defaults_witness :
  calls_of (run (PluginSettings.resetAll demoPlugin) emptyStore
                demoPluginLoaded)
  = [ StoreSet "clock-settings.json" "format" (VStr "24h");
      StoreSet "clock-settings.json" "title" VUndefined;
      StoreSet "clock-settings.json" "look" VUndefined;
      StoreSave "clock-settings.json" ] /\
  PluginSettings.values
    (state_of (run (PluginSettings.resetAll demoPlugin) emptyStore
                   demoPluginLoaded))
  = PluginSettings.values
      (state_of (run (PluginSettings.loadSettings demoPlugin true)
                     emptyStore PluginSettings.initial)).
Proof.
  assert (Hnd : NoDup (keys (PluginSettings.schema demoPlugin))).
  { cbn. repeat constructor; cbn; intuition discriminate. }
  destruct (resets_write_declared_defaults demoPlugin emptyStore
              demoPluginLoaded Hnd) as [H _].
  destruct (H "clock-settings.json"%string eq_refl)
    as (_ & Hv & Hc & _).
  - intros k v. discriminate.
  - discriminate.
  - split; [rewrite Hc; reflexivity | rewrite Hv; reflexivity].
Defined.

(* ================================================================== *)
(** ** Loading overlay settings: stored over manifest over fallback *)
(* ================================================================== *)

Lemma overrideStored_reads {S : Type} (V : obj) (h : string) (be : Backend)
  (Hget : forall k, be (StoreGet h k) = Ok (obj_get V k))
  (ks : list string) :
  forall (acc : obj) (s : S) (tr : list Call),
    overrideStored h ks acc be s tr
    = (Ok (overridden V ks acc), s, tr ++ map (StoreGet h) ks).
Proof.
  unfold overrideStored, overridden.
  induction ks as [| k ks IH]; intros acc s tr.
  - cbn. now rewrite app_nil_r.
  - cbn. unfold_async. cbn. rewrite Hget. unfold_async. rewrite IH.
    now rewrite <- app_assoc.
Qed.

Lemma overridden_keys (V : obj) (ks : list string) :
  forall acc, (forall k, In k ks -> In k (keys acc)) ->
              keys (overridden V ks acc) = keys acc.
Proof.
  unfold overridden.
  induction ks as [| k ks IH]; intros acc Hin; [reflexivity |].
  cbn [fold_left].
  destruct (negb (is_nullish (obj_get V k))).
  - assert (Hk : keys (obj_set acc k (obj_get V k)) = keys acc).
    { apply keys_set_old. apply Hin. now left. }
    rewrite IH; [exact Hk |].
    intros k' Hk'. rewrite Hk. apply Hin. now right.
  - apply IH. intros k' Hk'. apply Hin. now right.
Qed.

Lemma overridden_get (V : obj) (ks : list string) :
  forall acc k,
    obj_get (overridden V ks acc) k
    = if existsb (String.eqb k) ks && negb (is_nullish (obj_get V k))
      then obj_get V k else obj_get acc k.
Proof.
  unfold overridden.
  induction ks as [| k0 ks IH]; intros acc k; [reflexivity |].
  cbn [fold_left existsb]. rewrite IH.
  destruct (String.eqb_spec k k0) as [-> | Hne].
  - cbn [orb].
    destruct (existsb (String.eqb k0) ks);
      destruct (negb (is_nullish (obj_get V k0))) eqn:E; cbn;
      try reflexivity.
    rewrite obj_get_set, String.eqb_refl. reflexivity.
  - cbn [orb].
    destruct (existsb (String.eqb k) ks && negb (is_nullish (obj_get V k)));
      [reflexivity |].
    destruct (negb (is_nullish (obj_get V k0))); [| reflexivity].
    rewrite obj_get_set.
    destruct (String.eqb_spec k0 k); [congruence | reflexivity].
Qed.

Lemma overridden_own_keys (V acc : obj) :
  keys (overridden V (keys acc) acc) = keys acc /\
  forall k, In k (keys acc) ->
    obj_get (overridden V (keys acc) acc) k
    = if is_nullish (obj_get V k) then obj_get acc k else obj_get V k.
Proof.
  split; [apply overridden_keys; auto |].
  intros k Hin. rewrite overridden_get.
  assert (He : existsb (String.eqb k) (keys acc) = true)
    by now apply existsb_eqb_In.
  rewrite He. cbn. destruct (is_nullish (obj_get V k)); reflexivity.
Qed.

(** X22. What the overlay hook holds after a successful load follows the
    priority stored value, then manifest, then fallback: the settings have
    exactly the nine setting keys, each bound to the stored value when one
    is stored and non-null and to the manifest-derived default otherwise
    (stray stored keys are ignored); an explicit manifest [x] beats the
    position preset; and without a manifest entry the defaults are the
    fallback defaults. *)
Theorem hook_load_priority :
  forall (p : OverlayHook.Props) (V : obj) (be : Backend)
         (st : OverlayHook.State),
    be (StoreLoad (OverlayHook.storeName p)) <> Throw ->
    (forall k, be (StoreGet (OverlayHook.storeName p) k)
               = Ok (obj_get V k)) ->
    let s := state_of (run (OverlayHook.loadSettings p true) be st) in
    let defaults := OverlayHook.buildDefaults (OverlayHook.overlayDef p) in
    keys (OverlayHook.settings s)
    = ["enabled"; "width"; "height"; "x"; "y"; "positionPreset"; "opacity";
       "clickThrough"; "alwaysOnTop"]%string /\
    (forall k, In k (keys defaults) ->
       obj_get (OverlayHook.settings s) k
       = if is_nullish (obj_get V k) then obj_get defaults k
         else obj_get V k) /\
    OverlayHook.manifestDefaults s = defaults /\
    OverlayHook.store s = Some (OverlayHook.storeName p) /\
    OverlayHook.isLoading s = false /\
    (forall d xv, OverlayHook.overlayDef p = Some d ->
       Manifest.x d = Some xv -> obj_get defaults "x" = VNum xv) /\
    (OverlayHook.overlayDef p = None ->
       defaults = OverlayHook.FALLBACK_DEFAULTS).
Proof.
  intros p V be st Hload Hget s defaults.
  assert (Hs : OverlayHook.settings s
               = overridden V (keys defaults) defaults
               /\ OverlayHook.manifestDefaults s = defaults
               /\ OverlayHook.store s = Some (OverlayHook.storeName p)
               /\ OverlayHook.isLoading s = false).
  { subst s. unfold OverlayHook.loadSettings. unfold_async.
    cbn -[overrideStored OverlayHook.applySettings
          OverlayHook.buildDefaults].
    destruct (be (StoreLoad (OverlayHook.storeName p))) eqn:EL;
      [| contradiction].
    cbn -[overrideStored OverlayHook.applySettings
          OverlayHook.buildDefaults].
    rewrite (overrideStored_reads V _ be Hget).
    cbn -[overrideStored OverlayHook.applySettings
          OverlayHook.buildDefaults].
    match goal with
    | |- context [OverlayHook.applySettings p ?v true be ?s0 ?tr] =>
        destruct (applySettings_skip_calls p be s0 v tr)
          as (r2 & tr2 & Heq2 & _ & _); rewrite Heq2
    end.
    destruct r2; cbn; auto. }
  destruct Hs as (Hset & Hm & Hst & Hl).
  destruct (overridden_own_keys V defaults) as [Hk Hv].
  rewrite Hset.
  split; [rewrite Hk; reflexivity |].
  split; [exact Hv |].
  split; [exact Hm |]. split; [exact Hst |]. split; [exact Hl |].
  split.
  - intros d xv Hd Hx. subst defaults. rewrite Hd. cbn. rewrite Hx.
    reflexivity.
  - intros Hd. subst defaults. rewrite Hd. reflexivity.
Qed.

Lemma hook_load_priority_witness :
  OverlayHook.settings
    (state_of (run (OverlayHook.loadSettings demoHook true)
                   (storeOf demoOverlayStored) OverlayHook.initial))
  = [ ("enabled", VBool true); ("width", VInt 500); ("height", VInt 200);
      ("x", VInt 40); ("y", VInt 440);
      ("positionPreset", VStr "center"); ("opacity", VInt 100);
      ("clickThrough", VBool true); ("alwaysOnTop", VBool true) ] /\
  obj_get
    (OverlayHook.settings
       (state_of (run (OverlayHook.loadSettings demoHook true)
                      (storeOf demoOverlayStored) OverlayHook.initial)))
    "x" = VInt 40.
Proof.
  destruct (hook_load_priority demoHook demoOverlayStored
              (storeOf demoOverlayStored) OverlayHook.initial)
    as (_ & Hv & _).
  - discriminate.
  - reflexivity.
  - split; [reflexivity |].
    apply (Hv "x"%string). cbn. tauto.
Defined.

(** X23. The settings panel after a successful load: its settings have
    exactly the seven panel keys, each bound to the stored value when one
    is stored and non-null and to the manifest default otherwise; the
    running badge reflects the existence query (and is off when the query
    throws); the only command sent to the window manager is that query. *)
Theorem panel_load_priority :
  forall (p : Panel.Props) (V : obj) (be : Backend) (st : Panel.State),
    be (StoreLoad (Panel.storeName p)) <> Throw ->
    (forall k, be (StoreGet (Panel.storeName p) k) = Ok (obj_get V k)) ->
    let r := run (Panel.loadSettings p true) be st in
    let defaults := Panel.getDefaultSettings (Panel.overlayDefinition p) in
    keys (Panel.settings (state_of r))
    = ["enabled"; "width"; "height"; "x"; "y"; "alwaysOnTop";
       "clickThrough"]%string /\
    (forall k, In k (keys defaults) ->
       obj_get (Panel.settings (state_of r)) k
       = if is_nullish (obj_get V k) then obj_get defaults k
         else obj_get V k) /\
    Panel.isOverlayRunning (state_of r)
    = match be (Panel.existsCall p) with
      | Ok e => truthy e
      | Throw => false
      end /\
    Panel.store (state_of r) = Some (Panel.storeName p) /\
    Panel.isLoading (state_of r) = false /\
    outcome_of r = Ok tt /\
    invocations (calls_of r) = [Panel.existsCall p].
Proof.
  intros p V be st Hload Hget r defaults.
  assert (Hs : Panel.settings (state_of r)
               = overridden V (keys defaults) defaults
               /\ Panel.isOverlayRunning (state_of r)
                  = match be (Panel.existsCall p) with
                    | Ok e => truthy e
                    | Throw => false
                    end
               /\ Panel.store (state_of r) = Some (Panel.storeName p)
               /\ Panel.isLoading (state_of r) = false
               /\ outcome_of r = Ok tt
               /\ invocations (calls_of r) = [Panel.existsCall p]).
  { subst r. unfold Panel.loadSettings, Panel.checkOverlayStatus.
    unfold_async.
    cbn -[overrideStored Panel.getDefaultSettings Panel.existsCall].
    destruct (be (StoreLoad (Panel.storeName p))) eqn:EL; [| contradiction].
    cbn -[overrideStored Panel.getDefaultSettings Panel.existsCall].
    rewrite (overrideStored_reads V _ be Hget).
    cbn -[overrideStored Panel.getDefaultSettings Panel.existsCall].
    assert (Hinv : forall ks tail,
               invocations tail = [Panel.existsCall p] ->
               invocations
                 (([StoreLoad (Panel.storeName p)]
                   ++ map (StoreGet (Panel.storeName p)) ks) ++ tail)
               = [Panel.existsCall p]).
    { intros ks tail Ht. rewrite !invocations_app, Ht.
      assert (Hm : invocations (map (StoreGet (Panel.storeName p)) ks) = []).
      { induction ks; [reflexivity | exact IHks]. }
      rewrite Hm. reflexivity. }
    destruct (be (Panel.existsCall p)) eqn:EE; cbn;
      repeat split; apply Hinv; reflexivity. }
  destruct Hs as (Hset & Hrun & Hst & Hl & Ho & Hc).
  destruct (overridden_own_keys V defaults) as [Hk Hv].
  rewrite Hset.
  split; [rewrite Hk; reflexivity |].
  split; [exact Hv |]. auto.
Qed.

Lemma panel_load_priority_witness :
  Panel.settings
    (state_of (run (Panel.loadSettings demoPanel true)
                   (storeOf demoOverlayStored) (Panel.initial demoPanel)))
  = [ ("enabled", VBool true); ("width", VInt 500); ("height", VInt 200);
      ("x", VInt 40); ("y", VInt 440); ("alwaysOnTop", VBool true);
      ("clickThrough", VBool true) ] /\
  obj_get
    (Panel.settings
       (state_of (run (Panel.loadSettings demoPanel true)
                      (storeOf demoOverlayStored) (Panel.initial demoPanel))))
    "clickThrough" = VBool true.
Proof.
  destruct (panel_load_priority demoPanel demoOverlayStored
              (storeOf demoOverlayStored) (Panel.initial demoPanel))
    as (_ & Hv & _).
  - discriminate.
  - reflexivity.
  - split; [reflexivity |].
    apply (Hv "clickThrough"%string). cbn. tauto.
Defined.

(* ================================================================== *)
(** ** useOverlaySettings: applying, bursts, missing store *)
(* ================================================================== *)

(** X24. [applySettings] sends geometry, click-through (unless skipped),
    always-on-top and visibility in that order inside one [try]: the first
    command that throws is the last one sent, the error is logged, the
    function itself never throws and the hook state is left alone. *)
Theorem applySettings_stops_at_first_failure :
  forall (p : OverlayHook.Props) (be : Backend) (s : OverlayHook.State)
         (v : obj) (skip : bool),
    let r := run (OverlayHook.applySettings p v skip) be s in
    invocations (calls_of r)
    = issued_until_throw be (hookCommands p v skip) /\
    outcome_of r = Ok tt /\
    state_of r = s.
Proof.
  intros p be s v skip r. subst r.
  unfold OverlayHook.applySettings, hookCommands. unfold_async.
  destruct skip;
    cbn -[OverlayHook.geometryCall OverlayHook.clickThroughCall
          OverlayHook.alwaysOnTopCall OverlayHook.visibleCall];
    repeat (settle_call;
            cbn -[OverlayHook.geometryCall OverlayHook.clickThroughCall
                  OverlayHook.alwaysOnTopCall OverlayHook.visibleCall];
            use_answers);
    repeat split.
Qed.

Example applySettings_on_stuck_window :
  calls_of (run (OverlayHook.applySettings demoHook
                   (OverlayHook.settings demoHookLoaded) false)
                stuckWindow demoHookLoaded)
  = [ OverlayHook.geometryCall demoHook (OverlayHook.settings demoHookLoaded);
      ConsoleError "[useOverlaySettings] Failed to apply:" ].
Proof. reflexivity. Qed.

(** X25. When the store cannot be opened, the overlay hook keeps the
    settings it had, sends nothing to the window manager and stops
    loading without throwing.  Updates made without a store handle change
    the local settings only: the flush they schedule empties the buffer
    and issues no store write and no window command. *)
Theorem hook_without_store :
  forall (p : OverlayHook.Props) (be : Backend) (st : OverlayHook.State),
    (be (StoreLoad (OverlayHook.storeName p)) = Throw ->
       run (OverlayHook.loadSettings p true) be st
       = (Ok tt, OverlayHook.setIsLoading false st,
          [ StoreLoad (OverlayHook.storeName p);
            ConsoleError "[useOverlaySettings] Failed to load:" ])) /\
    (OverlayHook.store st = None ->
     forall now updates later,
       now + OverlayHook.DEBOUNCE_DELAY <= later ->
       let r := run (OverlayHook.updateSettings now updates ;;
                     OverlayHook.tick p later) be st in
       calls_of r = [] /\
       OverlayHook.settings (state_of r)
       = obj_assign (OverlayHook.settings st) updates /\
       OverlayHook.pendingUpdates (state_of r) = [] /\
       OverlayHook.debounceTimer (state_of r) = None).
Proof.
  intros p be st. split.
  - intros Hload. unfold OverlayHook.loadSettings. unfold_async.
    cbn -[overrideStored OverlayHook.applySettings
          OverlayHook.buildDefaults].
    rewrite Hload. reflexivity.
  - intros Hs now updates later Hle r. subst r.
    unfold OverlayHook.updateSettings, OverlayHook.updateSettingsOf,
      OverlayHook.debouncedApply, OverlayHook.tick, OverlayHook.onTimeout.
    unfold_async. cbn -[Z.add writeAll OverlayHook.applySettings].
    apply Z.leb_le in Hle. rewrite Hle.
    cbn -[Z.add writeAll OverlayHook.applySettings]. rewrite Hs.
    cbn. repeat split.
Qed.

Lemma hook_without_store_witness :
  OverlayHook.settings
    (state_of (run (OverlayHook.loadSettings demoHook true) brokenStore
                   OverlayHook.initial))
  = OverlayHook.FALLBACK_DEFAULTS /\
  calls_of (run (OverlayHook.updateSettings 0 [("x", VInt 5)] ;;
                 OverlayHook.tick demoHook 300) brokenStore
                OverlayHook.initial) = [].
Proof.
  destruct (hook_without_store demoHook brokenStore OverlayHook.initial)
    as [Hload Hupd].
  split.
  - rewrite (Hload eq_refl). reflexivity.
  - destruct (Hupd eq_refl 0 [("x", VInt 5)] 300) as (Hc & _).
    + cbn. discriminate.
    + exact Hc.
Defined.








(* ================================================================== *)
(** ** Spawning, and a failing existence query *)
(* ================================================================== *)

(** X27. A pass on a missing window that is being enabled marks the
    overlay as running only when the spawn succeeded; a spawn that throws
    is logged and leaves the panel state as it was, and the pass does not
    throw.  When the existence query itself throws, the pass rejects right
    there: nothing else is issued and the state is untouched. *)
Theorem spawn_and_query_failures :
  forall (p : Panel.Props) (be : Backend) (st : Panel.State)
         (upd cur : obj),
    let r := run (Panel.applyToOverlay p upd cur) be st in
    (be (Panel.existsCall p) = Throw ->
       r = (Throw, st, [Panel.existsCall p])) /\
    (forall e, be (Panel.existsCall p) = Ok e -> truthy e = false ->
       obj_get upd "enabled" = VBool true ->
       (be (spawnCall p cur) <> Throw ->
          r = (Ok tt, Panel.setIsOverlayRunning true st,
               [Panel.existsCall p; spawnCall p cur])) /\
       (be (spawnCall p cur) = Throw ->
          r = (Ok tt, st,
               [Panel.existsCall p; spawnCall p cur;
                ConsoleError "Failed to spawn overlay:"]))).
Proof.
  intros p be st upd cur r. subst r. split.
  - intros He. unfold Panel.applyToOverlay. unfold_async. cbn.
    rewrite He. reflexivity.
  - intros e He Ht Hen. unfold Panel.applyToOverlay, spawnCall.
    unfold_async. cbn -[Panel.spawnConfig]. rewrite He.
    cbn -[Panel.spawnConfig]. rewrite Ht, Hen. cbn -[Panel.spawnConfig].
    destruct (be (Invoke "plugin:yaof|spawn_overlay" _)) eqn:Es;
      split; intros H; try reflexivity; try contradiction; discriminate.
Qed.

Lemma spawn_and_query_failures_witness :
  Panel.isOverlayRunning
    (state_of (run (Panel.applyToOverlay demoPanel [("enabled", VBool true)]
                      (Panel.getDefaultSettings demoDef))
                   noWindow (Panel.initial demoPanel))) = true /\
  run (Panel.applyToOverlay demoPanel [("enabled", VBool true)]
         (Panel.getDefaultSettings demoDef))
      failingSettings (Panel.initial demoPanel)
  = (Throw, Panel.initial demoPanel,
     [Invoke "plugin:yaof|overlay_exists" [("id", VStr "clock-main")]]).
Proof.
  split.
  - destruct (spawn_and_query_failures demoPanel noWindow
                (Panel.initial demoPanel) [("enabled", VBool true)]
                (Panel.getDefaultSettings demoDef)) as [_ H].
    destruct (H (VBool false) eq_refl eq_refl eq_refl) as [Hok _].
    rewrite Hok by discriminate. reflexivity.
  - destruct (spawn_and_query_failures demoPanel failingSettings
                (Panel.initial demoPanel) [("enabled", VBool true)]
                (Panel.getDefaultSettings demoDef)) as [H _].
    exact (H eq_refl).
Defined.

(* ================================================================== *)
(** ** Defaults of the settings form are never missing *)
(* ================================================================== *)

Lemma getDefaultValue_not_nullish (f : SettingField) :
  is_nullish (getDefaultValue f) = false.
Proof.
  destruct f; cbn;
    repeat match goal with
           | o : option _ |- _ => destruct o; cbn
           | l : options |- _ => destruct l as [| [? ?] ?]; cbn
           end; reflexivity.
Qed.

(** X28. [getDefaultValue] never yields [null] or [undefined], whatever
    the field declares; so after a successful load every schema key of the
    settings form holds a value that is neither [null] nor [undefined]. *)
Theorem form_values_are_never_missing :
  forall (p : Form.Props) (V : obj) (be : Backend) (st : Form.State)
         (k : string) (f : SettingField),
    NoDup (keys (Form.schema p)) ->
    be (Invoke "plugin:yaof|plugin_settings_get_all"
               [("pluginId", VStr (Form.pluginId p))]) = Ok (VObj V) ->
    In (k, f) (Form.schema p) ->
    is_nullish (getDefaultValue f) = false /\
    is_nullish
      (obj_get (Form.values (state_of (run (Form.loadSettings p) be st))) k)
    = false.
Proof.
  intros p V be st k f Hnd Hget Hin.
  split; [apply getDefaultValue_not_nullish |].
  rewrite (form_load_values p V be st Hget).
  destruct (build_obj_with_spec (formMerge V) (Form.schema p) Hnd) as [_ Hv].
  rewrite (Hv k f Hin). unfold formMerge, nullish_or.
  destruct (is_nullish (obj_get V k)) eqn:E;
    [apply getDefaultValue_not_nullish | exact E].
Qed.

Lemma form_values_are_never_missing_witness :
  is_nullish
    (obj_get (Form.values
                (state_of (run (Form.loadSettings demoForm)
                               (storeOf demoStored) Form.initial)))
             "title") = false.
Proof.
  assert (Hnd : NoDup (keys (Form.schema demoForm))).
  { cbn. repeat constructor; cbn; intuition discriminate. }
  destruct (form_values_are_never_missing demoForm demoStored
              (storeOf demoStored) Form.initial
              "title" (StringField "Title" None) Hnd eq_refl) as [_ H].
  - cbn. tauto.
  - exact H.
Defined.
